(** * YM2612 register model, SysEx framing and VGI loader

    A shallow embedding of [YM2612.py] (class [YM2612Chip] with its nested
    classes [__YMChannel] and [__YMOperator]) and the properties of the
    register codec that the design document states about it.

    Conventions of the embedding.
    - Python integers are [Z]; [&], [|], [<<], [>>] are [Z.land], [Z.lor],
      [Z.shiftl], [Z.shiftr] (two's complement on negatives, like Python).
    - The dictionaries [self.channel] (keys 0..5) and [self.operator]
      (keys 0..3) are created with a fixed key set and no method adds or
      removes a key, so they are total maps over the index types [ChanId]
      and [OpId].
    - Channel objects are mutable and may be shared: [self.channel] maps an
      index to a reference, and the objects live in a store.
    - Methods run in a state monad with Python exceptions; the logger
      output and the messages given to [midiout.send_message] are recorded
      in the state.  [time.sleep] is not modelled.
    - The file system is given by what [open] answers for the name: the
      bytes of the file, or a failure that raises [OSError]. *)

From Stdlib Require Import ZArith NArith List Lia Bool String Ascii.
From Stdlib.Strings Require Import Byte.
From Stdlib Require Import DecimalString.
Import ListNotations.
Local Open Scope Z_scope.

(** ** Module constants (lines 12-35) *)

Definition YM_MAX_NUM_USER_PRESETS : Z := 5.
Definition YM_MAX_NUM_DEFAULT_PRESETS : Z := 8.
Definition YM_MAX_VOICES : Z := 6.
Definition YM_MAX_OPERATORS : Z := 4.

Definition YM_SYSEX_CMD_SET_REG : Z := 0.
Definition YM_SYSEX_CMD_SAVE_PRESET : Z := 1.
Definition YM_SYSEX_CMD_LOAD_PRESET : Z := 2.
Definition YM_SYSEX_CMD_LOAD_DEFAULT_PRESET : Z := 3.

Definition YM_PRESET_DX_PIANO : Z := 0.
Definition YM_PRESET_GUITAR : Z := 1.
Definition YM_PRESET_SAWTOOTH : Z := 2.
Definition YM_PRESET_SONIC : Z := 3.

(** ** Fixed-key dictionaries *)

Inductive OpId : Set := Op0 | Op1 | Op2 | Op3.
Inductive ChanId : Set := Ch0 | Ch1 | Ch2 | Ch3 | Ch4 | Ch5.

(** [range(4)] and [range(6)] as the loops enumerate them. *)
Definition op_range : list OpId := [Op0; Op1; Op2; Op3].
Definition ch_range : list ChanId := [Ch0; Ch1; Ch2; Ch3; Ch4; Ch5].

Definition OpId_to_Z (k : OpId) : Z :=
  match k with Op0 => 0 | Op1 => 1 | Op2 => 2 | Op3 => 3 end.

Definition ChanId_to_Z (k : ChanId) : Z :=
  match k with Ch0 => 0 | Ch1 => 1 | Ch2 => 2 | Ch3 => 3 | Ch4 => 4 | Ch5 => 5 end.

Record Dict4 (A : Type) : Type := mkDict4 { d4_0 : A; d4_1 : A; d4_2 : A; d4_3 : A }.
Arguments mkDict4 {A} _ _ _ _.
Arguments d4_0 {A} _.
Arguments d4_1 {A} _.
Arguments d4_2 {A} _.
Arguments d4_3 {A} _.

Record Dict6 (A : Type) : Type :=
  mkDict6 { d6_0 : A; d6_1 : A; d6_2 : A; d6_3 : A; d6_4 : A; d6_5 : A }.
Arguments mkDict6 {A} _ _ _ _ _ _.
Arguments d6_0 {A} _.
Arguments d6_1 {A} _.
Arguments d6_2 {A} _.
Arguments d6_3 {A} _.
Arguments d6_4 {A} _.
Arguments d6_5 {A} _.

Definition get4 {A} (d : Dict4 A) (k : OpId) : A :=
  match k with Op0 => d4_0 d | Op1 => d4_1 d | Op2 => d4_2 d | Op3 => d4_3 d end.

Definition set4 {A} (d : Dict4 A) (k : OpId) (v : A) : Dict4 A :=
  match k with
  | Op0 => mkDict4 v (d4_1 d) (d4_2 d) (d4_3 d)
  | Op1 => mkDict4 (d4_0 d) v (d4_2 d) (d4_3 d)
  | Op2 => mkDict4 (d4_0 d) (d4_1 d) v (d4_3 d)
  | Op3 => mkDict4 (d4_0 d) (d4_1 d) (d4_2 d) v
  end.

Definition get6 {A} (d : Dict6 A) (k : ChanId) : A :=
  match k with
  | Ch0 => d6_0 d | Ch1 => d6_1 d | Ch2 => d6_2 d
  | Ch3 => d6_3 d | Ch4 => d6_4 d | Ch5 => d6_5 d
  end.

Definition set6 {A} (d : Dict6 A) (k : ChanId) (v : A) : Dict6 A :=
  match k with
  | Ch0 => mkDict6 v (d6_1 d) (d6_2 d) (d6_3 d) (d6_4 d) (d6_5 d)
  | Ch1 => mkDict6 (d6_0 d) v (d6_2 d) (d6_3 d) (d6_4 d) (d6_5 d)
  | Ch2 => mkDict6 (d6_0 d) (d6_1 d) v (d6_3 d) (d6_4 d) (d6_5 d)
  | Ch3 => mkDict6 (d6_0 d) (d6_1 d) (d6_2 d) v (d6_4 d) (d6_5 d)
  | Ch4 => mkDict6 (d6_0 d) (d6_1 d) (d6_2 d) (d6_3 d) v (d6_5 d)
  | Ch5 => mkDict6 (d6_0 d) (d6_1 d) (d6_2 d) (d6_3 d) (d6_4 d) v
  end.

(** ** Operator: class [__YMOperator] (lines 376-432) *)

Record YMOperator : Set := mkOperator {
  detune : Z;
  multiple : Z;
  total_level : Z;
  key_scale : Z;
  attack_rate : Z;
  amp_mod_on : Z;
  decay_rate : Z;
  sustain_rate : Z;
  sustain_level : Z;
  release_rate : Z;
  ssg_envelope : Z
}.

(** [__YMOperator.__init__]: [op_id] is accepted and not stored. *)
Definition YMOperator_init (op_id detune multiple total_level key_scale
    attack_rate amp_mod_on decay_rate sustain_rate sustain_level
    release_rate ssg_envelope : Z) : YMOperator :=
  mkOperator detune multiple total_level key_scale attack_rate amp_mod_on
    decay_rate sustain_rate sustain_level release_rate ssg_envelope.

(** The call [__YMOperator(op_id=k)] with every other argument defaulted. *)
Definition YMOperator_default (op_id : Z) : YMOperator :=
  YMOperator_init op_id 0 0 0 0 0 0 0 0 0 0 0.

(** Attribute assignment [op.<field> = v]. *)
Definition set_detune (v : Z) (o : YMOperator) : YMOperator :=
  mkOperator v (multiple o) (total_level o) (key_scale o) (attack_rate o)
    (amp_mod_on o) (decay_rate o) (sustain_rate o) (sustain_level o)
    (release_rate o) (ssg_envelope o).
Definition set_multiple (v : Z) (o : YMOperator) : YMOperator :=
  mkOperator (detune o) v (total_level o) (key_scale o) (attack_rate o)
    (amp_mod_on o) (decay_rate o) (sustain_rate o) (sustain_level o)
    (release_rate o) (ssg_envelope o).
Definition set_total_level (v : Z) (o : YMOperator) : YMOperator :=
  mkOperator (detune o) (multiple o) v (key_scale o) (attack_rate o)
    (amp_mod_on o) (decay_rate o) (sustain_rate o) (sustain_level o)
    (release_rate o) (ssg_envelope o).
Definition set_key_scale (v : Z) (o : YMOperator) : YMOperator :=
  mkOperator (detune o) (multiple o) (total_level o) v (attack_rate o)
    (amp_mod_on o) (decay_rate o) (sustain_rate o) (sustain_level o)
    (release_rate o) (ssg_envelope o).
Definition set_attack_rate (v : Z) (o : YMOperator) : YMOperator :=
  mkOperator (detune o) (multiple o) (total_level o) (key_scale o) v
    (amp_mod_on o) (decay_rate o) (sustain_rate o) (sustain_level o)
    (release_rate o) (ssg_envelope o).
Definition set_amp_mod_on (v : Z) (o : YMOperator) : YMOperator :=
  mkOperator (detune o) (multiple o) (total_level o) (key_scale o)
    (attack_rate o) v (decay_rate o) (sustain_rate o) (sustain_level o)
    (release_rate o) (ssg_envelope o).
Definition set_decay_rate (v : Z) (o : YMOperator) : YMOperator :=
  mkOperator (detune o) (multiple o) (total_level o) (key_scale o)
    (attack_rate o) (amp_mod_on o) v (sustain_rate o) (sustain_level o)
    (release_rate o) (ssg_envelope o).
Definition set_sustain_rate (v : Z) (o : YMOperator) : YMOperator :=
  mkOperator (detune o) (multiple o) (total_level o) (key_scale o)
    (attack_rate o) (amp_mod_on o) (decay_rate o) v (sustain_level o)
    (release_rate o) (ssg_envelope o).
Definition set_sustain_level (v : Z) (o : YMOperator) : YMOperator :=
  mkOperator (detune o) (multiple o) (total_level o) (key_scale o)
    (attack_rate o) (amp_mod_on o) (decay_rate o) (sustain_rate o) v
    (release_rate o) (ssg_envelope o).
Definition set_release_rate (v : Z) (o : YMOperator) : YMOperator :=
  mkOperator (detune o) (multiple o) (total_level o) (key_scale o)
    (attack_rate o) (amp_mod_on o) (decay_rate o) (sustain_rate o)
    (sustain_level o) v (ssg_envelope o).
Definition set_ssg_envelope (v : Z) (o : YMOperator) : YMOperator :=
  mkOperator (detune o) (multiple o) (total_level o) (key_scale o)
    (attack_rate o) (amp_mod_on o) (decay_rate o) (sustain_rate o)
    (sustain_level o) (release_rate o) v.

(** The seven register getters of an operator. *)
Definition get_reg_DETMUL (self : YMOperator) : Z :=
  Z.lor (Z.land (Z.shiftl (detune self) 4) 0x70) (Z.land (multiple self) 0x0F).

Definition get_reg_TL (self : YMOperator) : Z :=
  Z.land (total_level self) 0x7F.

Definition get_reg_KSAR (self : YMOperator) : Z :=
  Z.lor (Z.shiftl (Z.land (key_scale self) 0x03) 6)
        (Z.land (attack_rate self) 0x1F).

Definition get_reg_AMDR (self : YMOperator) : Z :=
  Z.lor (Z.shiftl (Z.land (amp_mod_on self) 0x01) 7)
        (Z.land (decay_rate self) 0x1F).

Definition get_reg_SR (self : YMOperator) : Z :=
  Z.land (sustain_rate self) 0x1F.

Definition get_reg_SLRL (self : YMOperator) : Z :=
  Z.lor (Z.shiftl (Z.land (sustain_level self) 0x0F) 4)
        (Z.land (release_rate self) 0x0F).

Definition get_reg_SSGEG (self : YMOperator) : Z :=
  Z.land (ssg_envelope self) 0x0F.

(** ** Channel: class [__YMChannel] (lines 342-374) *)

Record YMChannel : Set := mkChannel {
  channel_id : Z;
  feedback : Z;
  op_algorithm : Z;
  audio_out : Z;
  phase_mod_sens : Z;
  amp_mod_sens : Z;
  operator : Dict4 YMOperator
}.

Definition YMChannel_init (channel_id feedback op_algorithm audio_out
    phase_mod_sens amp_mod_sens : Z) : YMChannel :=
  mkChannel channel_id feedback op_algorithm audio_out phase_mod_sens
    amp_mod_sens
    (mkDict4 (YMOperator_default 0) (YMOperator_default 1)
             (YMOperator_default 2) (YMOperator_default 3)).

(** The call [__YMChannel(channel_id=k)]: the signature defaults are
    [feedback=0, op_algorithm=0, audio_out=3, phase_mod_sens=0,
    amp_mod_sens=0]. *)
Definition YMChannel_default (channel_id : Z) : YMChannel :=
  YMChannel_init channel_id 0 0 3 0 0.

Definition set_channel_id (v : Z) (ch : YMChannel) : YMChannel :=
  mkChannel v (feedback ch) (op_algorithm ch) (audio_out ch)
    (phase_mod_sens ch) (amp_mod_sens ch) (operator ch).
Definition set_feedback (v : Z) (ch : YMChannel) : YMChannel :=
  mkChannel (channel_id ch) v (op_algorithm ch) (audio_out ch)
    (phase_mod_sens ch) (amp_mod_sens ch) (operator ch).
Definition set_op_algorithm (v : Z) (ch : YMChannel) : YMChannel :=
  mkChannel (channel_id ch) (feedback ch) v (audio_out ch)
    (phase_mod_sens ch) (amp_mod_sens ch) (operator ch).
Definition set_audio_out (v : Z) (ch : YMChannel) : YMChannel :=
  mkChannel (channel_id ch) (feedback ch) (op_algorithm ch) v
    (phase_mod_sens ch) (amp_mod_sens ch) (operator ch).
Definition set_phase_mod_sens (v : Z) (ch : YMChannel) : YMChannel :=
  mkChannel (channel_id ch) (feedback ch) (op_algorithm ch) (audio_out ch)
    v (amp_mod_sens ch) (operator ch).
Definition set_amp_mod_sens (v : Z) (ch : YMChannel) : YMChannel :=
  mkChannel (channel_id ch) (feedback ch) (op_algorithm ch) (audio_out ch)
    (phase_mod_sens ch) v (operator ch).

(** [ch.operator[k].<field> = v]: the operator objects are owned by their
    channel object (the operator dictionary is never reassigned), so the
    update is an update of the channel object. *)
Definition update_operator (k : OpId) (f : YMOperator -> YMOperator)
    (ch : YMChannel) : YMChannel :=
  mkChannel (channel_id ch) (feedback ch) (op_algorithm ch) (audio_out ch)
    (phase_mod_sens ch) (amp_mod_sens ch)
    (set4 (operator ch) k (f (get4 (operator ch) k))).

Definition get_reg_LRAMSPMS (self : YMChannel) : Z :=
  Z.lor (Z.lor (Z.shiftl (Z.land (audio_out self) 0x03) 6)
               (Z.shiftl (Z.land (amp_mod_sens self) 0x03) 4))
        (Z.land (phase_mod_sens self) 0x07).

Definition get_reg_FBALG (self : YMChannel) : Z :=
  Z.lor (Z.shiftl (Z.land (feedback self) 0x03) 3)
        (Z.land (op_algorithm self) 0x07).

(** ** Effects: state, exceptions, logger, transport *)

(** The exceptions the modelled statements can raise: [struct.error] from
    [struct.unpack] on a short read, [UnicodeEncodeError] from
    [str.encode], and [OSError] ([FileNotFoundError], [PermissionError],
    ...) from [open]. *)
Inductive PyExc : Set := StructError | UnicodeEncodeError | OSError.

Inductive Result (A : Type) : Type :=
| Return (a : A)
| Raise (e : PyExc).
Arguments Return {A} a.
Arguments Raise {A} e.

(** A computation over a state [S]; the state reached so far is kept when
    an exception propagates, as in Python. *)
Definition M (S A : Type) : Type := S -> Result A * S.

Definition ret {S A : Type} (a : A) : M S A := fun s => (Return a, s).

Definition raise {S A : Type} (e : PyExc) : M S A := fun s => (Raise e, s).

Definition bind {S A B : Type} (m : M S A) (k : A -> M S B) : M S B :=
  fun s =>
    match m s with
    | (Return a, s') => k a s'
    | (Raise e, s') => (Raise e, s')
    end.

Definition gets {S A : Type} (f : S -> A) : M S A := fun s => (Return (f s), s).

Definition modify {S : Type} (f : S -> S) : M S unit := fun s => (Return tt, f s).

Declare Scope py_scope.
Delimit Scope py_scope with py.
Notation "x <- m ;; k" := (bind m (fun x => k))
  (at level 61, m at next level, right associativity) : py_scope.
Notation "m ;; k" := (bind m (fun _ => k))
  (at level 61, right associativity) : py_scope.
Local Open Scope py_scope.

(** [for x in xs: body]. *)
Fixpoint for_each {S A : Type} (xs : list A) (body : A -> M S unit) : M S unit :=
  match xs with
  | [] => ret tt
  | x :: rest => body x ;; for_each rest body
  end.

(** [list.append]. *)
Definition list_append {A : Type} (l : list A) (x : A) : list A := l ++ [x].

(** The calls of [self.logger.info], each with the values its message is
    formatted with.  [LogPresetSetupVoiceUnformatted] is the call
    [info("PRESET: Setup voice", voice)] of [set_custom_preset]: its
    message has no placeholder for the argument, so a handler cannot
    format the record and reports a logging error in place of a line;
    nothing is raised to the caller. *)
Inductive LogRecord : Set :=
| LogSendDataStart
| LogDataLen (n : Z)
| LogSysExCmd (cmd : Z)
| LogSendFinish
| LogNotInit
| LogVgiLoadFile (vgi_filename : string)
| LogVgiSizeError (len : Z)
| LogPresetSetupVoiceUnformatted (voice : Z)
| LogPresetEnd.

(** A MIDI output object supplied by the caller. *)
Inductive MidiOut : Set := MidiPort (n : nat).

(** A reference to one of the six channel objects that [__init__]
    allocates. *)
Definition Ref : Set := ChanId.

(** ** Chip: class [YM2612Chip] *)

(** The attributes of the chip object, the store of channel objects it
    created, its logger output and the messages it has passed to
    [midiout.send_message].  The five [self_*] attributes do not exist
    until [load_vgi_file] assigns them. *)
Record YM2612Chip : Set := mkChip {
  logger : list LogRecord;
  midiout : option MidiOut;
  vendor_id : Z;
  lfo_on : Z;
  lfo_freq : Z;
  channel : Dict6 Ref;
  self_op_algorithm : option Z;
  self_feedback : option Z;
  self_audio_out : option Z;
  self_amp_mod_sens : option Z;
  self_phase_mod_sens : option Z;
  store : Dict6 YMChannel;
  sent : list (list Z)
}.

Definition set_logger (v : list LogRecord) (c : YM2612Chip) : YM2612Chip :=
  mkChip v (midiout c) (vendor_id c) (lfo_on c) (lfo_freq c) (channel c)
    (self_op_algorithm c) (self_feedback c) (self_audio_out c)
    (self_amp_mod_sens c) (self_phase_mod_sens c) (store c) (sent c).
Definition set_midiout (v : option MidiOut) (c : YM2612Chip) : YM2612Chip :=
  mkChip (logger c) v (vendor_id c) (lfo_on c) (lfo_freq c) (channel c)
    (self_op_algorithm c) (self_feedback c) (self_audio_out c)
    (self_amp_mod_sens c) (self_phase_mod_sens c) (store c) (sent c).
Definition set_lfo_on (v : Z) (c : YM2612Chip) : YM2612Chip :=
  mkChip (logger c) (midiout c) (vendor_id c) v (lfo_freq c) (channel c)
    (self_op_algorithm c) (self_feedback c) (self_audio_out c)
    (self_amp_mod_sens c) (self_phase_mod_sens c) (store c) (sent c).
Definition set_lfo_freq (v : Z) (c : YM2612Chip) : YM2612Chip :=
  mkChip (logger c) (midiout c) (vendor_id c) (lfo_on c) v (channel c)
    (self_op_algorithm c) (self_feedback c) (self_audio_out c)
    (self_amp_mod_sens c) (self_phase_mod_sens c) (store c) (sent c).
Definition set_channel (v : Dict6 Ref) (c : YM2612Chip) : YM2612Chip :=
  mkChip (logger c) (midiout c) (vendor_id c) (lfo_on c) (lfo_freq c) v
    (self_op_algorithm c) (self_feedback c) (self_audio_out c)
    (self_amp_mod_sens c) (self_phase_mod_sens c) (store c) (sent c).
Definition set_self_op_algorithm (v : Z) (c : YM2612Chip) : YM2612Chip :=
  mkChip (logger c) (midiout c) (vendor_id c) (lfo_on c) (lfo_freq c)
    (channel c) (Some v) (self_feedback c) (self_audio_out c)
    (self_amp_mod_sens c) (self_phase_mod_sens c) (store c) (sent c).
Definition set_self_feedback (v : Z) (c : YM2612Chip) : YM2612Chip :=
  mkChip (logger c) (midiout c) (vendor_id c) (lfo_on c) (lfo_freq c)
    (channel c) (self_op_algorithm c) (Some v) (self_audio_out c)
    (self_amp_mod_sens c) (self_phase_mod_sens c) (store c) (sent c).
Definition set_self_audio_out (v : Z) (c : YM2612Chip) : YM2612Chip :=
  mkChip (logger c) (midiout c) (vendor_id c) (lfo_on c) (lfo_freq c)
    (channel c) (self_op_algorithm c) (self_feedback c) (Some v)
    (self_amp_mod_sens c) (self_phase_mod_sens c) (store c) (sent c).
Definition set_self_amp_mod_sens (v : Z) (c : YM2612Chip) : YM2612Chip :=
  mkChip (logger c) (midiout c) (vendor_id c) (lfo_on c) (lfo_freq c)
    (channel c) (self_op_algorithm c) (self_feedback c) (self_audio_out c)
    (Some v) (self_phase_mod_sens c) (store c) (sent c).
Definition set_self_phase_mod_sens (v : Z) (c : YM2612Chip) : YM2612Chip :=
  mkChip (logger c) (midiout c) (vendor_id c) (lfo_on c) (lfo_freq c)
    (channel c) (self_op_algorithm c) (self_feedback c) (self_audio_out c)
    (self_amp_mod_sens c) (Some v) (store c) (sent c).
Definition set_store (v : Dict6 YMChannel) (c : YM2612Chip) : YM2612Chip :=
  mkChip (logger c) (midiout c) (vendor_id c) (lfo_on c) (lfo_freq c)
    (channel c) (self_op_algorithm c) (self_feedback c) (self_audio_out c)
    (self_amp_mod_sens c) (self_phase_mod_sens c) v (sent c).
Definition set_sent (v : list (list Z)) (c : YM2612Chip) : YM2612Chip :=
  mkChip (logger c) (midiout c) (vendor_id c) (lfo_on c) (lfo_freq c)
    (channel c) (self_op_algorithm c) (self_feedback c) (self_audio_out c)
    (self_amp_mod_sens c) (self_phase_mod_sens c) (store c) v.

(** [YM2612Chip.__init__(midi_out=None, lfo_on=0, lfo_freq=0)]
    (lines 41-65): six fresh channel objects, slot [k] referring to the
    object built with [channel_id=k]. *)
Definition YM2612Chip_init (midi_out : option MidiOut) (lfo_on lfo_freq : Z)
    : YM2612Chip :=
  mkChip [] midi_out 0x001234 lfo_on lfo_freq
    (mkDict6 Ch0 Ch1 Ch2 Ch3 Ch4 Ch5)
    None None None None None
    (mkDict6 (YMChannel_default 0) (YMChannel_default 1)
             (YMChannel_default 2) (YMChannel_default 3)
             (YMChannel_default 4) (YMChannel_default 5))
    [].

(** [self.channel[ch_id]]: the object the slot refers to. *)
Definition chan (self : YM2612Chip) (ch_id : ChanId) : YMChannel :=
  get6 (store self) (get6 (channel self) ch_id).

(** [self.channel[ch_id].<attr> = ...]: the object the slot refers to is
    updated in place, for every slot that refers to it. *)
Definition update_channel (ch_id : ChanId) (f : YMChannel -> YMChannel)
    (self : YM2612Chip) : YM2612Chip :=
  set_store (set6 (store self) (get6 (channel self) ch_id) (f (chan self ch_id)))
            self.

Definition logger_info (r : LogRecord) : M YM2612Chip unit :=
  modify (fun self => set_logger (list_append (logger self) r) self).

(** [self.midiout.send_message(sysex_data)]. *)
Definition send_message (msg : list Z) : M YM2612Chip unit :=
  modify (fun self => set_sent (list_append (sent self) msg) self).

(** [__send_midi_cmd] (lines 67-98). *)
Definition send_midi_cmd (midi_cmd : Z) (cmd_payload : list Z)
    : M YM2612Chip bool :=
  let retval := false in
  mo <- gets midiout ;;
  match mo with
  | Some _ =>
      logger_info LogSendDataStart ;;
      let sysex_cmd := midi_cmd in
      let sysex_data := [] in
      let sysex_data := list_append sysex_data 0xF0 in
      vid <- gets vendor_id ;;
      let sysex_data := list_append sysex_data (Z.land (Z.shiftr vid 16) 0xFF) in
      let sysex_data := list_append sysex_data (Z.land (Z.shiftr vid 8) 0xFF) in
      let sysex_data := list_append sysex_data (Z.land (Z.shiftr vid 0) 0xFF) in
      let sysex_data := list_append sysex_data sysex_cmd in
      let sysex_data := sysex_data ++ cmd_payload in
      let sysex_data := list_append sysex_data 0xF7 in
      send_message sysex_data ;;
      logger_info (LogDataLen (Z.of_nat (List.length sysex_data))) ;;
      logger_info (LogSysExCmd sysex_cmd) ;;
      logger_info LogSendFinish ;;
      ret true
  | None =>
      logger_info LogNotInit ;;
      ret retval
  end.

(** [__get_LFO] (lines 100-102). *)
Definition get_LFO (self : YM2612Chip) : Z :=
  Z.lor (Z.shiftl (Z.land (lfo_on self) 0x01) 3) (Z.land (lfo_freq self) 0x07).

(** [__get_reg_values_array] (lines 104-130): the two loops accumulate into
    [reg_array] one [append] at a time. *)
Definition get_reg_values_array (self : YM2612Chip) : list Z :=
  let reg_array := [] in
  let reg_array := list_append reg_array (lfo_on self) in
  let reg_array := list_append reg_array (lfo_freq self) in
  fold_left (fun reg_array ch_id =>
    let reg_array := list_append reg_array (feedback (chan self ch_id)) in
    let reg_array := list_append reg_array (op_algorithm (chan self ch_id)) in
    let reg_array := list_append reg_array (audio_out (chan self ch_id)) in
    let reg_array := list_append reg_array (amp_mod_sens (chan self ch_id)) in
    let reg_array := list_append reg_array (phase_mod_sens (chan self ch_id)) in
    fold_left (fun reg_array op_id =>
      let op := get4 (operator (chan self ch_id)) op_id in
      let reg_array := list_append reg_array (detune op) in
      let reg_array := list_append reg_array (multiple op) in
      let reg_array := list_append reg_array (total_level op) in
      let reg_array := list_append reg_array (key_scale op) in
      let reg_array := list_append reg_array (attack_rate op) in
      let reg_array := list_append reg_array (amp_mod_on op) in
      let reg_array := list_append reg_array (decay_rate op) in
      let reg_array := list_append reg_array (sustain_rate op) in
      let reg_array := list_append reg_array (sustain_level op) in
      let reg_array := list_append reg_array (release_rate op) in
      let reg_array := list_append reg_array (ssg_envelope op) in
      reg_array) op_range reg_array) ch_range reg_array.

(** ** VGI file loading (lines 132-133 and 167-201) *)

(** A binary file opened for reading: its bytes and the read position. *)
Record FileHandle : Set := mkFile { contents : list byte; position : nat }.

Definition byte_val (b : byte) : Z := Z.of_N (Byte.to_N b).

(** State of [load_vgi_file] inside its [with open(...)] block. *)
Definition Loader : Set := (YM2612Chip * FileHandle)%type.

(** A statement on [self] executed while the file is open. *)
Definition on_self {A : Type} (m : M YM2612Chip A) : M Loader A :=
  fun st => let (r, self) := m (fst st) in (r, (self, snd st)).

(** [byte_reader.read()]: everything from the read position to the end. *)
Definition file_read_all : M Loader (list byte) :=
  fun st =>
    (Return (skipn (position (snd st)) (contents (snd st))),
     (fst st, mkFile (contents (snd st)) (List.length (contents (snd st))))).

(** [byte_reader.seek(0)]. *)
Definition file_seek (pos : nat) : M Loader unit :=
  fun st => (Return tt, (fst st, mkFile (contents (snd st)) pos)).

(** [__read_byte]: [struct.unpack('B', file_handler.read(1))[0]];
    [read(1)] returns no byte at the end of the file and [struct.unpack]
    then raises. *)
Definition read_byte : M Loader Z :=
  fun st =>
    match nth_error (contents (snd st)) (position (snd st)) with
    | Some b =>
        (Return (byte_val b),
         (fst st, mkFile (contents (snd st)) (S (position (snd st)))))
    | None => (Raise StructError, st)
    end.

(** [with open(vgi_filename, 'rb') as byte_reader: body].  [opened] is
    what the file system answers for the name: [Some file] when the file
    opens, holding the bytes [file], and [None] when [open] raises
    [OSError]; the body is not entered then. *)
Definition with_open {A : Type} (opened : option (list byte))
    (body : M Loader A) : M YM2612Chip A :=
  fun self =>
    match opened with
    | Some file => let (r, st) := body (self, mkFile file 0) in (r, fst st)
    | None => (Raise OSError, self)
    end.

(** [range(5)] of the copy loop, and [channel_id + 1] as a slot key. *)
Definition copy_range : list ChanId := [Ch0; Ch1; Ch2; Ch3; Ch4].

Definition ch_next (k : ChanId) : ChanId :=
  match k with
  | Ch0 => Ch1 | Ch1 => Ch2 | Ch2 => Ch3 | Ch3 => Ch4 | Ch4 => Ch5 | Ch5 => Ch5
  end.

(** [self.channel[ch_id].<attr> = v] and
    [self.channel[ch_id].operator[op_id].<attr> = v]. *)
Definition assign_ch (ch_id : ChanId) (setter : Z -> YMChannel -> YMChannel)
    (v : Z) : M YM2612Chip unit :=
  modify (update_channel ch_id (setter v)).

Definition assign_op (ch_id : ChanId) (op_id : OpId)
    (setter : Z -> YMOperator -> YMOperator) (v : Z) : M YM2612Chip unit :=
  modify (update_channel ch_id (update_operator op_id (setter v))).

Definition assign_op0 (operator_id : OpId)
    (setter : Z -> YMOperator -> YMOperator) (v : Z) : M Loader unit :=
  on_self (assign_op Ch0 operator_id setter v).

Definition load_vgi_file (vgi_filename : string)
    (opened : option (list byte)) : M YM2612Chip unit :=
  logger_info (LogVgiLoadFile vgi_filename) ;;
  with_open opened (
    byte_data <- file_read_all ;;
    if (List.length byte_data =? 43)%nat then
      file_seek 0 ;;
      v <- read_byte ;; on_self (modify (set_self_op_algorithm v)) ;;
      v <- read_byte ;; on_self (modify (set_self_feedback v)) ;;
      reg <- read_byte ;;
      on_self (modify (set_self_audio_out (Z.land (Z.shiftr reg 6) 0x03))) ;;
      on_self (modify (set_self_amp_mod_sens (Z.land (Z.shiftr reg 4) 0x03))) ;;
      on_self (modify (set_self_phase_mod_sens (Z.land (Z.shiftr reg 0) 0x07))) ;;
      for_each op_range (fun operator_id =>
        v <- read_byte ;; assign_op0 operator_id set_multiple v ;;
        v <- read_byte ;; assign_op0 operator_id set_detune v ;;
        v <- read_byte ;; assign_op0 operator_id set_total_level v ;;
        v <- read_byte ;; assign_op0 operator_id set_key_scale v ;;
        v <- read_byte ;; assign_op0 operator_id set_attack_rate v ;;
        reg <- read_byte ;;
        assign_op0 operator_id set_amp_mod_on (Z.land (Z.shiftr reg 7) 0x01) ;;
        assign_op0 operator_id set_decay_rate (Z.land (Z.shiftr reg 0) 0x1F) ;;
        v <- read_byte ;; assign_op0 operator_id set_sustain_rate v ;;
        v <- read_byte ;; assign_op0 operator_id set_release_rate v ;;
        v <- read_byte ;; assign_op0 operator_id set_sustain_level v ;;
        v <- read_byte ;; assign_op0 operator_id set_ssg_envelope v) ;;
      for_each copy_range (fun channel_id =>
        on_self (modify (fun self =>
          set_channel (set6 (channel self) (ch_next channel_id)
                            (get6 (channel self) Ch0)) self)) ;;
        on_self (assign_ch (ch_next channel_id) set_channel_id
                           (ChanId_to_Z channel_id + 1)))
    else
      on_self (logger_info (LogVgiSizeError (Z.of_nat (List.length byte_data))))).

(** ** Preset names *)

(** A Python [str]: its code points. *)
Definition PyStr : Set := list N.

Definition str_of_string (s : string) : PyStr :=
  map N_of_ascii (list_ascii_of_string s).

(** ["{:<15}".format(s)]: left-justified in a field of at least [width]
    characters, filled with spaces; a longer string is kept whole. *)
Definition format_ljust (width : nat) (s : PyStr) : PyStr :=
  s ++ repeat 32%N (width - List.length s).

(** UTF-8 encoding of one code point; a surrogate cannot be encoded. *)
Definition utf8_char (cp : N) : option (list Z) :=
  let z := Z.of_N cp in
  if z <? 0x80 then Some [z]
  else if z <? 0x800 then
    Some [Z.lor 0xC0 (Z.shiftr z 6); Z.lor 0x80 (Z.land z 0x3F)]
  else if (0xD800 <=? z) && (z <=? 0xDFFF) then None
  else if z <? 0x10000 then
    Some [Z.lor 0xE0 (Z.shiftr z 12);
          Z.lor 0x80 (Z.land (Z.shiftr z 6) 0x3F);
          Z.lor 0x80 (Z.land z 0x3F)]
  else
    Some [Z.lor 0xF0 (Z.shiftr z 18);
          Z.lor 0x80 (Z.land (Z.shiftr z 12) 0x3F);
          Z.lor 0x80 (Z.land (Z.shiftr z 6) 0x3F);
          Z.lor 0x80 (Z.land z 0x3F)].

Fixpoint utf8 (s : PyStr) : option (list Z) :=
  match s with
  | [] => Some []
  | cp :: rest =>
      match utf8_char cp, utf8 rest with
      | Some bs, Some more => Some (bs ++ more)
      | _, _ => None
      end
  end.

(** [s.encode()] (UTF-8 is the default encoding). *)
Definition str_encode {S : Type} (s : PyStr) : M S (list Z) :=
  match utf8 s with
  | Some bs => ret bs
  | None => raise UnicodeEncodeError
  end.

(** ** MIDI commands (lines 203-270) *)

Definition midi_set_reg_values : M YM2612Chip bool :=
  let cmd_midi := YM_SYSEX_CMD_SET_REG in
  let cmd_payload := [] in
  regs <- gets get_reg_values_array ;;
  let cmd_payload := cmd_payload ++ regs in
  retval <- send_midi_cmd cmd_midi cmd_payload ;;
  ret retval.

Definition midi_save_preset (preset_pos : Z) (preset_name : PyStr)
    : M YM2612Chip bool :=
  let retval := false in
  if preset_pos <? YM_MAX_NUM_USER_PRESETS then
    let cmd_midi := YM_SYSEX_CMD_SAVE_PRESET in
    let cmd_payload := [] in
    let cmd_payload := list_append cmd_payload preset_pos in
    let format_preset_name := format_ljust 15 preset_name in
    preset_name_bytes <- str_encode format_preset_name ;;
    let cmd_payload :=
      fold_left (fun cmd_payload str_ch =>
        let cmd_payload :=
          list_append cmd_payload (Z.land (Z.shiftr str_ch 0) 0x0F) in
        let cmd_payload :=
          list_append cmd_payload (Z.land (Z.shiftr str_ch 4) 0x0F) in
        cmd_payload) preset_name_bytes cmd_payload in
    regs <- gets get_reg_values_array ;;
    let cmd_payload := cmd_payload ++ regs in
    retval <- send_midi_cmd cmd_midi cmd_payload ;;
    ret retval
  else ret retval.

Definition midi_load_default_preset (preset_pos : Z) : M YM2612Chip bool :=
  let retval := false in
  if preset_pos <? YM_MAX_NUM_DEFAULT_PRESETS then
    let cmd_midi := YM_SYSEX_CMD_LOAD_DEFAULT_PRESET in
    let cmd_payload := [] in
    let cmd_payload := list_append cmd_payload preset_pos in
    retval <- send_midi_cmd cmd_midi cmd_payload ;;
    ret retval
  else ret retval.

Definition midi_load_preset (preset_pos : Z) : M YM2612Chip bool :=
  let retval := false in
  if preset_pos <? YM_MAX_NUM_USER_PRESETS then
    let cmd_midi := YM_SYSEX_CMD_LOAD_PRESET in
    let cmd_payload := [] in
    let cmd_payload := list_append cmd_payload preset_pos in
    retval <- send_midi_cmd cmd_midi cmd_payload ;;
    ret retval
  else ret retval.

(** [set_custom_preset] (lines 272-340). *)
Definition set_custom_preset : M YM2612Chip bool :=
  let retval := true in
  modify (set_lfo_on 1) ;;
  modify (set_lfo_freq 0) ;;
  for_each ch_range (fun voice =>
    logger_info (LogPresetSetupVoiceUnformatted (ChanId_to_Z voice)) ;;
    assign_ch voice set_op_algorithm 4 ;;
    assign_ch voice set_feedback 3 ;;
    assign_ch voice set_audio_out 3 ;;
    assign_ch voice set_phase_mod_sens 0 ;;
    assign_ch voice set_amp_mod_sens 2 ;;
    assign_op voice Op0 set_total_level 0x28 ;;
    assign_op voice Op0 set_multiple 15 ;;
    assign_op voice Op0 set_detune 3 ;;
    assign_op voice Op0 set_attack_rate 31 ;;
    assign_op voice Op0 set_decay_rate 4 ;;
    assign_op voice Op0 set_sustain_level 0 ;;
    assign_op voice Op0 set_sustain_rate 10 ;;
    assign_op voice Op0 set_release_rate 3 ;;
    assign_op voice Op0 set_key_scale 1 ;;
    assign_op voice Op0 set_amp_mod_on 1 ;;
    assign_op voice Op0 set_ssg_envelope 0x00 ;;
    assign_op voice Op1 set_total_level 0x07 ;;
    assign_op voice Op1 set_multiple 3 ;;
    assign_op voice Op1 set_detune 5 ;;
    assign_op voice Op1 set_attack_rate 30 ;;
    assign_op voice Op1 set_decay_rate 8 ;;
    assign_op voice Op1 set_sustain_level 3 ;;
    assign_op voice Op1 set_sustain_rate 6 ;;
    assign_op voice Op1 set_release_rate 3 ;;
    assign_op voice Op1 set_key_scale 1 ;;
    assign_op voice Op1 set_amp_mod_on 0 ;;
    assign_op voice Op1 set_ssg_envelope 0x00 ;;
    assign_op voice Op2 set_total_level 0x19 ;;
    assign_op voice Op2 set_multiple 7 ;;
    assign_op voice Op2 set_detune 5 ;;
    assign_op voice Op2 set_attack_rate 31 ;;
    assign_op voice Op2 set_decay_rate 4 ;;
    assign_op voice Op2 set_sustain_level 3 ;;
    assign_op voice Op2 set_sustain_rate 17 ;;
    assign_op voice Op2 set_release_rate 1 ;;
    assign_op voice Op2 set_key_scale 1 ;;
    assign_op voice Op2 set_amp_mod_on 0 ;;
    assign_op voice Op2 set_ssg_envelope 0x00 ;;
    assign_op voice Op3 set_total_level 0x03 ;;
    assign_op voice Op3 set_multiple 2 ;;
    assign_op voice Op3 set_detune 4 ;;
    assign_op voice Op3 set_attack_rate 31 ;;
    assign_op voice Op3 set_decay_rate 5 ;;
    assign_op voice Op3 set_sustain_level 2 ;;
    assign_op voice Op3 set_sustain_rate 12 ;;
    assign_op voice Op3 set_release_rate 3 ;;
    assign_op voice Op3 set_key_scale 1 ;;
    assign_op voice Op3 set_amp_mod_on 0 ;;
    assign_op voice Op3 set_ssg_envelope 0x00) ;;
  retval <-
    (if retval then
       mo <- gets midiout ;;
       match mo with
       | Some _ => midi_set_reg_values
       | None => ret retval
       end
     else ret retval) ;;
  logger_info LogPresetEnd ;;
  ret retval.

(** ** Histories of a chip object

    What a client does with a chip between its construction and any later
    moment: it calls the public methods, assigns [midiout], and assigns
    register attributes of the chip and of [chip.channel[k]]. *)
Inductive Call : Type :=
| CallLoadVgiFile (vgi_filename : string) (opened : option (list byte))
| CallMidiSetRegValues
| CallMidiSavePreset (preset_pos : Z) (preset_name : PyStr)
| CallMidiLoadDefaultPreset (preset_pos : Z)
| CallMidiLoadPreset (preset_pos : Z)
| CallSetCustomPreset
| AssignMidiout (midi_out : option MidiOut)
| AssignLfoOn (v : Z)
| AssignLfoFreq (v : Z)
| AssignChannel (ch_id : ChanId) (f : YMChannel -> YMChannel).

(** The state after one step; an exception leaves the state reached when
    it was raised. *)
Definition exec (call : Call) (self : YM2612Chip) : YM2612Chip :=
  match call with
  | CallLoadVgiFile vgi_filename opened =>
      snd (load_vgi_file vgi_filename opened self)
  | CallMidiSetRegValues => snd (midi_set_reg_values self)
  | CallMidiSavePreset preset_pos preset_name =>
      snd (midi_save_preset preset_pos preset_name self)
  | CallMidiLoadDefaultPreset preset_pos =>
      snd (midi_load_default_preset preset_pos self)
  | CallMidiLoadPreset preset_pos => snd (midi_load_preset preset_pos self)
  | CallSetCustomPreset => snd (set_custom_preset self)
  | AssignMidiout midi_out => set_midiout midi_out self
  | AssignLfoOn v => set_lfo_on v self
  | AssignLfoFreq v => set_lfo_freq v self
  | AssignChannel ch_id f => update_channel ch_id f self
  end.

Definition run (calls : list Call) (self : YM2612Chip) : YM2612Chip :=
  fold_left (fun self call => exec call self) calls self.

(** ** Vocabulary of the design document

    The definitions below follow the wording of the design document, to be
    compared with the code above. *)

(** The eleven operator parameters with their declared bit widths. *)
Inductive OpField : Set :=
| FDetune | FMultiple | FTotalLevel | FKeyScale | FAttackRate | FAmpModOn
| FDecayRate | FSustainRate | FSustainLevel | FReleaseRate | FSsgEnvelope.

Definition field_width (f : OpField) : Z :=
  match f with
  | FDetune => 3
  | FMultiple => 4
  | FTotalLevel => 7
  | FKeyScale => 2
  | FAttackRate => 5
  | FAmpModOn => 1
  | FDecayRate => 5
  | FSustainRate => 5
  | FSustainLevel => 4
  | FReleaseRate => 4
  | FSsgEnvelope => 4
  end.

(** Largest value of a field, and the value masked to the field's width. *)
Definition field_max (f : OpField) : Z := 2 ^ field_width f - 1.

Definition field_mask (f : OpField) (v : Z) : Z := Z.land v (field_max f).

Definition field_set (f : OpField) : Z -> YMOperator -> YMOperator :=
  match f with
  | FDetune => set_detune
  | FMultiple => set_multiple
  | FTotalLevel => set_total_level
  | FKeyScale => set_key_scale
  | FAttackRate => set_attack_rate
  | FAmpModOn => set_amp_mod_on
  | FDecayRate => set_decay_rate
  | FSustainRate => set_sustain_rate
  | FSustainLevel => set_sustain_level
  | FReleaseRate => set_release_rate
  | FSsgEnvelope => set_ssg_envelope
  end.

(** The seven register bytes of an operator in the documented order
    DETMUL, TL, KSAR, AMDR, SR, SLRL, SSGEG. *)
Definition operator_regs (op : YMOperator) : list Z :=
  [get_reg_DETMUL op; get_reg_TL op; get_reg_KSAR op; get_reg_AMDR op;
   get_reg_SR op; get_reg_SLRL op; get_reg_SSGEG op].

(** Flattening order: the 11 operator fields, the 5 voice fields followed
    by operators 0..3, and the two LFO fields followed by voices 0..5. *)
Definition operator_block (op : YMOperator) : list Z :=
  [detune op; multiple op; total_level op; key_scale op; attack_rate op;
   amp_mod_on op; decay_rate op; sustain_rate op; sustain_level op;
   release_rate op; ssg_envelope op].

Definition voice_block (ch : YMChannel) : list Z :=
  [feedback ch; op_algorithm ch; audio_out ch; amp_mod_sens ch;
   phase_mod_sens ch]
  ++ flat_map (fun op_id => operator_block (get4 (operator ch) op_id)) op_range.

Definition flatten_layout (self : YM2612Chip) : list Z :=
  [lfo_on self; lfo_freq self]
  ++ flat_map (fun ch_id => voice_block (chan self ch_id)) ch_range.

(** SysEx envelope around a command code and a payload. *)
Definition sysex_frame (vendor command : Z) (payload : list Z) : list Z :=
  [0xF0; Z.land (Z.shiftr vendor 16) 0xFF; Z.land (Z.shiftr vendor 8) 0xFF;
   Z.land vendor 0xFF; command] ++ payload ++ [0xF7].

(** A frame of the wire format: F0 00 12 34 cmd payload... F7 with
    [cmd] one of the four command codes. *)
Definition frame_ok (frame : list Z) : Prop :=
  exists command payload,
    In command [0; 1; 2; 3]
    /\ frame = [0xF0; 0x00; 0x12; 0x34; command] ++ payload ++ [0xF7]
    /\ hd_error frame = Some 0xF0
    /\ last frame 0 = 0xF7
    /\ nth_error frame 4 = Some command.

(** The two nibbles of each name byte, low nibble first. *)
Definition name_nibbles (bs : list Z) : list Z :=
  flat_map (fun b => [Z.land b 0x0F; Z.land (Z.shiftr b 4) 0x0F]) bs.

(** Byte [i] of a VGI buffer, and the operator stored in the ten bytes
    from offset [base]: multiple, detune, total_level, key_scale,
    attack_rate, amp_mod_on/decay_rate, sustain_rate, release_rate,
    sustain_level, ssg_envelope. *)
Definition vgi_byte (file : list byte) (i : nat) : Z :=
  byte_val (nth i file x00).

Definition vgi_operator (file : list byte) (base : nat) : YMOperator :=
  mkOperator
    (vgi_byte file (base + 1))
    (vgi_byte file base)
    (vgi_byte file (base + 2))
    (vgi_byte file (base + 3))
    (vgi_byte file (base + 4))
    (Z.land (Z.shiftr (vgi_byte file (base + 5)) 7) 0x01)
    (Z.land (vgi_byte file (base + 5)) 0x1F)
    (vgi_byte file (base + 6))
    (vgi_byte file (base + 8))
    (vgi_byte file (base + 7))
    (vgi_byte file (base + 9)).

Definition vgi_operators (file : list byte) : Dict4 YMOperator :=
  mkDict4 (vgi_operator file 3) (vgi_operator file 13)
          (vgi_operator file 23) (vgi_operator file 33).

(** The part of a chip state that holds register values and their
    sharing: everything except the logger output. *)
Definition without_log (self : YM2612Chip) : YM2612Chip := set_logger [] self.

(** The state a load of a 43-byte buffer leads to: the three voice-level
    bytes land in attributes of the chip, the four operators in the object
    slot 0 refers to, and every slot refers to that object, whose
    [channel_id] the copy loop leaves at 5. *)
Definition vgi_loaded (vgi_filename : string) (file : list byte)
    (self : YM2612Chip) : YM2612Chip :=
  let r := get6 (channel self) Ch0 in
  let shared := get6 (store self) r in
  mkChip
    (list_append (logger self) (LogVgiLoadFile vgi_filename))
    (midiout self) (vendor_id self) (lfo_on self) (lfo_freq self)
    (mkDict6 r r r r r r)
    (Some (vgi_byte file 0))
    (Some (vgi_byte file 1))
    (Some (Z.land (Z.shiftr (vgi_byte file 2) 6) 0x03))
    (Some (Z.land (Z.shiftr (vgi_byte file 2) 4) 0x03))
    (Some (Z.land (vgi_byte file 2) 0x07))
    (set6 (store self) r
       (mkChannel 5 (feedback shared) (op_algorithm shared) (audio_out shared)
          (phase_mod_sens shared) (amp_mod_sens shared) (vgi_operators file)))
    (sent self).


(** The invariant of the wire: the vendor id is the constant and every
    frame handed to the transport so far is well formed; and the
    computations that keep it. *)
Definition wire_inv (self : YM2612Chip) : Prop :=
  vendor_id self = 0x001234 /\ Forall frame_ok (sent self).

Definition preserves {A : Type} (m : M YM2612Chip A) : Prop :=
  forall self, wire_inv self -> wire_inv (snd (m self)).


(** The payload of a frame: what lies between the five header bytes and
    the closing byte. *)
Definition payload_of (frame : list Z) : list Z := removelast (skipn 5 frame).

(** Two VGI buffers: 43 zero bytes, and one with algorithm 5, feedback 6,
    out/ams/pms byte 0xFF and the operator bytes numbered from 1. *)
Definition zero_vgi : list byte := repeat x00 43.

Definition sample_vgi : list byte :=
  [x05; x06; xff;
   x01; x02; x03; x04; x05; x86; x07; x08; x09; x0a;
   x0b; x0c; x0d; x0e; x0f; x10; x11; x12; x13; x14;
   x15; x16; x17; x18; x19; x1a; x1b; x1c; x1d; x1e;
   x1f; x20; x21; x22; x23; x24; x25; x26; x27; x28].

Definition is_ascii (s : PyStr) : Prop := Forall (fun cp => (cp < 128)%N) s.

(** ** Further vocabulary *)

(** Reading an operator field, and operators whose fields all lie within
    their declared widths. *)
Definition field_get (f : OpField) : YMOperator -> Z :=
  match f with
  | FDetune => detune
  | FMultiple => multiple
  | FTotalLevel => total_level
  | FKeyScale => key_scale
  | FAttackRate => attack_rate
  | FAmpModOn => amp_mod_on
  | FDecayRate => decay_rate
  | FSustainRate => sustain_rate
  | FSustainLevel => sustain_level
  | FReleaseRate => release_rate
  | FSsgEnvelope => ssg_envelope
  end.

Definition operator_in_range (op : YMOperator) : Prop :=
  forall f, 0 <= field_get f op <= field_max f.

(** The voice that [set_custom_preset] writes into every slot, as the
    flattened block of its 5 voice fields and 4 * 11 operator fields. *)
Definition custom_voice_block : list Z :=
  [3; 4; 3; 2; 0;
   3; 15; 0x28; 1; 31; 1; 4; 10; 0; 3; 0;
   5; 3; 0x07; 1; 30; 0; 8; 6; 3; 3; 0;
   5; 7; 0x19; 1; 31; 0; 4; 17; 3; 1; 0;
   4; 2; 0x03; 1; 31; 0; 5; 12; 2; 3; 0].

Definition custom_voice (channel_id : Z) : YMChannel :=
  mkChannel channel_id 3 4 3 0 2
    (mkDict4 (mkOperator 3 15 0x28 1 31 1 4 10 0 3 0x00)
             (mkOperator 5 3 0x07 1 30 0 8 6 3 3 0x00)
             (mkOperator 5 7 0x19 1 31 0 4 17 3 1 0x00)
             (mkOperator 4 2 0x03 1 31 0 5 12 2 3 0x00)).

(** Replacing the object a slot refers to by a new value. *)
Definition put_channel (ch_id : ChanId) (v : YMChannel) (self : YM2612Chip)
    : YM2612Chip :=
  set_store (set6 (store self) (get6 (channel self) ch_id) v) self.

(** Chan ids are compared when two slots may refer to one object. *)
Definition ChanId_eq_dec (j k : ChanId) : {j = k} + {j <> k}.
Proof. decide equality. Defined.

(** One round of the voice loop of [set_custom_preset] in closed form. *)
Definition custom_step (voice : ChanId) (self : YM2612Chip) : YM2612Chip :=
  put_channel voice (custom_voice (channel_id (chan self voice)))
    (set_logger (list_append (logger self)
                   (LogPresetSetupVoiceUnformatted (ChanId_to_Z voice))) self).

(** [set_custom_preset] in closed form: the voice loop from the state with
    the LFO fields set, then the frame if a transport is attached, then
    the last log record. *)
Definition custom_loop (self : YM2612Chip) : YM2612Chip :=
  fold_left (fun s x => custom_step x s) ch_range
            (set_lfo_freq 0 (set_lfo_on 1 self)).

Definition custom_send (self : YM2612Chip) : YM2612Chip :=
  match midiout self with
  | Some _ => snd (send_midi_cmd 0 (get_reg_values_array self) self)
  | None => self
  end.

Definition custom_final (self : YM2612Chip) : YM2612Chip :=
  set_logger (list_append (logger (custom_send self)) LogPresetEnd)
             (custom_send self).


(** * The control application: [megadriver.py]

    The part of class [MegadriverApp] that moves values between the widget
    variables, VGI files and the chip object.  Of Tk the model keeps what
    these methods use: an [IntVar] holds the integer its [get] returns, a
    [BooleanVar] a boolean ([set] of an integer stores whether it is
    non-zero), and a read-only [Combobox] the key it shows, [current(i)]
    selecting entry [i] of its value list and failing outside it.  The
    per-parameter lists [self.var...[voiceId][operatorId]] are grouped by
    voice and operator. *)

(** The module tables [voiceOutValues] and [SSGEGValues] (lines 21-39):
    keys in insertion order, which is the order of the combobox entries. *)
Inductive VoiceOutKey : Set := OutRL | OutR | OutL | OutOFF.

Definition voiceOutValues (key : VoiceOutKey) : Z :=
  match key with
  | OutRL => 0x03
  | OutR => 0x01
  | OutL => 0x02
  | OutOFF => 0x00
  end.

Definition voiceOut_keys : list VoiceOutKey := [OutRL; OutR; OutL; OutOFF].

Inductive SSGEGKey : Set :=
| SsgOFF | SsgADSR_ADSR_ADSR | SsgADSR_OFF | SsgADSR_RSDA_ADSR | SsgADSR_ON
| SsgRSDA_RSDA_RSDA | SsgRSDA_ON | SsgRSDA_ADSR_RSDA | SsgRSDA_OFF.

Definition SSGEGValues (key : SSGEGKey) : Z :=
  match key with
  | SsgOFF => 0x00
  | SsgADSR_ADSR_ADSR => 0x08
  | SsgADSR_OFF => 0x09
  | SsgADSR_RSDA_ADSR => 0x0A
  | SsgADSR_ON => 0x0B
  | SsgRSDA_RSDA_RSDA => 0x0C
  | SsgRSDA_ON => 0x0D
  | SsgRSDA_ADSR_RSDA => 0x0E
  | SsgRSDA_OFF => 0x0F
  end.

Definition SSGEG_keys : list SSGEGKey :=
  [SsgOFF; SsgADSR_ADSR_ADSR; SsgADSR_OFF; SsgADSR_RSDA_ADSR; SsgADSR_ON;
   SsgRSDA_RSDA_RSDA; SsgRSDA_ON; SsgRSDA_ADSR_RSDA; SsgRSDA_OFF].

(** Widget variables of one operator and of one voice. *)
Record GuiOperator : Set := mkGuiOperator {
  varOperatorDetune : Z;
  varOperatorMultiple : Z;
  varOperatorKeyScale : Z;
  varOperatorAmpMod : bool;
  comboOperatorSSGEG : SSGEGKey;
  varOperatorTotalLevel : Z;
  varOperatorAttackRate : Z;
  varOperatorSustainLevel : Z;
  varOperatorSustainRate : Z;
  varOperatorDecayRate : Z;
  varOperatorReleaseRate : Z
}.

Record GuiVoice : Set := mkGuiVoice {
  varVoiceFeedback : Z;
  varVoiceAlgorithm : Z;
  comboVoiceOut : VoiceOutKey;
  varVoiceAMS : Z;
  varVoicePMS : Z;
  gui_operator : Dict4 GuiOperator
}.

(** The entry shown by the preset combobox: ['Live'] or a slot number. *)
Inductive PresetSel : Set := SelLive | SelSlot (slot : Z).

Inductive GuiLogRecord : Set :=
| GuiLogInit
| GuiLogSendCommand
| GuiLogLiveUpdate
| GuiLogUpdateSlot (slot : Z)
| GuiLogSyncDriver
| GuiLogLoadPreset
| GuiLogFilename (filename : string)
| GuiLogVgiSizeError (len : Z)
| GuiLogSaved (n : Z).

Record MegadriverApp : Set := mkApp {
  gui_log : list GuiLogRecord;
  FmChip : YM2612Chip;
  varPresetCombo : PresetSel;
  varLfoOn : bool;
  varLfoRate : Z;
  varVoiceAll : bool;
  varLiveUpdate : bool;
  gui_voice : Dict6 GuiVoice
}.

Definition set_gui_log (v : list GuiLogRecord) (a : MegadriverApp) : MegadriverApp :=
  mkApp v (FmChip a) (varPresetCombo a) (varLfoOn a) (varLfoRate a)
    (varVoiceAll a) (varLiveUpdate a) (gui_voice a).
Definition set_FmChip (v : YM2612Chip) (a : MegadriverApp) : MegadriverApp :=
  mkApp (gui_log a) v (varPresetCombo a) (varLfoOn a) (varLfoRate a)
    (varVoiceAll a) (varLiveUpdate a) (gui_voice a).
Definition set_gui_voice (v : Dict6 GuiVoice) (a : MegadriverApp) : MegadriverApp :=
  mkApp (gui_log a) (FmChip a) (varPresetCombo a) (varLfoOn a) (varLfoRate a)
    (varVoiceAll a) (varLiveUpdate a) v.

(** [var.set(v)] on the variables of a voice. *)
Definition set_varVoiceFeedback (v : Z) (g : GuiVoice) : GuiVoice :=
  mkGuiVoice v (varVoiceAlgorithm g) (comboVoiceOut g) (varVoiceAMS g)
    (varVoicePMS g) (gui_operator g).
Definition set_varVoiceAlgorithm (v : Z) (g : GuiVoice) : GuiVoice :=
  mkGuiVoice (varVoiceFeedback g) v (comboVoiceOut g) (varVoiceAMS g)
    (varVoicePMS g) (gui_operator g).
Definition set_comboVoiceOut (v : VoiceOutKey) (g : GuiVoice) : GuiVoice :=
  mkGuiVoice (varVoiceFeedback g) (varVoiceAlgorithm g) v (varVoiceAMS g)
    (varVoicePMS g) (gui_operator g).
Definition set_varVoiceAMS (v : Z) (g : GuiVoice) : GuiVoice :=
  mkGuiVoice (varVoiceFeedback g) (varVoiceAlgorithm g) (comboVoiceOut g) v
    (varVoicePMS g) (gui_operator g).
Definition set_varVoicePMS (v : Z) (g : GuiVoice) : GuiVoice :=
  mkGuiVoice (varVoiceFeedback g) (varVoiceAlgorithm g) (comboVoiceOut g)
    (varVoiceAMS g) v (gui_operator g).
Definition update_gui_operator (k : OpId) (f : GuiOperator -> GuiOperator)
    (g : GuiVoice) : GuiVoice :=
  mkGuiVoice (varVoiceFeedback g) (varVoiceAlgorithm g) (comboVoiceOut g)
    (varVoiceAMS g) (varVoicePMS g)
    (set4 (gui_operator g) k (f (get4 (gui_operator g) k))).

Definition set_varOperatorDetune (v : Z) (o : GuiOperator) : GuiOperator :=
  mkGuiOperator v (varOperatorMultiple o) (varOperatorKeyScale o)
    (varOperatorAmpMod o) (comboOperatorSSGEG o) (varOperatorTotalLevel o)
    (varOperatorAttackRate o) (varOperatorSustainLevel o)
    (varOperatorSustainRate o) (varOperatorDecayRate o)
    (varOperatorReleaseRate o).
Definition set_varOperatorMultiple (v : Z) (o : GuiOperator) : GuiOperator :=
  mkGuiOperator (varOperatorDetune o) v (varOperatorKeyScale o)
    (varOperatorAmpMod o) (comboOperatorSSGEG o) (varOperatorTotalLevel o)
    (varOperatorAttackRate o) (varOperatorSustainLevel o)
    (varOperatorSustainRate o) (varOperatorDecayRate o)
    (varOperatorReleaseRate o).
Definition set_varOperatorKeyScale (v : Z) (o : GuiOperator) : GuiOperator :=
  mkGuiOperator (varOperatorDetune o) (varOperatorMultiple o) v
    (varOperatorAmpMod o) (comboOperatorSSGEG o) (varOperatorTotalLevel o)
    (varOperatorAttackRate o) (varOperatorSustainLevel o)
    (varOperatorSustainRate o) (varOperatorDecayRate o)
    (varOperatorReleaseRate o).
Definition set_varOperatorAmpMod (v : bool) (o : GuiOperator) : GuiOperator :=
  mkGuiOperator (varOperatorDetune o) (varOperatorMultiple o)
    (varOperatorKeyScale o) v (comboOperatorSSGEG o) (varOperatorTotalLevel o)
    (varOperatorAttackRate o) (varOperatorSustainLevel o)
    (varOperatorSustainRate o) (varOperatorDecayRate o)
    (varOperatorReleaseRate o).
Definition set_comboOperatorSSGEG (v : SSGEGKey) (o : GuiOperator) : GuiOperator :=
  mkGuiOperator (varOperatorDetune o) (varOperatorMultiple o)
    (varOperatorKeyScale o) (varOperatorAmpMod o) v (varOperatorTotalLevel o)
    (varOperatorAttackRate o) (varOperatorSustainLevel o)
    (varOperatorSustainRate o) (varOperatorDecayRate o)
    (varOperatorReleaseRate o).
Definition set_varOperatorTotalLevel (v : Z) (o : GuiOperator) : GuiOperator :=
  mkGuiOperator (varOperatorDetune o) (varOperatorMultiple o)
    (varOperatorKeyScale o) (varOperatorAmpMod o) (comboOperatorSSGEG o) v
    (varOperatorAttackRate o) (varOperatorSustainLevel o)
    (varOperatorSustainRate o) (varOperatorDecayRate o)
    (varOperatorReleaseRate o).
Definition set_varOperatorAttackRate (v : Z) (o : GuiOperator) : GuiOperator :=
  mkGuiOperator (varOperatorDetune o) (varOperatorMultiple o)
    (varOperatorKeyScale o) (varOperatorAmpMod o) (comboOperatorSSGEG o)
    (varOperatorTotalLevel o) v (varOperatorSustainLevel o)
    (varOperatorSustainRate o) (varOperatorDecayRate o)
    (varOperatorReleaseRate o).
Definition set_varOperatorSustainLevel (v : Z) (o : GuiOperator) : GuiOperator :=
  mkGuiOperator (varOperatorDetune o) (varOperatorMultiple o)
    (varOperatorKeyScale o) (varOperatorAmpMod o) (comboOperatorSSGEG o)
    (varOperatorTotalLevel o) (varOperatorAttackRate o) v
    (varOperatorSustainRate o) (varOperatorDecayRate o)
    (varOperatorReleaseRate o).
Definition set_varOperatorSustainRate (v : Z) (o : GuiOperator) : GuiOperator :=
  mkGuiOperator (varOperatorDetune o) (varOperatorMultiple o)
    (varOperatorKeyScale o) (varOperatorAmpMod o) (comboOperatorSSGEG o)
    (varOperatorTotalLevel o) (varOperatorAttackRate o)
    (varOperatorSustainLevel o) v (varOperatorDecayRate o)
    (varOperatorReleaseRate o).
Definition set_varOperatorDecayRate (v : Z) (o : GuiOperator) : GuiOperator :=
  mkGuiOperator (varOperatorDetune o) (varOperatorMultiple o)
    (varOperatorKeyScale o) (varOperatorAmpMod o) (comboOperatorSSGEG o)
    (varOperatorTotalLevel o) (varOperatorAttackRate o)
    (varOperatorSustainLevel o) (varOperatorSustainRate o) v
    (varOperatorReleaseRate o).
Definition set_varOperatorReleaseRate (v : Z) (o : GuiOperator) : GuiOperator :=
  mkGuiOperator (varOperatorDetune o) (varOperatorMultiple o)
    (varOperatorKeyScale o) (varOperatorAmpMod o) (comboOperatorSSGEG o)
    (varOperatorTotalLevel o) (varOperatorAttackRate o)
    (varOperatorSustainLevel o) (varOperatorSustainRate o)
    (varOperatorDecayRate o) v.

(** Exceptions of the application: those of the chip object,
    [struct.error] of [struct.pack] and [struct.unpack], [TclError], and
    [OSError] of [open]. *)
Inductive GuiExc : Set :=
| ChipRaised (e : PyExc)
| GuiStructError
| TclError
| GuiOSError.

Inductive GResult (A : Type) : Type :=
| GReturn (a : A)
| GRaise (e : GuiExc).
Arguments GReturn {A} a.
Arguments GRaise {A} e.

Definition GM (S A : Type) : Type := S -> GResult A * S.

Definition gret {S A : Type} (a : A) : GM S A := fun s => (GReturn a, s).

Definition graise {S A : Type} (e : GuiExc) : GM S A := fun s => (GRaise e, s).

Definition gbind {S A B : Type} (m : GM S A) (k : A -> GM S B) : GM S B :=
  fun s =>
    match m s with
    | (GReturn a, s') => k a s'
    | (GRaise e, s') => (GRaise e, s')
    end.

Definition ggets {S A : Type} (f : S -> A) : GM S A :=
  fun s => (GReturn (f s), s).

Definition gmodify {S : Type} (f : S -> S) : GM S unit :=
  fun s => (GReturn tt, f s).

Declare Scope gui_scope.
Delimit Scope gui_scope with gui.
Notation "x <- m ;; k" := (gbind m (fun x => k))
  (at level 61, m at next level, right associativity) : gui_scope.
Notation "m ;; k" := (gbind m (fun _ => k))
  (at level 61, right associativity) : gui_scope.

Fixpoint gfor_each {S A : Type} (xs : list A) (body : A -> GM S unit)
    : GM S unit :=
  match xs with
  | [] => gret tt
  | x :: rest => gbind (body x) (fun _ => gfor_each rest body)
  end.


Local Open Scope gui_scope.

Definition log_info (r : GuiLogRecord) : GM MegadriverApp unit :=
  gmodify (fun self => set_gui_log (list_append (gui_log self) r) self).

(** A method of the chip object called on [self.FmChip]. *)
Definition on_chip {A : Type} (m : M YM2612Chip A) : GM MegadriverApp A :=
  fun self =>
    match m (FmChip self) with
    | (Return a, chip) => (GReturn a, set_FmChip chip self)
    | (Raise e, chip) => (GRaise (ChipRaised e), set_FmChip chip self)
    end.

(** An attribute assignment on [self.FmChip]. *)
Definition chip_assign (f : YM2612Chip -> YM2612Chip) : GM MegadriverApp unit :=
  gmodify (fun self => set_FmChip (f (FmChip self)) self).

(** [widget.current(newindex)] on a combobox with the given entries. *)
Definition combo_current {S K : Type} (keys : list K) (newindex : Z) : GM S K :=
  match (if newindex <? 0 then None else nth_error keys (Z.to_nat newindex)) with
  | Some key => gret key
  | None => graise TclError
  end.

(** [BooleanVar.set] of an integer, and [int] of a boolean. *)
Definition bool_of_int (v : Z) : bool := negb (v =? 0).

Definition int_of_bool (b : bool) : Z := if b then 1 else 0.

(** *** Reading a VGI file into the widgets (lines 515-551) *)

Definition GuiLoader : Set := (MegadriverApp * FileHandle)%type.

Definition on_app {S A : Type} (m : GM MegadriverApp A)
    : GM (MegadriverApp * S) A :=
  fun st => let (r, self) := m (fst st) in (r, (self, snd st)).

Definition gui_read_all : GM GuiLoader (list byte) :=
  fun st =>
    (GReturn (skipn (position (snd st)) (contents (snd st))),
     (fst st, mkFile (contents (snd st)) (List.length (contents (snd st))))).

Definition gui_seek (pos : nat) : GM GuiLoader unit :=
  fun st => (GReturn tt, (fst st, mkFile (contents (snd st)) pos)).

(** [readByte]: [struct.unpack('B', fileHandler.read(1))[0]]. *)
Definition readByte : GM GuiLoader Z :=
  fun st =>
    match nth_error (contents (snd st)) (position (snd st)) with
    | Some b =>
        (GReturn (byte_val b),
         (fst st, mkFile (contents (snd st)) (S (position (snd st)))))
    | None => (GRaise GuiStructError, st)
    end.

(** [with open(vgiFilename, 'rb') as byte_reader: body]; [opened] is
    [Some file] when the file opens and [None] when [open] raises
    [OSError]. *)
Definition gui_open_read {A : Type} (opened : option (list byte))
    (body : GM GuiLoader A) : GM MegadriverApp A :=
  fun self =>
    match opened with
    | Some file => let (r, st) := body (self, mkFile file 0) in (r, fst st)
    | None => (GRaise GuiOSError, self)
    end.

(** [self.var...[voiceId].set(v)] and
    [self.var...[voiceId][operator_id].set(v)]. *)
Definition var_set {S V : Type} (voiceId : ChanId)
    (setter : V -> GuiVoice -> GuiVoice) (v : V) : GM (MegadriverApp * S) unit :=
  on_app (gmodify (fun self =>
    set_gui_voice (set6 (gui_voice self) voiceId
                        (setter v (get6 (gui_voice self) voiceId))) self)).

Definition op_var_set {S V : Type} (voiceId : ChanId) (operator_id : OpId)
    (setter : V -> GuiOperator -> GuiOperator) (v : V)
    : GM (MegadriverApp * S) unit :=
  var_set voiceId (fun v => update_gui_operator operator_id (setter v)) v.

Definition loadVgiFile (opened : option (list byte)) (voiceId : ChanId)
    : GM MegadriverApp unit :=
  gui_open_read opened (
    byte_data <- gui_read_all ;;
    if (List.length byte_data =? 43)%nat then
      gui_seek 0 ;;
      v <- readByte ;; var_set voiceId set_varVoiceAlgorithm v ;;
      v <- readByte ;; var_set voiceId set_varVoiceFeedback v ;;
      reg <- readByte ;;
      key <- combo_current voiceOut_keys (Z.land (Z.shiftr reg 6) 0x03) ;;
      var_set voiceId set_comboVoiceOut key ;;
      var_set voiceId set_varVoiceAMS (Z.land (Z.shiftr reg 4) 0x03) ;;
      var_set voiceId set_varVoicePMS (Z.land (Z.shiftr reg 0) 0x07) ;;
      gfor_each op_range (fun operator_id =>
        v <- readByte ;; op_var_set voiceId operator_id set_varOperatorMultiple v ;;
        v <- readByte ;; op_var_set voiceId operator_id set_varOperatorDetune v ;;
        v <- readByte ;; op_var_set voiceId operator_id set_varOperatorTotalLevel v ;;
        v <- readByte ;; op_var_set voiceId operator_id set_varOperatorKeyScale v ;;
        v <- readByte ;; op_var_set voiceId operator_id set_varOperatorAttackRate v ;;
        reg <- readByte ;;
        op_var_set voiceId operator_id set_varOperatorAmpMod
          (bool_of_int (Z.land (Z.shiftr reg 7) 0x01)) ;;
        op_var_set voiceId operator_id set_varOperatorDecayRate
          (Z.land (Z.shiftr reg 0) 0x1F) ;;
        v <- readByte ;; op_var_set voiceId operator_id set_varOperatorSustainRate v ;;
        v <- readByte ;; op_var_set voiceId operator_id set_varOperatorReleaseRate v ;;
        v <- readByte ;; op_var_set voiceId operator_id set_varOperatorSustainLevel v ;;
        reg <- readByte ;;
        key <- combo_current SSGEG_keys (Z.land reg 0x07) ;;
        op_var_set voiceId operator_id set_comboOperatorSSGEG key)
    else
      on_app (log_info (GuiLogVgiSizeError (Z.of_nat (List.length byte_data))))).

(** *** Writing the widgets of a voice to a VGI file (lines 554-579) *)

(** The file being written: the bytes so far. *)
Definition GuiWriter : Set := (MegadriverApp * list byte)%type.

(** [struct.pack('B', v)] accepts the integers from 0 to 255. *)
Definition pack_B (v : Z) : option byte :=
  if (0 <=? v) && (v <=? 255) then Byte.of_N (Z.to_N v) else None.

(** [byte_writer.write(self.writeByte(v))]. *)
Definition write_byte (v : Z) : GM GuiWriter unit :=
  match pack_B v with
  | Some b => gmodify (fun st => (fst st, list_append (snd st) b))
  | None => graise GuiStructError
  end.

Definition var_get {S V : Type} (voiceId : ChanId) (getter : GuiVoice -> V)
    : GM (MegadriverApp * S) V :=
  on_app (ggets (fun self => getter (get6 (gui_voice self) voiceId))).

Definition op_var_get {S V : Type} (voiceId : ChanId) (operator_id : OpId)
    (getter : GuiOperator -> V) : GM (MegadriverApp * S) V :=
  var_get voiceId (fun g => getter (get4 (gui_operator g) operator_id)).

(** The body of [saveVgiFile] inside [with open(vgiFilename, 'wb')], which
    starts from an empty file. *)
Definition saveVgiFile_body (voiceId : ChanId) : GM GuiWriter unit :=
  v <- var_get voiceId varVoiceAlgorithm ;; write_byte v ;;
  v <- var_get voiceId varVoiceFeedback ;; write_byte v ;;
  key <- var_get voiceId comboVoiceOut ;;
  let regVar := Z.shiftl (voiceOutValues key) 6 in
  v <- var_get voiceId varVoiceAMS ;;
  let regVar := Z.lor regVar (Z.shiftl v 4) in
  v <- var_get voiceId varVoicePMS ;;
  let regVar := Z.lor regVar (Z.shiftl v 0) in
  write_byte regVar ;;
  gfor_each op_range (fun operator_id =>
    v <- op_var_get voiceId operator_id varOperatorMultiple ;; write_byte v ;;
    v <- op_var_get voiceId operator_id varOperatorDetune ;; write_byte v ;;
    v <- op_var_get voiceId operator_id varOperatorTotalLevel ;; write_byte v ;;
    v <- op_var_get voiceId operator_id varOperatorKeyScale ;; write_byte v ;;
    v <- op_var_get voiceId operator_id varOperatorAttackRate ;; write_byte v ;;
    b <- op_var_get voiceId operator_id varOperatorAmpMod ;;
    let regVar := Z.shiftl (int_of_bool b) 7 in
    v <- op_var_get voiceId operator_id varOperatorDecayRate ;;
    let regVar := Z.lor regVar v in
    write_byte regVar ;;
    v <- op_var_get voiceId operator_id varOperatorSustainRate ;; write_byte v ;;
    v <- op_var_get voiceId operator_id varOperatorReleaseRate ;; write_byte v ;;
    v <- op_var_get voiceId operator_id varOperatorSustainLevel ;; write_byte v ;;
    key <- op_var_get voiceId operator_id comboOperatorSSGEG ;;
    let regVar := SSGEGValues key in
    write_byte regVar) ;;
  n <- ggets (fun st => Z.of_nat (List.length (snd st))) ;;
  on_app (log_info (GuiLogSaved n)).

(** [saveVgiFile]: [opened] tells whether [open(vgiFilename, 'wb')]
    succeeds, which empties the file, or raises [OSError].  The result is
    the outcome, the application afterwards and the bytes written. *)
Definition saveVgiFile (opened : bool) (voiceId : ChanId)
    (self : MegadriverApp) : GResult unit * (MegadriverApp * list byte) :=
  if opened then saveVgiFile_body voiceId (self, [])
  else (GRaise GuiOSError, (self, [])).

(** *** Copying the widgets to the chip object (lines 582-602) *)

Definition voice_var {V : Type} (voiceId : ChanId) (getter : GuiVoice -> V)
    : GM MegadriverApp V :=
  ggets (fun self => getter (get6 (gui_voice self) voiceId)).

Definition syncDriver : GM MegadriverApp unit :=
  log_info GuiLogSyncDriver ;;
  v <- ggets varLfoRate ;; chip_assign (set_lfo_on v) ;;
  v <- ggets varLfoRate ;; chip_assign (set_lfo_freq v) ;;
  gfor_each ch_range (fun voiceId =>
    v <- voice_var voiceId varVoiceAlgorithm ;;
    chip_assign (update_channel voiceId (set_op_algorithm v)) ;;
    v <- voice_var voiceId varVoiceFeedback ;;
    chip_assign (update_channel voiceId (set_feedback v)) ;;
    key <- voice_var voiceId comboVoiceOut ;;
    chip_assign (update_channel voiceId (set_audio_out (voiceOutValues key))) ;;
    v <- voice_var voiceId varVoicePMS ;;
    chip_assign (update_channel voiceId (set_phase_mod_sens v)) ;;
    v <- voice_var voiceId varVoiceAMS ;;
    chip_assign (update_channel voiceId (set_amp_mod_sens v)) ;;
    gfor_each op_range (fun operatorId =>
      let op_var {V : Type} (getter : GuiOperator -> V) :=
        voice_var voiceId (fun g => getter (get4 (gui_operator g) operatorId)) in
      let op_assign (setter : Z -> YMOperator -> YMOperator) (v : Z) :=
        chip_assign (update_channel voiceId (update_operator operatorId (setter v))) in
      v <- op_var varOperatorDetune ;; op_assign set_detune v ;;
      v <- op_var varOperatorMultiple ;; op_assign set_multiple v ;;
      v <- op_var varOperatorKeyScale ;; op_assign set_key_scale v ;;
      b <- op_var varOperatorAmpMod ;; op_assign set_amp_mod_on (int_of_bool b) ;;
      key <- op_var comboOperatorSSGEG ;;
      op_assign set_ssg_envelope (SSGEGValues key) ;;
      v <- op_var varOperatorTotalLevel ;; op_assign set_total_level v ;;
      v <- op_var varOperatorAttackRate ;; op_assign set_attack_rate v ;;
      v <- op_var varOperatorSustainLevel ;; op_assign set_sustain_level v ;;
      v <- op_var varOperatorSustainRate ;; op_assign set_sustain_rate v ;;
      v <- op_var varOperatorDecayRate ;; op_assign set_decay_rate v ;;
      v <- op_var varOperatorReleaseRate ;; op_assign set_release_rate v)).

(** *** Sending (lines 480-491) and loading a preset file (lines 502-512) *)

(** ["%d" % n]. *)
Definition format_d (n : Z) : PyStr :=
  str_of_string (NilZero.string_of_int (Z.to_int n)).

Definition sendCommand : GM MegadriverApp unit :=
  log_info GuiLogSendCommand ;;
  presetSlot <- ggets varPresetCombo ;;
  syncDriver ;;
  match presetSlot with
  | SelLive =>
      log_info GuiLogLiveUpdate ;;
      on_chip midi_set_reg_values ;;
      gret tt
  | SelSlot presetVar =>
      log_info (GuiLogUpdateSlot presetVar) ;;
      on_chip (midi_save_preset presetVar
                 (str_of_string "PRESET " ++ format_d presetVar)) ;;
      on_chip (midi_load_preset presetVar) ;;
      gret tt
  end.

(** [loadPreset], the file dialog having returned [filename]; [opened] is
    what each [open] of that name gives, the bytes of the file or [None]
    when it cannot be opened. *)
Definition loadPreset (filename : string) (opened : option (list byte))
    : GM MegadriverApp unit :=
  log_info GuiLogLoadPreset ;;
  (if String.eqb filename "" then gret tt
   else
     log_info (GuiLogFilename filename) ;;
     gfor_each ch_range (fun voice => loadVgiFile opened voice)) ;;
  live <- ggets varLiveUpdate ;;
  if live then sendCommand else gret tt.

Close Scope gui_scope.


(** The entries a file value selects, and the voice a 43-byte buffer
    decodes to in the widgets. *)
Definition voice_out_at (index : Z) : VoiceOutKey :=
  nth (Z.to_nat index) voiceOut_keys OutRL.

Definition ssg_at (index : Z) : SSGEGKey :=
  nth (Z.to_nat index) SSGEG_keys SsgOFF.

Definition gui_vgi_operator (file : list byte) (base : nat) : GuiOperator :=
  mkGuiOperator
    (vgi_byte file (base + 1))
    (vgi_byte file base)
    (vgi_byte file (base + 3))
    (bool_of_int (Z.land (Z.shiftr (vgi_byte file (base + 5)) 7) 0x01))
    (ssg_at (Z.land (vgi_byte file (base + 9)) 0x07))
    (vgi_byte file (base + 2))
    (vgi_byte file (base + 4))
    (vgi_byte file (base + 8))
    (vgi_byte file (base + 6))
    (Z.land (vgi_byte file (base + 5)) 0x1F)
    (vgi_byte file (base + 7)).

Definition gui_vgi_voice (file : list byte) : GuiVoice :=
  mkGuiVoice
    (vgi_byte file 1)
    (vgi_byte file 0)
    (voice_out_at (Z.land (Z.shiftr (vgi_byte file 2) 6) 0x03))
    (Z.land (Z.shiftr (vgi_byte file 2) 4) 0x03)
    (Z.land (vgi_byte file 2) 0x07)
    (mkDict4 (gui_vgi_operator file 3) (gui_vgi_operator file 13)
             (gui_vgi_operator file 23) (gui_vgi_operator file 33)).


(** The byte [struct.pack('B', v)] produces for [v] from 0 to 255. *)
Definition byte_of_Z (v : Z) : byte :=
  match pack_B v with
  | Some b => b
  | None => x00
  end.

(** The 43 values [saveVgiFile] passes to [writeByte] for a voice. *)
Definition gui_vgi_operator_values (o : GuiOperator) : list Z :=
  [varOperatorMultiple o; varOperatorDetune o; varOperatorTotalLevel o;
   varOperatorKeyScale o; varOperatorAttackRate o;
   Z.lor (Z.shiftl (int_of_bool (varOperatorAmpMod o)) 7) (varOperatorDecayRate o);
   varOperatorSustainRate o; varOperatorReleaseRate o;
   varOperatorSustainLevel o; SSGEGValues (comboOperatorSSGEG o)].

Definition gui_vgi_values (g : GuiVoice) : list Z :=
  [varVoiceAlgorithm g; varVoiceFeedback g;
   Z.lor (Z.lor (Z.shiftl (voiceOutValues (comboVoiceOut g)) 6)
                (Z.shiftl (varVoiceAMS g) 4))
         (Z.shiftl (varVoicePMS g) 0)]
  ++ flat_map (fun k => gui_vgi_operator_values (get4 (gui_operator g) k))
              op_range.

(** Widget values within the ranges of their scales, as far as the file
    format can hold them. *)
Definition gui_operator_in_range (o : GuiOperator) : Prop :=
  0 <= varOperatorMultiple o <= 255 /\ 0 <= varOperatorDetune o <= 255
  /\ 0 <= varOperatorTotalLevel o <= 255 /\ 0 <= varOperatorKeyScale o <= 255
  /\ 0 <= varOperatorAttackRate o <= 255 /\ 0 <= varOperatorDecayRate o <= 31
  /\ 0 <= varOperatorSustainRate o <= 255
  /\ 0 <= varOperatorReleaseRate o <= 255
  /\ 0 <= varOperatorSustainLevel o <= 255.

Definition gui_voice_in_range (g : GuiVoice) : Prop :=
  0 <= varVoiceAlgorithm g <= 255 /\ 0 <= varVoiceFeedback g <= 255
  /\ 0 <= varVoiceAMS g <= 3 /\ 0 <= varVoicePMS g <= 7
  /\ forall k, gui_operator_in_range (get4 (gui_operator g) k).

(** What the widgets of a voice show after the voice was saved and the
    file loaded again: the output entry at the position given by the saved
    output value, and the SSG-EG entry at the position given by the low
    three bits of the saved SSG-EG value. *)
Definition reloaded_operator (o : GuiOperator) : GuiOperator :=
  set_comboOperatorSSGEG
    (ssg_at (Z.land (SSGEGValues (comboOperatorSSGEG o)) 0x07)) o.

Definition reloaded_voice (g : GuiVoice) : GuiVoice :=
  mkGuiVoice (varVoiceFeedback g) (varVoiceAlgorithm g)
    (voice_out_at (voiceOutValues (comboVoiceOut g)))
    (varVoiceAMS g) (varVoicePMS g)
    (mkDict4 (reloaded_operator (get4 (gui_operator g) Op0))
             (reloaded_operator (get4 (gui_operator g) Op1))
             (reloaded_operator (get4 (gui_operator g) Op2))
             (reloaded_operator (get4 (gui_operator g) Op3))).

(** The chip voice [syncDriver] writes for the widgets of a voice. *)
Definition chip_operator_of_gui (o : GuiOperator) : YMOperator :=
  mkOperator (varOperatorDetune o) (varOperatorMultiple o)
    (varOperatorTotalLevel o) (varOperatorKeyScale o)
    (varOperatorAttackRate o) (int_of_bool (varOperatorAmpMod o))
    (varOperatorDecayRate o) (varOperatorSustainRate o)
    (varOperatorSustainLevel o) (varOperatorReleaseRate o)
    (SSGEGValues (comboOperatorSSGEG o)).

Definition chip_voice_of_gui (channel_id : Z) (g : GuiVoice) : YMChannel :=
  mkChannel channel_id (varVoiceFeedback g) (varVoiceAlgorithm g)
    (voiceOutValues (comboVoiceOut g)) (varVoicePMS g) (varVoiceAMS g)
    (mkDict4 (chip_operator_of_gui (get4 (gui_operator g) Op0))
             (chip_operator_of_gui (get4 (gui_operator g) Op1))
             (chip_operator_of_gui (get4 (gui_operator g) Op2))
             (chip_operator_of_gui (get4 (gui_operator g) Op3))).

(** The slot table of a chip on which [load_vgi_file] was never called. *)
Definition unshared (chip : YM2612Chip) : Prop :=
  channel chip = mkDict6 Ch0 Ch1 Ch2 Ch3 Ch4 Ch5.

(** The application as [initUI] leaves it (lines 72-421): a chip built
    with the defaults and then given the opened MIDI port, every numeric
    variable 0, every boolean variable False, every combobox on its first
    entry. *)
Definition GuiOperator_init : GuiOperator :=
  mkGuiOperator 0 0 0 false SsgOFF 0 0 0 0 0 0.

Definition GuiVoice_init : GuiVoice :=
  mkGuiVoice 0 0 OutRL 0 0
    (mkDict4 GuiOperator_init GuiOperator_init GuiOperator_init
             GuiOperator_init).

Definition MegadriverApp_init (midiHandler : MidiOut) : MegadriverApp :=
  mkApp [GuiLogInit] (set_midiout (Some midiHandler) (YM2612Chip_init None 0 0))
    SelLive false 0 false false
    (mkDict6 GuiVoice_init GuiVoice_init GuiVoice_init GuiVoice_init
             GuiVoice_init GuiVoice_init).


(** The application after the user has ticked the LFO box, moved the LFO
    rate to 5 and loaded the sample file into the third voice. *)
Definition edited_app : MegadriverApp :=
  mkApp [GuiLogInit]
    (set_midiout (Some (MidiPort 0)) (YM2612Chip_init None 0 0))
    SelLive true 5 false false
    (mkDict6 GuiVoice_init GuiVoice_init (gui_vgi_voice sample_vgi)
             GuiVoice_init GuiVoice_init GuiVoice_init).

(** The chip object after [syncDriver] when no two slots share an object:
    both LFO attributes hold the LFO rate, and each voice holds the
    values of its widgets under its own [channel_id]. *)
Definition synced_chip (self : MegadriverApp) : YM2612Chip :=
  let chip := FmChip self in
  let voice k := chip_voice_of_gui (channel_id (get6 (store chip) k))
                                   (get6 (gui_voice self) k) in
  set_store (mkDict6 (voice Ch0) (voice Ch1) (voice Ch2)
                     (voice Ch3) (voice Ch4) (voice Ch5))
    (set_lfo_freq (varLfoRate self) (set_lfo_on (varLfoRate self) chip)).

(** The name [sendCommand] gives a preset: ["PRESET %d" % presetVar]. *)
Definition preset_name (presetVar : Z) : PyStr :=
  str_of_string "PRESET " ++ format_d presetVar.

(** The widgets after [loadPreset] has read a 43-byte file: the same
    decoded voice in all six tabs. *)
Definition preset_loaded (filename : string) (file : list byte)
    (self : MegadriverApp) : MegadriverApp :=
  set_gui_voice
    (mkDict6 (gui_vgi_voice file) (gui_vgi_voice file) (gui_vgi_voice file)
             (gui_vgi_voice file) (gui_vgi_voice file) (gui_vgi_voice file))
    (set_gui_log (gui_log self ++ [GuiLogLoadPreset; GuiLogFilename filename])
                 self).

(** * Properties *)

(** ** Bit masks *)

Lemma land_land_same (v m : Z) : Z.land (Z.land v m) m = Z.land v m.
Proof. now rewrite <- Z.land_assoc, Z.land_diag. Qed.

Lemma shiftl_land_mask (v m n k : Z) :
  Z.land (Z.shiftl m n) k = Z.shiftl m n ->
  Z.land (Z.shiftl (Z.land v m) n) k = Z.land (Z.shiftl v n) (Z.shiftl m n).
Proof.
  intros H. now rewrite Z.shiftl_land, <- Z.land_assoc, H.
Qed.

(** A value whose bits all lie in the low eight is a byte. *)
Lemma byte_of_land (r : Z) : Z.land r 0xFF = r -> 0 <= r <= 255.
Proof.
  intros H. change 0xFF with (Z.ones 8) in H.
  rewrite Z.land_ones in H by lia.
  pose proof (Z.mod_pos_bound r (2 ^ 8) eq_refl) as B.
  rewrite H in B. change (2 ^ 8) with 256 in B. lia.
Qed.

Lemma land_mask_byte (v m : Z) :
  Z.land m 0xFF = m -> Z.land (Z.land v m) 0xFF = Z.land v m.
Proof. intros H. now rewrite <- Z.land_assoc, H. Qed.

Lemma shiftl_mask_byte (v m n : Z) :
  Z.land (Z.shiftl m n) 0xFF = Z.shiftl m n ->
  Z.land (Z.shiftl (Z.land v m) n) 0xFF = Z.shiftl (Z.land v m) n.
Proof.
  intros H. now rewrite Z.shiftl_land, <- Z.land_assoc, H.
Qed.

Lemma lor_byte (a b : Z) :
  Z.land a 0xFF = a -> Z.land b 0xFF = b -> Z.land (Z.lor a b) 0xFF = Z.lor a b.
Proof. intros Ha Hb. now rewrite Z.land_lor_distr_l, Ha, Hb. Qed.

Lemma operator_regs_bytes (op : YMOperator) :
  Forall (fun r => 0 <= r <= 255) (operator_regs op).
Proof.
  unfold operator_regs, get_reg_DETMUL, get_reg_TL, get_reg_KSAR,
    get_reg_AMDR, get_reg_SR, get_reg_SLRL, get_reg_SSGEG.
  repeat constructor; apply byte_of_land;
    repeat first
      [ apply lor_byte
      | apply land_mask_byte; reflexivity
      | apply shiftl_mask_byte; reflexivity ].
Qed.

(** Replacing a field by its masked value changes no register byte. *)
Lemma operator_regs_field_mask (f : OpField) (v : Z) (op : YMOperator) :
  operator_regs (field_set f v op) = operator_regs (field_set f (field_mask f v) op).
Proof.
  destruct f; unfold field_set, field_mask;
    match goal with
    | |- context [field_max ?F] =>
        let m := eval compute in (field_max F) in change (field_max F) with m
    end;
    unfold operator_regs, get_reg_DETMUL, get_reg_TL, get_reg_KSAR,
      get_reg_AMDR, get_reg_SR, get_reg_SLRL, get_reg_SSGEG;
    cbn [detune multiple total_level key_scale attack_rate amp_mod_on
         decay_rate sustain_rate sustain_level release_rate ssg_envelope
         set_detune set_multiple set_total_level set_key_scale
         set_attack_rate set_amp_mod_on set_decay_rate set_sustain_rate
         set_sustain_level set_release_rate set_ssg_envelope];
    rewrite ?land_land_same; try reflexivity.
  rewrite (shiftl_land_mask v 7 4 0x70 eq_refl). reflexivity.
Qed.

(** ** C7 *)

(** C7. For every operator field and every value [v], the seven packed
    register bytes are the same whether the field holds [v] or [v] masked
    to the field's declared width; the value one above the field's maximum
    packs like 0 (detune 8 packs like detune 0 in DETMUL); and packing is
    total: whatever the value, every register is a byte. *)
Theorem operator_pack_masks_each_field :
  forall (f : OpField) (v : Z) (op : YMOperator),
    operator_regs (field_set f v op)
      = operator_regs (field_set f (field_mask f v) op)
    /\ operator_regs (field_set f (field_max f + 1) op)
      = operator_regs (field_set f 0 op)
    /\ get_reg_DETMUL (set_detune 8 op) = get_reg_DETMUL (set_detune 0 op)
    /\ Forall (fun r => 0 <= r <= 255) (operator_regs (field_set f v op)).
Proof.
  intros f v op. split; [apply operator_regs_field_mask|].
  split.
  - rewrite operator_regs_field_mask.
    replace (field_mask f (field_max f + 1)) with 0 by (destruct f; reflexivity).
    reflexivity.
  - split; [reflexivity | apply operator_regs_bytes].
Qed.

(** ** C8 *)

(** C8 (defect). [get_reg_FBALG] keeps two bits of [feedback]: feedback 4
    and feedback 0, which differ within three bits, give the same byte for
    every voice, and in general only [feedback & 3] reaches the byte. *)
Theorem get_reg_FBALG_drops_feedback_bit2 :
  forall ch : YMChannel,
    get_reg_FBALG (set_feedback 4 ch) = get_reg_FBALG (set_feedback 0 ch)
    /\ Z.land 4 7 <> Z.land 0 7
    /\ forall v, get_reg_FBALG (set_feedback v ch)
                 = get_reg_FBALG (set_feedback (Z.land v 3) ch).
Proof.
  intros ch. split; [reflexivity|]. split; [discriminate|].
  intros v. unfold get_reg_FBALG. cbn [feedback op_algorithm set_feedback].
  now rewrite land_land_same.
Qed.

(** ** Accumulating loops *)

(** A loop that extends its accumulator by [f x] at each step appends the
    concatenation of the pieces. *)
Lemma fold_left_app_flat_map {A B : Type} (f : A -> list B)
    (g : list B -> A -> list B) :
  (forall acc x, g acc x = acc ++ f x) ->
  forall xs acc, fold_left g xs acc = acc ++ flat_map f xs.
Proof.
  intros Hg xs. induction xs as [|x xs IH]; intros acc; cbn.
  - now rewrite app_nil_r.
  - now rewrite IH, Hg, <- app_assoc.
Qed.

Lemma length_flat_map_const {A B : Type} (f : A -> list B) (n : nat) :
  (forall x, List.length (f x) = n) ->
  forall xs, List.length (flat_map f xs) = (List.length xs * n)%nat.
Proof.
  intros Hf xs. induction xs as [|x xs IH]; cbn; [reflexivity|].
  now rewrite length_app, Hf, IH.
Qed.

Lemma voice_block_length (ch : YMChannel) :
  List.length (voice_block ch) = (5 + 4 * 11)%nat.
Proof.
  unfold voice_block. rewrite length_app.
  rewrite (length_flat_map_const _ 11) by reflexivity. reflexivity.
Qed.

Lemma get_reg_values_array_layout (self : YM2612Chip) :
  get_reg_values_array self = flatten_layout self.
Proof.
  unfold get_reg_values_array, flatten_layout.
  rewrite (fold_left_app_flat_map (fun ch_id => voice_block (chan self ch_id)));
    [reflexivity|].
  intros acc ch_id.
  rewrite (fold_left_app_flat_map
             (fun op_id => operator_block (get4 (operator (chan self ch_id)) op_id)));
    [|intros acc' op_id; unfold list_append, operator_block;
      now rewrite <- !app_assoc].
  unfold voice_block, list_append. now rewrite <- !app_assoc.
Qed.

Lemma get_reg_values_array_length (self : YM2612Chip) :
  List.length (get_reg_values_array self) = 296%nat.
Proof.
  rewrite get_reg_values_array_layout. unfold flatten_layout.
  rewrite length_app, (length_flat_map_const _ (5 + 4 * 11)).
  - reflexivity.
  - intros ch_id. apply voice_block_length.
Qed.

(** ** C6 *)

(** C6 (as the code has it). For every chip state the flattened register
    array is the two LFO fields followed, for voices 0..5 in order, by the
    5 voice fields and then the 11 raw fields of operators 0..3 in order;
    it has 2 + 6*(5 + 4*11) entries, which is 296. *)
Theorem get_reg_values_array_shape :
  forall self : YM2612Chip,
    get_reg_values_array self = flatten_layout self
    /\ List.length (get_reg_values_array self) = (2 + 6 * (5 + 4 * 11))%nat
    /\ List.length (get_reg_values_array self) = 296%nat
    /\ firstn 2 (get_reg_values_array self) = [lfo_on self; lfo_freq self]
    /\ (forall ch_id,
          firstn 5 (skipn (2 + 49 * Z.to_nat (ChanId_to_Z ch_id))
                          (get_reg_values_array self))
          = [feedback (chan self ch_id); op_algorithm (chan self ch_id);
             audio_out (chan self ch_id); amp_mod_sens (chan self ch_id);
             phase_mod_sens (chan self ch_id)])
    /\ (forall ch_id op_id,
          firstn 11 (skipn (2 + 49 * Z.to_nat (ChanId_to_Z ch_id) + 5
                            + 11 * Z.to_nat (OpId_to_Z op_id))
                           (get_reg_values_array self))
          = operator_block (get4 (operator (chan self ch_id)) op_id)).
Proof.
  intros self. split; [apply get_reg_values_array_layout|].
  split; [apply get_reg_values_array_length|].
  split; [apply get_reg_values_array_length|].
  rewrite get_reg_values_array_layout.
  split; [reflexivity|].
  split.
  - intros ch_id. destruct ch_id; reflexivity.
  - intros ch_id op_id. destruct ch_id, op_id; reflexivity.
Qed.

(** C6 as worded fails: the array of a fresh chip does not have 266
    entries. *)
Lemma get_reg_values_array_length_not_266 :
  List.length (get_reg_values_array (YM2612Chip_init None 0 0)) <> 266%nat.
Proof. rewrite get_reg_values_array_length. discriminate. Qed.

(** ** C9 *)

(** C9 (as the code has it). A chip built with the default LFO arguments
    has both LFO fields 0 and, in every voice, every voice-level and
    operator field 0 except [audio_out], which is 3; slot [k] holds the
    object with [channel_id = k]. *)
Theorem YM2612Chip_init_defaults :
  forall (midi_out : option MidiOut) (ch_id : ChanId) (op_id : OpId),
    let self := YM2612Chip_init midi_out 0 0 in
    lfo_on self = 0 /\ lfo_freq self = 0
    /\ channel_id (chan self ch_id) = ChanId_to_Z ch_id
    /\ feedback (chan self ch_id) = 0
    /\ op_algorithm (chan self ch_id) = 0
    /\ audio_out (chan self ch_id) = 3
    /\ phase_mod_sens (chan self ch_id) = 0
    /\ amp_mod_sens (chan self ch_id) = 0
    /\ operator_block (get4 (operator (chan self ch_id)) op_id) = repeat 0 11
    /\ get_reg_LRAMSPMS (chan self ch_id) = 0xC0.
Proof.
  intros midi_out ch_id op_id. destruct ch_id, op_id; cbv; repeat split.
Qed.

(** C9 as worded fails: [audio_out] of a fresh voice is not zero. *)
Lemma YM2612Chip_init_audio_out_not_zero :
  audio_out (chan (YM2612Chip_init None 0 0) Ch0) <> 0.
Proof. discriminate. Qed.

(** ** The loader *)

Lemma length_43 {A : Type} (l : list A) :
  List.length l = 43%nat ->
  exists b0 b1 b2 b3 b4 b5 b6 b7 b8 b9 b10 b11 b12 b13 b14 b15 b16 b17 b18 b19
         b20 b21 b22 b23 b24 b25 b26 b27 b28 b29 b30 b31 b32 b33 b34 b35 b36
         b37 b38 b39 b40 b41 b42,
    l = [b0; b1; b2; b3; b4; b5; b6; b7; b8; b9; b10; b11; b12; b13; b14; b15;
         b16; b17; b18; b19; b20; b21; b22; b23; b24; b25; b26; b27; b28; b29;
         b30; b31; b32; b33; b34; b35; b36; b37; b38; b39; b40; b41; b42].
Proof.
  intros H.
  do 43 (destruct l as [|? l]; [discriminate H|]).
  destruct l; [|discriminate H].
  repeat eexists.
Qed.

Lemma load_vgi_file_43 (vgi_filename : string) (file : list byte)
    (self : YM2612Chip) :
  List.length file = 43%nat ->
  load_vgi_file vgi_filename (Some file) self
  = (Return tt, vgi_loaded vgi_filename file self).
Proof.
  intros H. apply length_43 in H.
  repeat match goal with H : exists _, _ |- _ => destruct H as [? H] end.
  subst file.
  destruct self as [lg mo vid lon lfr [r0 r1 r2 r3 r4 r5] a1 a2 a3 a4 a5 st sn].
  destruct r0; cbv -[byte_val Z.land Z.shiftr]; rewrite ?Z.shiftr_0_r;
    reflexivity.
Qed.

Lemma load_vgi_file_size_error (vgi_filename : string) (file : list byte)
    (self : YM2612Chip) :
  List.length file <> 43%nat ->
  load_vgi_file vgi_filename (Some file) self
  = (Return tt,
     set_logger (logger self ++ [LogVgiLoadFile vgi_filename;
                                 LogVgiSizeError (Z.of_nat (List.length file))])
                self).
Proof.
  intros H. apply Nat.eqb_neq in H.
  unfold load_vgi_file, bind at 1 2, logger_info, modify, with_open, file_read_all.
  cbn [fst snd position contents skipn].
  rewrite H.
  unfold on_self, modify. cbn [fst snd].
  destruct self; unfold set_logger, list_append; cbn.
  now rewrite <- app_assoc.
Qed.

Lemma load_vgi_file_open_error (vgi_filename : string) (self : YM2612Chip) :
  load_vgi_file vgi_filename None self
  = (Raise OSError,
     set_logger (logger self ++ [LogVgiLoadFile vgi_filename]) self).
Proof. reflexivity. Qed.

(** ** The transport *)

Lemma send_midi_cmd_attached (midi_cmd : Z) (cmd_payload : list Z)
    (self : YM2612Chip) (m : MidiOut) :
  midiout self = Some m ->
  send_midi_cmd midi_cmd cmd_payload self
  = (Return true,
     set_logger
       (logger self ++
        [LogSendDataStart;
         LogDataLen (Z.of_nat (List.length
                       (sysex_frame (vendor_id self) midi_cmd cmd_payload)));
         LogSysExCmd midi_cmd; LogSendFinish])
       (set_sent (sent self ++ [sysex_frame (vendor_id self) midi_cmd cmd_payload])
                 self)).
Proof.
  intros H. unfold send_midi_cmd, bind, gets. rewrite H.
  unfold logger_info, send_message, modify, ret, list_append, sysex_frame.
  destruct self; cbn in *.
  rewrite ?Z.shiftr_0_r, <- ?app_assoc. reflexivity.
Qed.

Lemma send_midi_cmd_detached (midi_cmd : Z) (cmd_payload : list Z)
    (self : YM2612Chip) :
  midiout self = None ->
  send_midi_cmd midi_cmd cmd_payload self
  = (Return false, set_logger (logger self ++ [LogNotInit]) self).
Proof.
  intros H. unfold send_midi_cmd, bind, gets. rewrite H. reflexivity.
Qed.

Lemma sysex_frame_ok (command : Z) (payload : list Z) :
  In command [0; 1; 2; 3] -> frame_ok (sysex_frame 0x001234 command payload).
Proof.
  intros Hc. exists command, payload. split; [exact Hc|].
  split; [reflexivity|]. split; [reflexivity|]. split; [|reflexivity].
  unfold sysex_frame. rewrite app_assoc. apply last_last.
Qed.

(** ** Preservation of the wire invariant *)

Lemma preserves_ret {A : Type} (a : A) : preserves (ret a).
Proof. intros self H. exact H. Qed.

Lemma preserves_raise {A : Type} (e : PyExc) : preserves (@raise _ A e).
Proof. intros self H. exact H. Qed.

Lemma preserves_gets {A : Type} (f : YM2612Chip -> A) : preserves (gets f).
Proof. intros self H. exact H. Qed.

Lemma preserves_bind {A B : Type} (m : M YM2612Chip A) (k : A -> M YM2612Chip B) :
  preserves m -> (forall a, preserves (k a)) -> preserves (bind m k).
Proof.
  intros Hm Hk self H. unfold bind.
  specialize (Hm self H). destruct (m self) as [[a|e] self']; cbn in *.
  - now apply Hk.
  - exact Hm.
Qed.

Lemma preserves_modify (f : YM2612Chip -> YM2612Chip) :
  (forall self, vendor_id (f self) = vendor_id self /\ sent (f self) = sent self) ->
  preserves (modify f).
Proof.
  intros Hf self [Hv Hs]. destruct (Hf self) as [Ev Es].
  unfold wire_inv, modify; cbn. now rewrite Ev, Es.
Qed.

Lemma preserves_for_each {A : Type} (xs : list A) (body : A -> M YM2612Chip unit) :
  (forall x, preserves (body x)) -> preserves (for_each xs body).
Proof.
  intros Hb. induction xs as [|x xs IH]; cbn [for_each].
  - apply preserves_ret.
  - apply preserves_bind; [apply Hb | intros _; exact IH].
Qed.

Lemma preserves_logger_info (r : LogRecord) : preserves (logger_info r).
Proof. apply preserves_modify. intros self. now split. Qed.

Lemma preserves_assign_ch ch_id setter v : preserves (assign_ch ch_id setter v).
Proof. apply preserves_modify. intros self. now split. Qed.

Lemma preserves_assign_op ch_id op_id setter v :
  preserves (assign_op ch_id op_id setter v).
Proof. apply preserves_modify. intros self. now split. Qed.

Lemma preserves_str_encode (s : PyStr) : preserves (str_encode s).
Proof.
  unfold str_encode. destruct (utf8 s); [apply preserves_ret | apply preserves_raise].
Qed.

Lemma preserves_send_midi_cmd (midi_cmd : Z) (cmd_payload : list Z) :
  In midi_cmd [0; 1; 2; 3] -> preserves (send_midi_cmd midi_cmd cmd_payload).
Proof.
  intros Hc self [Hv Hs]. destruct (midiout self) as [m|] eqn:Hm.
  - rewrite (send_midi_cmd_attached _ _ _ m Hm). split; [exact Hv|].
    cbn. apply Forall_app. split; [exact Hs|].
    constructor; [|constructor]. rewrite Hv. now apply sysex_frame_ok.
  - rewrite (send_midi_cmd_detached _ _ _ Hm). now split.
Qed.

Lemma preserves_load_vgi_file (vgi_filename : string)
    (opened : option (list byte)) :
  preserves (load_vgi_file vgi_filename opened).
Proof.
  intros self H.
  destruct opened as [file|]; [|rewrite load_vgi_file_open_error; exact H].
  destruct (Nat.eq_dec (List.length file) 43) as [E|E].
  - rewrite (load_vgi_file_43 _ _ _ E). exact H.
  - rewrite (load_vgi_file_size_error _ _ _ E). exact H.
Qed.

Create HintDb wire discriminated.
#[local] Hint Resolve preserves_ret preserves_raise preserves_gets
  preserves_logger_info preserves_assign_ch preserves_assign_op
  preserves_str_encode preserves_load_vgi_file : wire.

Ltac command_code :=
  cbv [YM_SYSEX_CMD_SET_REG YM_SYSEX_CMD_SAVE_PRESET YM_SYSEX_CMD_LOAD_PRESET
       YM_SYSEX_CMD_LOAD_DEFAULT_PRESET In]; tauto.

Ltac step_preserves :=
  repeat first
    [ progress cbv zeta
    | apply preserves_send_midi_cmd; command_code
    | solve [auto with wire]
    | apply preserves_for_each; intro
    | apply preserves_bind; [|intro] ].

Lemma preserves_midi_set_reg_values : preserves midi_set_reg_values.
Proof. unfold midi_set_reg_values. step_preserves. Qed.

Lemma preserves_midi_save_preset preset_pos preset_name :
  preserves (midi_save_preset preset_pos preset_name).
Proof.
  unfold midi_save_preset. destruct (preset_pos <? _); step_preserves.
Qed.

Lemma preserves_midi_load_default_preset preset_pos :
  preserves (midi_load_default_preset preset_pos).
Proof.
  unfold midi_load_default_preset. destruct (preset_pos <? _); step_preserves.
Qed.

Lemma preserves_midi_load_preset preset_pos :
  preserves (midi_load_preset preset_pos).
Proof.
  unfold midi_load_preset. destruct (preset_pos <? _); step_preserves.
Qed.

Lemma preserves_set_custom_preset : preserves set_custom_preset.
Proof.
  unfold set_custom_preset.
  apply preserves_bind; [apply preserves_modify; now split | intros _].
  apply preserves_bind; [apply preserves_modify; now split | intros _].
  apply preserves_bind; [apply preserves_for_each; intro; step_preserves | intros _].
  apply preserves_bind.
  - apply preserves_bind; [auto with wire | intros mo].
    destruct mo; [apply preserves_midi_set_reg_values | apply preserves_ret].
  - intros retval. step_preserves.
Qed.

Lemma exec_wire_inv (call : Call) (self : YM2612Chip) :
  wire_inv self -> wire_inv (exec call self).
Proof.
  destruct call; cbn [exec]; try exact (fun H => H).
  - apply preserves_load_vgi_file.
  - apply preserves_midi_set_reg_values.
  - apply preserves_midi_save_preset.
  - apply preserves_midi_load_default_preset.
  - apply preserves_midi_load_preset.
  - apply preserves_set_custom_preset.
Qed.

Lemma run_wire_inv (calls : list Call) :
  forall self, wire_inv self -> wire_inv (run calls self).
Proof.
  unfold run. induction calls as [|call calls IH]; intros self H; cbn.
  - exact H.
  - apply IH. now apply exec_wire_inv.
Qed.

(** ** C5 *)

(** C5. Whenever a transport is attached, [__send_midi_cmd] hands it
    exactly the bytes F0, the three vendor-id bytes (most significant
    first, each masked to 8 bits), the command code, the payload, F7, and
    nothing otherwise.  Over any history of a chip from its construction
    the vendor id stays 0x001234, so every frame handed over is
    F0 00 12 34 cmd payload... F7: it begins with F0, ends with F7, and
    its 5th byte is the command code, one of 0, 1, 2, 3. *)
Theorem every_frame_is_sysex :
  (forall (self : YM2612Chip) (midi_cmd : Z) (cmd_payload : list Z),
     sent (snd (send_midi_cmd midi_cmd cmd_payload self))
     = match midiout self with
       | Some _ =>
           sent self ++
           [[0xF0; Z.land (Z.shiftr (vendor_id self) 16) 0xFF;
             Z.land (Z.shiftr (vendor_id self) 8) 0xFF;
             Z.land (vendor_id self) 0xFF; midi_cmd]
            ++ cmd_payload ++ [0xF7]]
       | None => sent self
       end)
  /\ (forall (midi_out : option MidiOut) (lfo_on lfo_freq : Z)
            (calls : list Call),
        let self := run calls (YM2612Chip_init midi_out lfo_on lfo_freq) in
        vendor_id self = 0x001234 /\ Forall frame_ok (sent self)).
Proof.
  split.
  - intros self midi_cmd cmd_payload.
    destruct (midiout self) as [m|] eqn:Hm.
    + now rewrite (send_midi_cmd_attached _ _ _ m Hm).
    + now rewrite (send_midi_cmd_detached _ _ _ Hm).
  - intros midi_out lfo_on lfo_freq calls. apply run_wire_inv.
    split; [reflexivity | constructor].
Qed.

(** ** C1 *)

(** C1 (defect). [load_vgi_file] stores the three voice-level bytes in
    attributes of the chip object and never in the voice: after loading 43
    zero bytes into a fresh chip the call has returned, yet voice 0 still
    has [audio_out = 3]; after loading [sample_vgi] the voice keeps its
    old algorithm, feedback, audio_out, amp_mod_sens and phase_mod_sens
    while the decoded values 5, 6, 3, 3, 7 sit on the chip object.  The
    four operator blocks are decoded into the voice per the layout. *)
Theorem load_vgi_file_leaves_voice_fields :
  let fresh := YM2612Chip_init None 0 0 in
  let z := load_vgi_file "zero.vgi" (Some zero_vgi) fresh in
  let s := load_vgi_file "sample.vgi" (Some sample_vgi) fresh in
  List.length zero_vgi = 43%nat /\ List.length sample_vgi = 43%nat
  /\ fst z = Return tt /\ fst s = Return tt
  /\ audio_out (chan (snd z) Ch0) = 3
  /\ self_audio_out (snd z) = Some 0
  /\ voice_block (chan (snd z) Ch0) = [0; 0; 3; 0; 0] ++ repeat 0 44
  /\ firstn 5 (voice_block (chan (snd s) Ch0)) = [0; 0; 3; 0; 0]
  /\ [self_op_algorithm (snd s); self_feedback (snd s); self_audio_out (snd s);
      self_amp_mod_sens (snd s); self_phase_mod_sens (snd s)]
     = [Some 5; Some 6; Some 3; Some 3; Some 7]
  /\ skipn 5 (voice_block (chan (snd s) Ch0))
     = [2; 1; 3; 4; 5; 1; 6; 7; 9; 8; 10;
        12; 11; 13; 14; 15; 0; 16; 17; 19; 18; 20;
        22; 21; 23; 24; 25; 0; 26; 27; 29; 28; 30;
        32; 31; 33; 34; 35; 0; 4; 37; 39; 38; 40].
Proof. vm_compute. repeat split. Qed.

(** ** C2 *)

(** C2 (as the code has it). For every buffer whose length is not 43 the
    call returns normally with the same value as a successful load, the
    registers, the channel table, the channel objects and the transport
    are unchanged, and the only trace of the rejection is one record of
    the logger carrying the length. *)
Theorem load_vgi_file_rejects_other_sizes :
  forall (vgi_filename : string) (file : list byte) (self : YM2612Chip),
    List.length file <> 43%nat ->
    fst (load_vgi_file vgi_filename (Some file) self) = Return tt
    /\ without_log (snd (load_vgi_file vgi_filename (Some file) self)) = without_log self
    /\ logger (snd (load_vgi_file vgi_filename (Some file) self))
       = logger self ++ [LogVgiLoadFile vgi_filename;
                         LogVgiSizeError (Z.of_nat (List.length file))].
Proof.
  intros vgi_filename file self H.
  rewrite (load_vgi_file_size_error _ _ _ H). now destruct self.
Qed.

Lemma load_vgi_file_rejects_other_sizes_witness :
  List.length (repeat x00 40) <> 43%nat
  /\ fst (load_vgi_file "short.vgi" (Some (repeat x00 40)) (YM2612Chip_init None 0 0))
     = Return tt.
Proof.
  assert (H : List.length (repeat x00 40) <> 43%nat) by (cbn; lia).
  split; [exact H|].
  exact (proj1 (load_vgi_file_rejects_other_sizes "short.vgi" (repeat x00 40)
                  (YM2612Chip_init None 0 0) H)).
Defined.

(** C2 as worded fails: on a chip that has already loaded the file, a
    40-byte buffer and the well-formed 43-byte buffer give the same
    outcome and the same state; no error reaches the caller. *)
Lemma load_vgi_file_size_error_not_surfaced :
  let self := snd (load_vgi_file "zero.vgi" (Some zero_vgi) (YM2612Chip_init None 0 0)) in
  let bad := load_vgi_file "zero.vgi" (Some (repeat x00 40)) self in
  let good := load_vgi_file "zero.vgi" (Some zero_vgi) self in
  List.length (repeat x00 40) <> 43%nat
  /\ List.length zero_vgi = 43%nat
  /\ fst bad = Return tt
  /\ fst bad = fst good
  /\ without_log (snd bad) = without_log (snd good).
Proof. vm_compute. repeat split. discriminate. Qed.

(** ** C10 *)

Lemma get6_set6_same {A : Type} (d : Dict6 A) (k : ChanId) (v : A) :
  get6 (set6 d k v) k = v.
Proof. now destruct k. Qed.

(** C10. After a load of a 43-byte buffer every slot refers to the object
    slot 0 referred to, so all six voices are one record: the flattened
    array repeats one voice block six times, an update made through any
    slot is read back through every slot, and the record's [channel_id]
    is 5. *)
Theorem load_vgi_file_shares_one_voice :
  forall (vgi_filename : string) (file : list byte) (self : YM2612Chip),
    List.length file = 43%nat ->
    let self' := snd (load_vgi_file vgi_filename (Some file) self) in
    fst (load_vgi_file vgi_filename (Some file) self) = Return tt
    /\ (forall ch_id, get6 (channel self') ch_id = get6 (channel self) Ch0)
    /\ (forall j k, chan self' j = chan self' k)
    /\ get_reg_values_array self'
       = [lfo_on self'; lfo_freq self']
         ++ List.concat (repeat (voice_block (chan self' Ch0)) 6)
    /\ (forall j k f, chan (update_channel j f self') k = f (chan self' j))
    /\ (forall ch_id, channel_id (chan self' ch_id) = 5)
    /\ (forall ch_id, operator (chan self' ch_id) = vgi_operators file).
Proof.
  intros vgi_filename file self H self'. subst self'.
  rewrite (load_vgi_file_43 _ _ _ H). cbn [fst snd].
  assert (E : forall k, chan (vgi_loaded vgi_filename file self) k
                        = get6 (store (vgi_loaded vgi_filename file self))
                               (get6 (channel self) Ch0))
    by (intros k; now destruct k).
  split; [reflexivity|].
  split; [intros ch_id; now destruct ch_id|].
  split; [intros j k; now rewrite !E|].
  split.
  - rewrite get_reg_values_array_layout. unfold flatten_layout.
    cbn [flat_map ch_range List.concat repeat]. now rewrite !E, app_nil_r.
  - split; [|split].
    + intros j k f. unfold chan at 1, update_channel.
      cbn [store channel set_store].
      replace (get6 (channel (vgi_loaded vgi_filename file self)) k)
        with (get6 (channel (vgi_loaded vgi_filename file self)) j)
        by (now destruct j, k).
      apply get6_set6_same.
    + intros ch_id. rewrite E. cbn [store vgi_loaded].
      now rewrite get6_set6_same.
    + intros ch_id. rewrite E. cbn [store vgi_loaded].
      now rewrite get6_set6_same.
Qed.

Lemma load_vgi_file_shares_one_voice_witness :
  List.length zero_vgi = 43%nat
  /\ forall ch_id,
       channel_id (chan (snd (load_vgi_file "zero.vgi" (Some zero_vgi)
                                (YM2612Chip_init None 0 0))) ch_id) = 5.
Proof.
  split; [reflexivity|].
  exact (proj1 (proj2 (proj2 (proj2 (proj2 (proj2
    (load_vgi_file_shares_one_voice "zero.vgi" zero_vgi
       (YM2612Chip_init None 0 0) eq_refl))))))).
Defined.

(** ** Preset names *)

Lemma utf8_ascii (s : PyStr) : is_ascii s -> utf8 s = Some (map Z.of_N s).
Proof.
  induction 1 as [|cp s Hcp _ IH]; cbn [utf8 map]; [reflexivity|].
  rewrite IH. unfold utf8_char.
  replace (Z.of_N cp <? 0x80) with true by (symmetry; apply Z.ltb_lt; lia).
  reflexivity.
Qed.

Lemma format_ljust_ascii (width : nat) (s : PyStr) :
  is_ascii s -> is_ascii (format_ljust width s).
Proof.
  intros H. apply Forall_app. split; [exact H|].
  apply Forall_forall. intros cp Hin. apply repeat_spec in Hin. now subst cp.
Qed.

Lemma format_ljust_length (width : nat) (s : PyStr) :
  List.length (format_ljust width s) = Nat.max width (List.length s).
Proof. unfold format_ljust. rewrite length_app, repeat_length. lia. Qed.

Lemma name_nibbles_length (bs : list Z) :
  List.length (name_nibbles bs) = (2 * List.length bs)%nat.
Proof.
  unfold name_nibbles. rewrite (length_flat_map_const _ 2) by reflexivity. lia.
Qed.

Lemma bind_ret_r {S A : Type} (m : M S A) (s : S) :
  bind m (fun a => ret a) s = m s.
Proof. unfold bind, ret. now destruct (m s) as [[a|e] s']. Qed.

(** With a name that encodes, [midi_save_preset] in range is one call of
    [__send_midi_cmd] on slot, name nibbles and register values. *)
Lemma midi_save_preset_in_range (preset_pos : Z) (preset_name : PyStr)
    (bs : list Z) (self : YM2612Chip) :
  preset_pos < 5 ->
  utf8 (format_ljust 15 preset_name) = Some bs ->
  midi_save_preset preset_pos preset_name self
  = send_midi_cmd 1
      ([preset_pos] ++ name_nibbles bs ++ get_reg_values_array self) self.
Proof.
  intros Hpos Hbs. unfold midi_save_preset, YM_MAX_NUM_USER_PRESETS.
  replace (preset_pos <? 5) with true by (symmetry; now apply Z.ltb_lt).
  cbv zeta. unfold str_encode. rewrite Hbs.
  unfold bind at 1. unfold ret at 1. cbv beta iota.
  unfold bind at 1. unfold gets at 1. cbv beta iota.
  rewrite bind_ret_r.
  rewrite (fold_left_app_flat_map
             (fun b => [Z.land b 0x0F; Z.land (Z.shiftr b 4) 0x0F]))
    by (intros acc b; unfold list_append;
        now rewrite Z.shiftr_0_r, <- app_assoc).
  unfold list_append, name_nibbles, YM_SYSEX_CMD_SAVE_PRESET.
  now rewrite <- app_assoc.
Qed.

Lemma midi_save_preset_out_of_range (preset_pos : Z) (preset_name : PyStr)
    (self : YM2612Chip) :
  5 <= preset_pos ->
  midi_save_preset preset_pos preset_name self = (Return false, self).
Proof.
  intros H. unfold midi_save_preset, YM_MAX_NUM_USER_PRESETS.
  now replace (preset_pos <? 5) with false by (symmetry; apply Z.ltb_ge; lia).
Qed.

Lemma midi_load_preset_eq (preset_pos : Z) (self : YM2612Chip) :
  midi_load_preset preset_pos self
  = if preset_pos <? 5 then send_midi_cmd 2 [preset_pos] self
    else (Return false, self).
Proof.
  unfold midi_load_preset, YM_MAX_NUM_USER_PRESETS.
  destruct (preset_pos <? 5); [|reflexivity]. cbv zeta. apply bind_ret_r.
Qed.

Lemma midi_load_default_preset_eq (preset_pos : Z) (self : YM2612Chip) :
  midi_load_default_preset preset_pos self
  = if preset_pos <? 8 then send_midi_cmd 3 [preset_pos] self
    else (Return false, self).
Proof.
  unfold midi_load_default_preset, YM_MAX_NUM_DEFAULT_PRESETS.
  destruct (preset_pos <? 8); [|reflexivity]. cbv zeta. apply bind_ret_r.
Qed.

Lemma midi_save_preset_unencodable (preset_pos : Z) (preset_name : PyStr)
    (self : YM2612Chip) :
  preset_pos < 5 ->
  utf8 (format_ljust 15 preset_name) = None ->
  midi_save_preset preset_pos preset_name self
  = (Raise UnicodeEncodeError, self).
Proof.
  intros Hpos Hbs. unfold midi_save_preset, YM_MAX_NUM_USER_PRESETS.
  replace (preset_pos <? 5) with true by (symmetry; now apply Z.ltb_lt).
  cbv zeta. unfold str_encode. rewrite Hbs. reflexivity.
Qed.

Lemma midi_save_preset_eq (preset_pos : Z) (preset_name : PyStr)
    (self : YM2612Chip) :
  midi_save_preset preset_pos preset_name self
  = if preset_pos <? 5
    then match utf8 (format_ljust 15 preset_name) with
         | Some bs =>
             send_midi_cmd 1
               ([preset_pos] ++ name_nibbles bs ++ get_reg_values_array self)
               self
         | None => (Raise UnicodeEncodeError, self)
         end
    else (Return false, self).
Proof.
  destruct (Z.ltb_spec preset_pos 5) as [H|H].
  - destruct (utf8 (format_ljust 15 preset_name)) as [bs|] eqn:Hbs.
    + now apply midi_save_preset_in_range.
    + now apply midi_save_preset_unencodable.
  - now apply midi_save_preset_out_of_range.
Qed.

(** ** C3 *)

(** C3 (as the code has it). For every slot below 5 and every name of at
    most 15 ASCII characters, the payload handed to [__send_midi_cmd] is
    the slot, then exactly 30 name bytes, then the 296 register values;
    the name is left-justified and padded with spaces to exactly 15
    characters, one byte per character, and each byte b goes out as
    b & 0x0F then (b >> 4) & 0x0F; for the name LEAD the first two name
    bytes are 0x0C and 0x04.  With a transport attached the payload goes
    out in one SAVE_PRESET frame. *)
Theorem midi_save_preset_payload :
  forall (self : YM2612Chip) (preset_pos : Z) (preset_name : PyStr),
    preset_pos < 5 ->
    is_ascii preset_name ->
    (List.length preset_name <= 15)%nat ->
    let padded := preset_name ++ repeat 32%N (15 - List.length preset_name) in
    let name_bytes :=
      flat_map (fun b => [Z.land b 0x0F; Z.land (Z.shiftr b 4) 0x0F])
               (map Z.of_N padded) in
    let payload := [preset_pos] ++ name_bytes ++ get_reg_values_array self in
    midi_save_preset preset_pos preset_name self
    = send_midi_cmd 1 payload self
    /\ (forall m : MidiOut,
          midiout self = Some m ->
          fst (midi_save_preset preset_pos preset_name self) = Return true
          /\ sent (snd (midi_save_preset preset_pos preset_name self))
             = sent self ++ [sysex_frame (vendor_id self) 1 payload])
    /\ List.length padded = 15%nat
    /\ List.length name_bytes = 30%nat
    /\ List.length (get_reg_values_array self) = 296%nat
    /\ List.length payload = (1 + 30 + 296)%nat
    /\ firstn 2 (name_nibbles
                   (map Z.of_N (format_ljust 15 (str_of_string "LEAD"))))
       = [0x0C; 0x04].
Proof.
  intros self preset_pos preset_name Hpos Hascii Hshort padded name_bytes
         payload.
  assert (Hpad : List.length padded = 15%nat).
  { subst padded. rewrite length_app, repeat_length. lia. }
  assert (Hlen : List.length name_bytes = 30%nat).
  { subst name_bytes. fold (name_nibbles (map Z.of_N padded)).
    rewrite name_nibbles_length, length_map, Hpad. reflexivity. }
  assert (Hsave : midi_save_preset preset_pos preset_name self
                  = send_midi_cmd 1 payload self).
  { apply midi_save_preset_in_range; [exact Hpos|].
    apply utf8_ascii. now apply format_ljust_ascii. }
  split; [exact Hsave|].
  split.
  { intros m Hm. rewrite Hsave, (send_midi_cmd_attached _ _ _ m Hm).
    split; reflexivity. }
  split; [exact Hpad|]. split; [exact Hlen|].
  split; [apply get_reg_values_array_length|].
  split; [|reflexivity].
  subst payload. rewrite !length_app, Hlen, get_reg_values_array_length.
  reflexivity.
Qed.

Lemma midi_save_preset_payload_witness :
  4 < 5
  /\ is_ascii (str_of_string "LEAD")
  /\ (List.length (str_of_string "LEAD") <= 15)%nat
  /\ fst (midi_save_preset 4 (str_of_string "LEAD")
            (YM2612Chip_init (Some (MidiPort 0)) 0 0)) = Return true.
Proof.
  assert (Ha : is_ascii (str_of_string "LEAD"))
    by (repeat constructor).
  assert (Hl : (List.length (str_of_string "LEAD") <= 15)%nat)
    by (cbn; lia).
  split; [lia|]. split; [exact Ha|]. split; [exact Hl|].
  exact (proj1 (proj1 (proj2 (midi_save_preset_payload
                                (YM2612Chip_init (Some (MidiPort 0)) 0 0) 4
                                (str_of_string "LEAD") eq_refl Ha Hl))
                  (MidiPort 0) eq_refl)).
Defined.

(** C3 as worded fails in three ways.  The payload for slot 0 and the
    name LEAD has 1 + 30 + 296 entries, not 1 + 30 + 266.  A name of 16
    characters is not cut to 15: it goes out on 32 name bytes.  A name
    that is not ASCII is not ASCII-encoded: the single character U+00E9
    makes two bytes, so the padded name goes out on 32 name bytes. *)
Lemma midi_save_preset_payload_not_297 :
  let self := YM2612Chip_init (Some (MidiPort 0)) 0 0 in
  let long_name := str_of_string "ABCDEFGHIJKLMNOP" in
  let accented : PyStr := [233%N] in
  map (fun frame => List.length (payload_of frame))
      (sent (snd (midi_save_preset 0 (str_of_string "LEAD") self)))
    = [(1 + 30 + 296)%nat]
  /\ map (fun frame => List.length (payload_of frame))
         (sent (snd (midi_save_preset 0 (str_of_string "LEAD") self)))
    <> [(1 + 30 + 266)%nat]
  /\ List.length long_name = 16%nat
  /\ map (fun frame => List.length (payload_of frame))
         (sent (snd (midi_save_preset 0 long_name self)))
    = [(1 + 32 + 296)%nat]
  /\ List.length accented = 1%nat
  /\ fst (midi_save_preset 0 accented self) = Return true
  /\ map (fun frame => List.length (payload_of frame))
         (sent (snd (midi_save_preset 0 accented self)))
    = [(1 + 32 + 296)%nat]
  /\ map (fun frame => firstn 4 (skipn 1 (payload_of frame)))
         (sent (snd (midi_save_preset 0 accented self)))
    = [[0x03; 0x0C; 0x09; 0x0A]].
Proof. vm_compute. repeat split. discriminate. Qed.

(** ** C4 *)

(** C4 (as the code has it). The three preset commands return False, with
    the state untouched and nothing handed to the transport, whenever the
    slot is at least 5 (save, load) or at least 8 (default preset).  Below
    the bound the outcome depends on the transport: with one attached the
    command returns True and hands over exactly one frame whose payload
    starts with the slot; without one it returns False and hands over
    nothing.  A save below the bound whose padded name cannot be encoded
    raises [UnicodeEncodeError] with the state untouched.  So with a
    transport attached, and for a save a name that encodes, the commands
    return False exactly when the slot is out of range. *)
Theorem preset_slot_bounds :
  forall (self : YM2612Chip) (preset_pos : Z) (preset_name : PyStr),
    let attached := match midiout self with Some _ => true | None => false end in
    let frames (command : Z) (payload : list Z) :=
      if attached then [sysex_frame (vendor_id self) command payload]
      else [] in
    let save := midi_save_preset preset_pos preset_name self in
    let load := midi_load_preset preset_pos self in
    let dflt := midi_load_default_preset preset_pos self in
    (5 <= preset_pos ->
       save = (Return false, self) /\ load = (Return false, self))
    /\ (8 <= preset_pos -> dflt = (Return false, self))
    /\ (preset_pos < 5 ->
          fst load = Return attached
          /\ sent (snd load) = sent self ++ frames 2 [preset_pos]
          /\ get_reg_values_array (snd load) = get_reg_values_array self)
    /\ (preset_pos < 8 ->
          fst dflt = Return attached
          /\ sent (snd dflt) = sent self ++ frames 3 [preset_pos]
          /\ get_reg_values_array (snd dflt) = get_reg_values_array self)
    /\ (preset_pos < 5 ->
          match utf8 (format_ljust 15 preset_name) with
          | Some bs =>
              fst save = Return attached
              /\ sent (snd save)
                 = sent self
                   ++ frames 1 ([preset_pos] ++ name_nibbles bs
                                ++ get_reg_values_array self)
              /\ get_reg_values_array (snd save) = get_reg_values_array self
          | None => save = (Raise UnicodeEncodeError, self)
          end)
    /\ (attached = true ->
          (fst load = Return false <-> 5 <= preset_pos)
          /\ (fst load = Return true <-> preset_pos < 5)
          /\ (fst dflt = Return false <-> 8 <= preset_pos)
          /\ (fst dflt = Return true <-> preset_pos < 8)
          /\ (utf8 (format_ljust 15 preset_name) <> None ->
                (fst save = Return false <-> 5 <= preset_pos)
                /\ (fst save = Return true <-> preset_pos < 5)))
    /\ (attached = false ->
          fst load = Return false /\ sent (snd load) = sent self
          /\ fst dflt = Return false /\ sent (snd dflt) = sent self
          /\ fst save <> Return true /\ sent (snd save) = sent self
          /\ (utf8 (format_ljust 15 preset_name) <> None ->
                fst save = Return false)).
Proof.
  intros self preset_pos preset_name attached frames save load dflt.
  subst save load dflt frames attached.
  rewrite midi_save_preset_eq, midi_load_preset_eq, midi_load_default_preset_eq.
  destruct (midiout self) as [m|] eqn:Hm.
  - destruct (utf8 (format_ljust 15 preset_name)) as [bs|];
      destruct (Z.ltb_spec preset_pos 5), (Z.ltb_spec preset_pos 8);
      rewrite ?(send_midi_cmd_attached 1 _ _ m Hm),
              ?(send_midi_cmd_attached 2 _ _ m Hm),
              ?(send_midi_cmd_attached 3 _ _ m Hm);
      cbn [fst snd sent set_logger set_sent];
      repeat split; intros; try lia; try discriminate; try reflexivity;
      try congruence.
  - destruct (utf8 (format_ljust 15 preset_name)) as [bs|];
      destruct (Z.ltb_spec preset_pos 5), (Z.ltb_spec preset_pos 8);
      rewrite ?(send_midi_cmd_detached 1 _ _ Hm),
              ?(send_midi_cmd_detached 2 _ _ Hm),
              ?(send_midi_cmd_detached 3 _ _ Hm);
      cbn [fst snd sent set_logger set_sent];
      rewrite ?app_nil_r;
      repeat split; intros; try lia; try discriminate; try reflexivity;
      try congruence.
Qed.

Lemma preset_slot_bounds_witness :
  fst (midi_load_default_preset 7 (YM2612Chip_init (Some (MidiPort 0)) 0 0))
  = Return true
  /\ fst (midi_save_preset 4 (str_of_string "LEAD")
            (YM2612Chip_init (Some (MidiPort 0)) 0 0))
     = Return true
  /\ fst (midi_load_default_preset 8 (YM2612Chip_init (Some (MidiPort 0)) 0 0))
     = Return false
  /\ fst (midi_save_preset 5 (str_of_string "LEAD")
            (YM2612Chip_init (Some (MidiPort 0)) 0 0))
     = Return false.
Proof.
  pose proof (preset_slot_bounds (YM2612Chip_init (Some (MidiPort 0)) 0 0) 7
                (str_of_string "LEAD")) as W7.
  pose proof (preset_slot_bounds (YM2612Chip_init (Some (MidiPort 0)) 0 0) 4
                (str_of_string "LEAD")) as W4.
  pose proof (preset_slot_bounds (YM2612Chip_init (Some (MidiPort 0)) 0 0) 8
                (str_of_string "LEAD")) as W8.
  pose proof (preset_slot_bounds (YM2612Chip_init (Some (MidiPort 0)) 0 0) 5
                (str_of_string "LEAD")) as W5.
  cbv zeta in W7, W4, W8, W5.
  destruct W7 as (_ & _ & _ & D7 & _).
  destruct W4 as (_ & _ & _ & _ & S4 & _).
  destruct W8 as (_ & D8 & _).
  destruct W5 as (S5 & _).
  split; [exact (proj1 (D7 ltac:(lia)))|].
  split; [exact (proj1 (S4 ltac:(lia)))|].
  split; [now rewrite (D8 ltac:(lia))|].
  now rewrite (proj1 (S5 ltac:(lia))).
Defined.

(** C4 as worded fails: on a chip without a transport, slot 7 of the
    default presets and slot 4 of the user presets are in range and the
    commands still return False, as they do out of range, and nothing is
    handed over. *)
Lemma preset_in_range_fails_without_transport :
  let self := YM2612Chip_init None 0 0 in
  fst (midi_load_default_preset 7 self) = Return false
  /\ fst (midi_save_preset 4 (str_of_string "LEAD") self) = Return false
  /\ fst (midi_load_preset 4 self) = Return false
  /\ fst (midi_load_default_preset 7 self) = fst (midi_load_default_preset 8 self)
  /\ sent (snd (midi_load_default_preset 7 self)) = []
  /\ sent (snd (midi_save_preset 4 (str_of_string "LEAD") self)) = []
  /\ sent (snd (midi_load_preset 4 self)) = [].
Proof. vm_compute. repeat split. Qed.

(** * Further properties of the chip model *)

(** ** Loading *)

Lemma byte_val_range (b : byte) : 0 <= byte_val b <= 255.
Proof. destruct b; vm_compute; split; discriminate. Qed.

Lemma land_ones_range (v n : Z) : 0 <= n -> 0 <= Z.land v (Z.ones n) < 2 ^ n.
Proof.
  intros Hn. rewrite Z.land_ones by exact Hn.
  apply Z.mod_pos_bound. now apply Z.pow_pos_nonneg.
Qed.

Lemma set6_set6_same {A : Type} (d : Dict6 A) (k : ChanId) (v w : A) :
  set6 (set6 d k v) k w = set6 d k w.
Proof. now destruct k. Qed.

Lemma get6_set6_other {A : Type} (d : Dict6 A) (j k : ChanId) (v : A) :
  j <> k -> get6 (set6 d j v) k = get6 d k.
Proof. intros H. destruct j, k; try reflexivity; now elim H. Qed.

(** X1. [load_vgi_file] raises only when the file cannot be opened:
    then [OSError] propagates after the "LOAD FILE" record and nothing else
    has changed.  Once the file is open the call returns normally whatever
    the file holds and however long it is: the length test makes each of
    the 43 reads succeed, so [struct.unpack] never sees a short read.  In
    no case are the LFO fields, the transport, the vendor id or the frames
    already sent touched. *)
Theorem load_vgi_file_raises_only_on_open :
  forall (vgi_filename : string) (opened : option (list byte))
         (self : YM2612Chip),
    let r := load_vgi_file vgi_filename opened self in
    fst r = match opened with
            | Some _ => Return tt
            | None => Raise OSError
            end
    /\ (opened = None ->
          without_log (snd r) = without_log self
          /\ logger (snd r) = logger self ++ [LogVgiLoadFile vgi_filename])
    /\ lfo_on (snd r) = lfo_on self
    /\ lfo_freq (snd r) = lfo_freq self
    /\ midiout (snd r) = midiout self
    /\ vendor_id (snd r) = vendor_id self
    /\ sent (snd r) = sent self.
Proof.
  intros vgi_filename opened self r. subst r.
  destruct opened as [file|].
  - split; [|split; [discriminate|]];
      (destruct (Nat.eq_dec (List.length file) 43) as [E|E];
       [ rewrite (load_vgi_file_43 _ _ _ E)
       | rewrite (load_vgi_file_size_error _ _ _ E) ]);
      repeat split.
  - rewrite load_vgi_file_open_error. cbn [fst snd].
    split; [reflexivity|]. split; [|repeat split].
    intros _. split; [now destruct self | reflexivity].
Qed.

(** X2. What a load of a 43-byte file writes, for any prior state: the
    first three bytes go to the five attributes of the chip object; the
    object slot 0 referred to receives the four operators, each from its
    ten bytes in file order multiple, detune, total_level, key_scale,
    attack_rate, amp_mod/decay, sustain_rate, release_rate, sustain_level,
    ssg_envelope, and keeps its five voice-level fields; every other
    channel object is left as it was. *)
Theorem load_vgi_file_43_effect :
  forall (vgi_filename : string) (file : list byte) (self : YM2612Chip),
    List.length file = 43%nat ->
    let self' := snd (load_vgi_file vgi_filename (Some file) self) in
    let r := get6 (channel self) Ch0 in
    [self_op_algorithm self'; self_feedback self'; self_audio_out self';
     self_amp_mod_sens self'; self_phase_mod_sens self']
    = [Some (vgi_byte file 0); Some (vgi_byte file 1);
       Some (Z.land (Z.shiftr (vgi_byte file 2) 6) 3);
       Some (Z.land (Z.shiftr (vgi_byte file 2) 4) 3);
       Some (Z.land (vgi_byte file 2) 7)]
    /\ firstn 5 (voice_block (get6 (store self') r))
       = firstn 5 (voice_block (get6 (store self) r))
    /\ (forall op_id,
          let b := (3 + 10 * Z.to_nat (OpId_to_Z op_id))%nat in
          operator_block (get4 (operator (get6 (store self') r)) op_id)
          = [vgi_byte file (b + 1); vgi_byte file b; vgi_byte file (b + 2);
             vgi_byte file (b + 3); vgi_byte file (b + 4);
             Z.land (Z.shiftr (vgi_byte file (b + 5)) 7) 1;
             Z.land (vgi_byte file (b + 5)) 0x1F;
             vgi_byte file (b + 6); vgi_byte file (b + 8);
             vgi_byte file (b + 7); vgi_byte file (b + 9)])
    /\ (forall r', r' <> r -> get6 (store self') r' = get6 (store self) r').
Proof.
  intros vgi_filename file self H self' r. subst self' r.
  rewrite (load_vgi_file_43 _ _ _ H). cbn [fst snd].
  unfold vgi_loaded. cbv zeta.
  cbn [self_op_algorithm self_feedback self_audio_out self_amp_mod_sens
       self_phase_mod_sens store].
  split; [reflexivity|].
  rewrite get6_set6_same.
  split; [reflexivity|].
  split; [intros op_id; now destruct op_id|].
  intros r' Hr'. apply get6_set6_other. congruence.
Qed.

Lemma load_vgi_file_43_effect_witness :
  List.length sample_vgi = 43%nat
  /\ operator_block
       (get4 (operator (get6 (store (snd (load_vgi_file "sample.vgi" (Some sample_vgi)
                                           (YM2612Chip_init None 0 0)))) Ch0))
             Op0)
     = [2; 1; 3; 4; 5; 1; 6; 7; 9; 8; 10].
Proof.
  split; [reflexivity|].
  exact (proj1 (proj2 (proj2
    (load_vgi_file_43_effect "sample.vgi" sample_vgi
       (YM2612Chip_init None 0 0) eq_refl))) Op0).
Defined.

(** X3. Loading is idempotent: loading the same file a second time leaves
    the state of the first load, apart from the logger output.  This holds
    for files of any length. *)
Theorem load_vgi_file_idempotent :
  forall (vgi_filename : string) (file : list byte) (self : YM2612Chip),
    let once := snd (load_vgi_file vgi_filename (Some file) self) in
    without_log (snd (load_vgi_file vgi_filename (Some file) once)) = without_log once.
Proof.
  intros vgi_filename file self once. subst once.
  destruct (Nat.eq_dec (List.length file) 43) as [E|E].
  - rewrite !(load_vgi_file_43 _ _ _ E). cbn [fst snd].
    unfold vgi_loaded at 1. cbv zeta.
    set (once := vgi_loaded vgi_filename file self).
    assert (Hr : get6 (channel once) Ch0 = get6 (channel self) Ch0) by reflexivity.
    rewrite Hr.
    assert (Hs : store once
                 = set6 (store self) (get6 (channel self) Ch0)
                     (get6 (store once) (get6 (channel self) Ch0))).
    { subst once. unfold vgi_loaded. cbv zeta. cbn [store].
      now rewrite get6_set6_same. }
    assert (Hc : get6 (store once) (get6 (channel self) Ch0)
                 = mkChannel 5
                     (feedback (get6 (store once) (get6 (channel self) Ch0)))
                     (op_algorithm (get6 (store once) (get6 (channel self) Ch0)))
                     (audio_out (get6 (store once) (get6 (channel self) Ch0)))
                     (phase_mod_sens (get6 (store once) (get6 (channel self) Ch0)))
                     (amp_mod_sens (get6 (store once) (get6 (channel self) Ch0)))
                     (vgi_operators file)).
    { subst once. unfold vgi_loaded. cbv zeta. cbn [store].
      now rewrite get6_set6_same. }
    rewrite <- Hc.
    rewrite Hs at 1. rewrite set6_set6_same, <- Hs.
    subst once. unfold without_log, set_logger, vgi_loaded. cbv zeta.
    cbn [midiout vendor_id lfo_on lfo_freq channel self_op_algorithm
         self_feedback self_audio_out self_amp_mod_sens self_phase_mod_sens
         store sent]. reflexivity.
  - rewrite !(load_vgi_file_size_error _ _ _ E). cbn [fst snd].
    now destruct self.
Qed.


Lemma vgi_byte_range (file : list byte) (i : nat) : 0 <= vgi_byte file i <= 255.
Proof. apply byte_val_range. Qed.

Lemma vgi_operator_ranges (file : list byte) (base : nat) :
  Forall (fun v => 0 <= v <= 255) (operator_block (vgi_operator file base))
  /\ 0 <= amp_mod_on (vgi_operator file base) <= 1
  /\ 0 <= decay_rate (vgi_operator file base) <= 31.
Proof.
  unfold vgi_operator, operator_block.
  cbn [detune multiple total_level key_scale attack_rate amp_mod_on
       decay_rate sustain_rate sustain_level release_rate ssg_envelope].
  pose proof (land_ones_range (Z.shiftr (vgi_byte file (base + 5)) 7) 1
                ltac:(lia)) as Ham.
  pose proof (land_ones_range (vgi_byte file (base + 5)) 5 ltac:(lia)) as Hdr.
  change (Z.ones 1) with 1 in Ham. change (Z.ones 5) with 0x1F in Hdr.
  change (2 ^ 1) with 2 in Ham. change (2 ^ 5) with 32 in Hdr.
  split; [|split; lia].
  repeat constructor; try apply vgi_byte_range; lia.
Qed.

(** X4. After a load of a 43-byte file the operators of every voice hold
    the file bytes as they are: nine of the eleven fields are stored
    unmasked, whatever their declared width, and only [amp_mod_on] (bit 7)
    and [decay_rate] (bits 4:0) are cut out of their byte.  So every
    operator field is a byte value, [amp_mod_on] is 0 or 1 and
    [decay_rate] at most 31; and the register array carries these values
    unchanged, six times over, after the two LFO fields and the five
    voice-level fields that the load leaves alone. *)
Theorem load_vgi_file_operator_ranges :
  forall (vgi_filename : string) (file : list byte) (self : YM2612Chip),
    List.length file = 43%nat ->
    let self' := snd (load_vgi_file vgi_filename (Some file) self) in
    let raw (op_id : OpId) :=
      let b := (3 + 10 * Z.to_nat (OpId_to_Z op_id))%nat in
      [vgi_byte file (b + 1); vgi_byte file b; vgi_byte file (b + 2);
       vgi_byte file (b + 3); vgi_byte file (b + 4);
       Z.land (Z.shiftr (vgi_byte file (b + 5)) 7) 0x01;
       Z.land (vgi_byte file (b + 5)) 0x1F;
       vgi_byte file (b + 6); vgi_byte file (b + 8);
       vgi_byte file (b + 7); vgi_byte file (b + 9)] in
    (forall (ch_id : ChanId) (op_id : OpId),
       let op := get4 (operator (chan self' ch_id)) op_id in
       operator_block op = raw op_id
       /\ Forall (fun v => 0 <= v <= 255) (operator_block op)
       /\ 0 <= amp_mod_on op <= 1
       /\ 0 <= decay_rate op <= 31)
    /\ get_reg_values_array self'
       = [lfo_on self; lfo_freq self]
         ++ List.concat (repeat (firstn 5 (voice_block (chan self Ch0))
                                 ++ flat_map raw op_range) 6).
Proof.
  intros vgi_filename file self H self' raw. subst self' raw.
  rewrite (load_vgi_file_43 _ _ _ H). cbn [fst snd].
  assert (C : forall ch_id,
             chan (vgi_loaded vgi_filename file self) ch_id
             = mkChannel 5 (feedback (chan self Ch0))
                 (op_algorithm (chan self Ch0)) (audio_out (chan self Ch0))
                 (phase_mod_sens (chan self Ch0)) (amp_mod_sens (chan self Ch0))
                 (vgi_operators file)).
  { intros ch_id.
    replace (chan (vgi_loaded vgi_filename file self) ch_id)
      with (get6 (store (vgi_loaded vgi_filename file self))
                 (get6 (channel self) Ch0)) by (now destruct ch_id).
    unfold vgi_loaded. cbv zeta. cbn [store]. now rewrite get6_set6_same. }
  split.
  - intros ch_id op_id. rewrite C. cbn [operator].
    split; [now destruct op_id|].
    destruct op_id; apply vgi_operator_ranges.
  - rewrite get_reg_values_array_layout. unfold flatten_layout.
    cbn [flat_map ch_range]. rewrite !C. reflexivity.
Qed.

Lemma load_vgi_file_operator_ranges_witness :
  List.length (repeat xff 43) = 43%nat
  /\ operator_block
       (get4 (operator (chan (snd (load_vgi_file "full.vgi"
                                     (Some (repeat xff 43))
                                     (YM2612Chip_init None 0 0))) Ch3))
             Op2)
     = [255; 255; 255; 255; 255; 1; 31; 255; 255; 255; 255].
Proof.
  split; [reflexivity|].
  exact (proj1 (proj1 (load_vgi_file_operator_ranges "full.vgi"
                         (repeat xff 43) (YM2612Chip_init None 0 0) eq_refl)
                 Ch3 Op2)).
Defined.

(** ** Packing after unpacking *)

Lemma shiftl_shiftr_bit7 (reg : Z) :
  Z.shiftl (Z.land (Z.shiftr reg 7) 0x01) 7 = Z.land reg 0x80.
Proof.
  rewrite Z.shiftl_land.
  rewrite <- (Z.ldiff_ones_r reg 7) by lia.
  rewrite Z.ldiff_land, <- Z.land_assoc. reflexivity.
Qed.

(** X5. The AM/DR byte of a VGI file, split by the loader into
    [amp_mod_on] and [decay_rate] and packed again by [get_reg_AMDR],
    comes back with bits 6 and 5 cleared and every other bit kept: for any
    integer [reg], and so for the byte of every operator of a loaded
    file. *)
Theorem get_reg_AMDR_of_vgi_byte :
  (forall (reg : Z) (op : YMOperator),
     get_reg_AMDR (set_decay_rate (Z.land (Z.shiftr reg 0) 0x1F)
                     (set_amp_mod_on (Z.land (Z.shiftr reg 7) 0x01) op))
     = Z.land reg 0x9F)
  /\ (forall (file : list byte) (base : nat),
        get_reg_AMDR (vgi_operator file base)
        = Z.land (vgi_byte file (base + 5)) 0x9F).
Proof.
  assert (G : forall reg,
             Z.lor (Z.shiftl (Z.land (Z.land (Z.shiftr reg 7) 0x01) 0x01) 7)
                   (Z.land (Z.land reg 0x1F) 0x1F)
             = Z.land reg 0x9F).
  { intros reg. rewrite !land_land_same, shiftl_shiftr_bit7.
    rewrite <- Z.land_lor_distr_r. reflexivity. }
  split.
  - intros reg op. unfold get_reg_AMDR.
    cbn [amp_mod_on decay_rate set_decay_rate set_amp_mod_on].
    rewrite Z.shiftr_0_r. apply G.
  - intros file base. unfold get_reg_AMDR, vgi_operator.
    cbn [amp_mod_on decay_rate]. apply G.
Qed.

(** ** Voice-level and LFO registers *)

(** X6. The register bytes of a voice and of the LFO mask their fields
    like the operator registers do: LRAMSPMS is unchanged when [audio_out]
    and [amp_mod_sens] are reduced to 2 bits and [phase_mod_sens] to 3,
    FBALG when [op_algorithm] is reduced to 3 bits, the LFO byte when
    [lfo_on] is reduced to 1 bit and [lfo_freq] to 3; LRAMSPMS is a byte
    whose bit 3 is always clear, FBALG is at most 31 and the LFO byte at
    most 15, for any integers in the fields. *)
Theorem voice_registers_mask_fields :
  forall (ch : YMChannel) (self : YM2612Chip) (v : Z),
    get_reg_LRAMSPMS (set_audio_out v ch)
      = get_reg_LRAMSPMS (set_audio_out (Z.land v 3) ch)
    /\ get_reg_LRAMSPMS (set_amp_mod_sens v ch)
      = get_reg_LRAMSPMS (set_amp_mod_sens (Z.land v 3) ch)
    /\ get_reg_LRAMSPMS (set_phase_mod_sens v ch)
      = get_reg_LRAMSPMS (set_phase_mod_sens (Z.land v 7) ch)
    /\ get_reg_FBALG (set_op_algorithm v ch)
      = get_reg_FBALG (set_op_algorithm (Z.land v 7) ch)
    /\ get_LFO (set_lfo_on v self) = get_LFO (set_lfo_on (Z.land v 1) self)
    /\ get_LFO (set_lfo_freq v self) = get_LFO (set_lfo_freq (Z.land v 7) self)
    /\ 0 <= get_reg_LRAMSPMS ch <= 255
    /\ Z.testbit (get_reg_LRAMSPMS ch) 3 = false
    /\ 0 <= get_reg_FBALG ch <= 31
    /\ 0 <= get_LFO self <= 15.
Proof.
  intros ch self v.
  unfold get_reg_LRAMSPMS, get_reg_FBALG, get_LFO.
  cbn [audio_out amp_mod_sens phase_mod_sens feedback op_algorithm
       set_audio_out set_amp_mod_sens set_phase_mod_sens set_op_algorithm
       lfo_on lfo_freq set_lfo_on set_lfo_freq].
  rewrite !land_land_same.
  repeat (split; [reflexivity|]).
  assert (B : forall r n, 0 <= n -> Z.land r (Z.ones n) = r -> 0 <= r < 2 ^ n).
  { intros r n Hn Hr. rewrite <- Hr. now apply land_ones_range. }
  split.
  - apply byte_of_land.
    repeat first
      [ apply lor_byte
      | apply land_mask_byte; reflexivity
      | apply shiftl_mask_byte; reflexivity ].
  - split; [|split].
    + rewrite !Z.lor_spec, !Z.shiftl_spec, !Z.land_spec by lia.
      rewrite (Z.testbit_neg_r (audio_out ch) (3 - 6)) by lia.
      rewrite (Z.testbit_neg_r (amp_mod_sens ch) (3 - 4)) by lia.
      change (Z.testbit 7 3) with false.
      now destruct (Z.testbit (phase_mod_sens ch) 3).
    + enough (0 <= Z.lor (Z.shiftl (Z.land (feedback ch) 3) 3)
                         (Z.land (op_algorithm ch) 7) < 2 ^ 5)
        by (change (2 ^ 5) with 32 in *; lia).
      apply B; [lia|].
      rewrite Z.land_lor_distr_l, Z.shiftl_land, <- !Z.land_assoc. reflexivity.
    + enough (0 <= Z.lor (Z.shiftl (Z.land (lfo_on self) 1) 3)
                         (Z.land (lfo_freq self) 7) < 2 ^ 4)
        by (change (2 ^ 4) with 16 in *; lia).
      apply B; [lia|].
      rewrite Z.land_lor_distr_l, Z.shiftl_land, <- !Z.land_assoc. reflexivity.
Qed.


(** ** Sending the registers *)

Lemma midi_set_reg_values_eq (self : YM2612Chip) :
  midi_set_reg_values self
  = send_midi_cmd 0 (get_reg_values_array self) self.
Proof.
  unfold midi_set_reg_values. cbv zeta.
  unfold bind at 1, gets. cbv beta iota. now rewrite bind_ret_r.
Qed.

(** X7. [midi_set_reg_values] returns True exactly when a transport is
    attached; then it hands over one frame, command 0 with the 296
    register values as payload (302 bytes in all), and without a transport
    it sends nothing.  Either way the registers it reports are left as
    they were. *)
Theorem midi_set_reg_values_effect :
  forall self : YM2612Chip,
    let r := midi_set_reg_values self in
    fst r = Return (match midiout self with Some _ => true | None => false end)
    /\ sent (snd r)
       = sent self
         ++ match midiout self with
            | Some _ => [sysex_frame (vendor_id self) 0 (get_reg_values_array self)]
            | None => []
            end
    /\ List.length (sysex_frame (vendor_id self) 0 (get_reg_values_array self))
       = 302%nat
    /\ get_reg_values_array (snd r) = get_reg_values_array self
    /\ channel (snd r) = channel self
    /\ store (snd r) = store self.
Proof.
  intros self r. subst r. rewrite midi_set_reg_values_eq.
  assert (L : List.length (sysex_frame (vendor_id self) 0
                             (get_reg_values_array self)) = 302%nat).
  { unfold sysex_frame. rewrite !length_app, get_reg_values_array_length.
    reflexivity. }
  destruct (midiout self) as [m|] eqn:Hm.
  - rewrite (send_midi_cmd_attached _ _ _ m Hm). cbn [fst snd].
    repeat split; try reflexivity; exact L.
  - rewrite (send_midi_cmd_detached _ _ _ Hm). cbn [fst snd].
    repeat split; try reflexivity; try exact L. now rewrite app_nil_r.
Qed.

(** ** The custom preset *)

Lemma chan_put_channel (j k : ChanId) (v : YMChannel) (self : YM2612Chip) :
  chan (put_channel j v self) k
  = if ChanId_eq_dec (get6 (channel self) j) (get6 (channel self) k)
    then v else chan self k.
Proof.
  unfold chan, put_channel. cbn [store channel set_store].
  destruct (ChanId_eq_dec _ _) as [E|E].
  - rewrite <- E. apply get6_set6_same.
  - now apply get6_set6_other.
Qed.

Lemma update_channel_put (k : ChanId) (f : YMChannel -> YMChannel)
    (v : YMChannel) (self : YM2612Chip) :
  update_channel k f (put_channel k v self) = put_channel k (f v) self.
Proof.
  unfold update_channel, put_channel, chan. cbn [store channel set_store].
  rewrite get6_set6_same, set6_set6_same. now destruct self.
Qed.

Lemma update_channel_as_put (k : ChanId) (f : YMChannel -> YMChannel)
    (self : YM2612Chip) :
  update_channel k f self = put_channel k (f (chan self k)) self.
Proof. reflexivity. Qed.


(** A loop whose body always returns runs its steps in order. *)
Lemma for_each_steps {S A : Type} (body : A -> M S unit) (step : A -> S -> S) :
  (forall x s, body x s = (Return tt, step x s)) ->
  forall xs s,
    for_each xs body s = (Return tt, fold_left (fun s x => step x s) xs s).
Proof.
  intros Hb xs. induction xs as [|x xs IH]; intros s; cbn [for_each fold_left].
  - reflexivity.
  - unfold bind. rewrite Hb. apply IH.
Qed.

Lemma custom_step_chan (j k : ChanId) (self : YM2612Chip) :
  chan (custom_step j self) k
  = if ChanId_eq_dec (get6 (channel self) j) (get6 (channel self) k)
    then custom_voice (channel_id (chan self k)) else chan self k.
Proof.
  unfold custom_step. rewrite chan_put_channel.
  cbn [channel set_logger].
  destruct (ChanId_eq_dec _ _) as [E|E]; [|reflexivity].
  unfold chan. cbn [store channel set_logger]. now rewrite E.
Qed.

(** The voice loop makes every voice it visits a custom voice, keeps the
    custom voices it finds, and keeps every [channel_id]. *)
Lemma custom_steps_spec (xs : list ChanId) :
  forall self,
    let self' := fold_left (fun s x => custom_step x s) xs self in
    channel self' = channel self
    /\ lfo_on self' = lfo_on self /\ lfo_freq self' = lfo_freq self
    /\ midiout self' = midiout self /\ vendor_id self' = vendor_id self
    /\ sent self' = sent self
    /\ (forall k, channel_id (chan self' k) = channel_id (chan self k))
    /\ (forall k,
          In k xs \/ voice_block (chan self k) = custom_voice_block ->
          voice_block (chan self' k) = custom_voice_block).
Proof.
  induction xs as [|x xs IH]; intros self; cbn [fold_left].
  - repeat split; try reflexivity. intros k [[]|H]. exact H.
  - specialize (IH (custom_step x self)). cbv zeta in IH.
    destruct IH as (Hc & Hon & Hfr & Hm & Hv & Hs & Hid & Hq).
    cbv zeta. rewrite Hc, Hon, Hfr, Hm, Hv, Hs.
    repeat split; try reflexivity.
    + intros k. rewrite Hid, custom_step_chan.
      now destruct (ChanId_eq_dec _ _).
    + intros k Hk. apply Hq. rewrite custom_step_chan.
      destruct (ChanId_eq_dec _ _) as [E|E]; [right; reflexivity|].
      destruct Hk as [[Hk|Hk]|Hk].
      * subst k. now elim E.
      * now left.
      * now right.
Qed.

Lemma set_custom_preset_eq (self : YM2612Chip) :
  set_custom_preset self = (Return true, custom_final (custom_loop self)).
Proof.
  unfold set_custom_preset. cbv zeta.
  unfold bind at 1, modify at 1. cbv beta iota.
  unfold bind at 1, modify at 1. cbv beta iota.
  unfold bind at 1.
  rewrite (for_each_steps _ custom_step).
  2:{ intros voice s.
      cbv beta iota delta [bind logger_info assign_ch assign_op modify].
      rewrite (update_channel_as_put voice _ (set_logger _ s)).
      rewrite !update_channel_put. reflexivity. }
  fold (custom_loop self). generalize (custom_loop self). intros s2.
  unfold bind at 1. unfold bind at 1, gets at 1. cbv beta iota.
  unfold custom_final, custom_send. destruct (midiout s2) as [m|] eqn:Hm.
  - rewrite midi_set_reg_values_eq, (send_midi_cmd_attached _ _ _ m Hm).
    reflexivity.
  - reflexivity.
Qed.

Lemma custom_loop_spec (self : YM2612Chip) :
  channel (custom_loop self) = channel self
  /\ lfo_on (custom_loop self) = 1 /\ lfo_freq (custom_loop self) = 0
  /\ midiout (custom_loop self) = midiout self
  /\ vendor_id (custom_loop self) = vendor_id self
  /\ sent (custom_loop self) = sent self
  /\ (forall k, channel_id (chan (custom_loop self) k) = channel_id (chan self k))
  /\ (forall k, voice_block (chan (custom_loop self) k) = custom_voice_block).
Proof.
  destruct (custom_steps_spec ch_range (set_lfo_freq 0 (set_lfo_on 1 self)))
    as (Hc & Hon & Hfr & Hm & Hv & Hs & Hid & Hq).
  fold (custom_loop self) in *.
  split; [exact Hc|]. split; [exact Hon|]. split; [exact Hfr|].
  split; [exact Hm|]. split; [exact Hv|]. split; [exact Hs|].
  split; [intros k; exact (Hid k)|].
  intros k. apply Hq. left. destruct k; cbn; tauto.
Qed.

(** The state after the frame and the last log record, for any state the
    voice loop may have left. *)
Lemma custom_final_spec (s2 : YM2612Chip) :
  lfo_on (custom_final s2) = lfo_on s2
  /\ lfo_freq (custom_final s2) = lfo_freq s2
  /\ channel (custom_final s2) = channel s2
  /\ (forall k, chan (custom_final s2) k = chan s2 k)
  /\ get_reg_values_array (custom_final s2) = get_reg_values_array s2
  /\ sent (custom_final s2)
     = sent s2
       ++ match midiout s2 with
          | Some _ => [sysex_frame (vendor_id s2) 0 (get_reg_values_array s2)]
          | None => []
          end.
Proof.
  assert (G : lfo_on (custom_final s2) = lfo_on s2
              /\ lfo_freq (custom_final s2) = lfo_freq s2
              /\ channel (custom_final s2) = channel s2
              /\ store (custom_final s2) = store s2
              /\ sent (custom_final s2)
                 = sent s2
                   ++ match midiout s2 with
                      | Some _ => [sysex_frame (vendor_id s2) 0
                                     (get_reg_values_array s2)]
                      | None => []
                      end).
  { unfold custom_final, custom_send.
    destruct (midiout s2) as [m|] eqn:Hm.
    - rewrite (send_midi_cmd_attached _ _ _ m Hm).
      cbn [snd lfo_on lfo_freq channel store sent set_logger set_sent].
      unfold list_append. repeat split.
    - cbn [lfo_on lfo_freq channel store sent set_logger].
      rewrite app_nil_r. repeat split. }
  destruct G as (G1 & G2 & G3 & G4 & G5).
  assert (G6 : forall k, chan (custom_final s2) k = chan s2 k)
    by (intros k; unfold chan; now rewrite G3, G4).
  repeat split; try assumption.
  rewrite !get_reg_values_array_layout. unfold flatten_layout.
  cbn [flat_map ch_range]. now rewrite G1, G2, !G6.
Qed.

(** X8. [set_custom_preset], from any state and whatever slots share an
    object: every voice ends up with the same 49 preset values, the LFO
    fields become 1 and 0, the slots and every [channel_id] are kept.
    With a transport one SET_REG frame carrying these values is handed
    over; without one nothing is sent and the call still returns True. *)
Theorem set_custom_preset_effect :
  forall self : YM2612Chip,
    let r := set_custom_preset self in
    fst r = Return true
    /\ lfo_on (snd r) = 1 /\ lfo_freq (snd r) = 0
    /\ (forall k, voice_block (chan (snd r) k) = custom_voice_block)
    /\ (forall k, channel_id (chan (snd r) k) = channel_id (chan self k))
    /\ channel (snd r) = channel self
    /\ get_reg_values_array (snd r)
       = [1; 0] ++ List.concat (repeat custom_voice_block 6)
    /\ sent (snd r)
       = sent self
         ++ match midiout self with
            | Some _ =>
                [sysex_frame (vendor_id self) 0
                   ([1; 0] ++ List.concat (repeat custom_voice_block 6))]
            | None => []
            end.
Proof.
  intros self r. subst r. rewrite set_custom_preset_eq. cbn [fst snd].
  destruct (custom_loop_spec self) as (Hc & Hon & Hfr & Hm & Hv & Hs & Hid & Hall).
  generalize dependent (custom_loop self). intros s2 Hc Hon Hfr Hm Hv Hs Hid Hall.
  destruct (custom_final_spec s2) as (F1 & F2 & F3 & F6 & F7 & F5).
  assert (Hregs : get_reg_values_array s2
                  = [1; 0] ++ List.concat (repeat custom_voice_block 6)).
  { rewrite get_reg_values_array_layout. unfold flatten_layout.
    rewrite Hon, Hfr. cbn [flat_map ch_range]. rewrite !Hall. reflexivity. }
  rewrite F1, F2, F3, F5, F7, Hon, Hfr, Hc, Hs, Hv, Hm, Hregs.
  split; [reflexivity|]. split; [reflexivity|]. split; [reflexivity|].
  split; [intros k; rewrite F6; apply Hall|].
  split; [intros k; rewrite F6; apply Hid|].
  split; [reflexivity|]. split; reflexivity.
Qed.


(** ** Reading the fields back *)

Lemma land_ones_small (v n : Z) : 0 <= n -> 0 <= v < 2 ^ n -> Z.land v (Z.ones n) = v.
Proof. intros Hn Hv. rewrite Z.land_ones by exact Hn. now apply Z.mod_small. Qed.

Lemma land_mask_small (v m n : Z) :
  0 <= n -> m = Z.ones n -> 0 <= v < 2 ^ n -> Z.land v m = v.
Proof. intros Hn -> Hv. now apply land_ones_small. Qed.

Lemma lor_shiftl_high (a b n : Z) :
  0 <= n -> 0 <= b < 2 ^ n -> Z.shiftr (Z.lor (Z.shiftl a n) b) n = a.
Proof.
  intros Hn Hb. rewrite Z.shiftr_lor, Z.shiftr_shiftl_l by exact Hn.
  rewrite Z.sub_diag, Z.shiftl_0_r, (Z.shiftr_div_pow2 b) by exact Hn.
  rewrite Z.div_small by exact Hb. apply Z.lor_0_r.
Qed.

Lemma lor_shiftl_low (a b n : Z) :
  0 <= n -> 0 <= b < 2 ^ n -> Z.land (Z.lor (Z.shiftl a n) b) (Z.ones n) = b.
Proof.
  intros Hn Hb. rewrite Z.land_lor_distr_l, (land_ones_small b n Hn Hb).
  rewrite Z.land_ones, Z.shiftl_mul_pow2, Z.mod_mul by lia.
  reflexivity.
Qed.

Lemma lor_shiftl_low_mask (a b n k : Z) :
  0 <= k <= n -> 0 <= b < 2 ^ k ->
  Z.land (Z.lor (Z.shiftl a n) b) (Z.ones k) = b.
Proof.
  intros Hk Hb.
  assert (Hb' : 0 <= b < 2 ^ n).
  { split; [lia|]. apply Z.lt_le_trans with (2 ^ k); [lia|].
    apply Z.pow_le_mono_r; lia. }
  replace (Z.ones k) with (Z.land (Z.ones n) (Z.ones k)).
  - rewrite Z.land_assoc, lor_shiftl_low by lia. apply land_ones_small; lia.
  - rewrite Z.land_comm. apply land_ones_small; [lia|].
    rewrite Z.ones_equiv. split.
    + apply Z.lt_le_pred. apply Z.pow_pos_nonneg; lia.
    + apply Z.lt_le_trans with (2 ^ k); [lia|]. apply Z.pow_le_mono_r; lia.
Qed.

Lemma field_in_range (f : OpField) (op : YMOperator) :
  operator_in_range op -> 0 <= field_get f op < 2 ^ field_width f.
Proof. intros H. specialize (H f). unfold field_max in H. lia. Qed.

(** X9. When every field of an operator lies within its declared width,
    the seven register bytes hold the fields exactly: each field is read
    back from its byte by the shift and mask of its bit position.  Hence
    two operators in range with the same seven bytes are equal. *)
Theorem operator_regs_read_back :
  forall op : YMOperator,
    operator_in_range op ->
    Z.shiftr (get_reg_DETMUL op) 4 = detune op
    /\ Z.land (get_reg_DETMUL op) 0x0F = multiple op
    /\ get_reg_TL op = total_level op
    /\ Z.shiftr (get_reg_KSAR op) 6 = key_scale op
    /\ Z.land (get_reg_KSAR op) 0x1F = attack_rate op
    /\ Z.shiftr (get_reg_AMDR op) 7 = amp_mod_on op
    /\ Z.land (get_reg_AMDR op) 0x1F = decay_rate op
    /\ get_reg_SR op = sustain_rate op
    /\ Z.shiftr (get_reg_SLRL op) 4 = sustain_level op
    /\ Z.land (get_reg_SLRL op) 0x0F = release_rate op
    /\ get_reg_SSGEG op = ssg_envelope op
    /\ (forall op' : YMOperator,
          operator_in_range op' -> operator_regs op = operator_regs op' ->
          op = op').
Proof.
  assert (R : forall op, operator_in_range op ->
    Z.shiftr (get_reg_DETMUL op) 4 = detune op
    /\ Z.land (get_reg_DETMUL op) 0x0F = multiple op
    /\ get_reg_TL op = total_level op
    /\ Z.shiftr (get_reg_KSAR op) 6 = key_scale op
    /\ Z.land (get_reg_KSAR op) 0x1F = attack_rate op
    /\ Z.shiftr (get_reg_AMDR op) 7 = amp_mod_on op
    /\ Z.land (get_reg_AMDR op) 0x1F = decay_rate op
    /\ get_reg_SR op = sustain_rate op
    /\ Z.shiftr (get_reg_SLRL op) 4 = sustain_level op
    /\ Z.land (get_reg_SLRL op) 0x0F = release_rate op
    /\ get_reg_SSGEG op = ssg_envelope op).
  { intros op H.
    pose proof (field_in_range FDetune op H) as H1.
    pose proof (field_in_range FMultiple op H) as H2.
    pose proof (field_in_range FTotalLevel op H) as H3.
    pose proof (field_in_range FKeyScale op H) as H4.
    pose proof (field_in_range FAttackRate op H) as H5.
    pose proof (field_in_range FAmpModOn op H) as H6.
    pose proof (field_in_range FDecayRate op H) as H7.
    pose proof (field_in_range FSustainRate op H) as H8.
    pose proof (field_in_range FSustainLevel op H) as H9.
    pose proof (field_in_range FReleaseRate op H) as H10.
    pose proof (field_in_range FSsgEnvelope op H) as H11.
    cbn [field_get field_width] in *.
    unfold get_reg_DETMUL, get_reg_TL, get_reg_KSAR, get_reg_AMDR,
      get_reg_SR, get_reg_SLRL, get_reg_SSGEG.
    change 0x70 with (Z.shiftl 0x07 4).
    rewrite <- Z.shiftl_land.
    rewrite (land_mask_small (detune op) 7 3 ltac:(lia) eq_refl H1),
      (land_mask_small (multiple op) 15 4 ltac:(lia) eq_refl H2),
      (land_mask_small (total_level op) 127 7 ltac:(lia) eq_refl H3),
      (land_mask_small (key_scale op) 3 2 ltac:(lia) eq_refl H4),
      (land_mask_small (attack_rate op) 31 5 ltac:(lia) eq_refl H5),
      (land_mask_small (amp_mod_on op) 1 1 ltac:(lia) eq_refl H6),
      (land_mask_small (decay_rate op) 31 5 ltac:(lia) eq_refl H7),
      (land_mask_small (sustain_rate op) 31 5 ltac:(lia) eq_refl H8),
      (land_mask_small (sustain_level op) 15 4 ltac:(lia) eq_refl H9),
      (land_mask_small (release_rate op) 15 4 ltac:(lia) eq_refl H10),
      (land_mask_small (ssg_envelope op) 15 4 ltac:(lia) eq_refl H11).
    split; [apply lor_shiftl_high; lia|].
    split; [exact (lor_shiftl_low _ _ 4 ltac:(lia) H2)|].
    split; [reflexivity|].
    split; [apply lor_shiftl_high; [lia|]; split; [lia|];
            apply Z.lt_le_trans with (2 ^ 5); [lia|];
            apply Z.pow_le_mono_r; lia|].
    split; [exact (lor_shiftl_low_mask _ _ 6 5 ltac:(lia) H5)|].
    split; [apply lor_shiftl_high; [lia|]; split; [lia|];
            apply Z.lt_le_trans with (2 ^ 5); [lia|];
            apply Z.pow_le_mono_r; lia|].
    split; [exact (lor_shiftl_low_mask _ _ 7 5 ltac:(lia) H7)|].
    split; [reflexivity|].
    split; [apply lor_shiftl_high; lia|].
    split; [exact (lor_shiftl_low _ _ 4 ltac:(lia) H10)|].
    reflexivity. }
  intros op H. destruct (R op H) as (A1&A2&A3&A4&A5&A6&A7&A8&A9&A10&A11).
  repeat (split; [assumption|]).
  intros op' H' E.
  destruct (R op' H') as (B1&B2&B3&B4&B5&B6&B7&B8&B9&B10&B11).
  unfold operator_regs in E. injection E as E1 E2 E3 E4 E5 E6 E7.
  destruct op as [a1 a2 a3 a4 a5 a6 a7 a8 a9 a10 a11].
  destruct op' as [b1 b2 b3 b4 b5 b6 b7 b8 b9 b10 b11].
  cbn [detune multiple total_level key_scale attack_rate amp_mod_on
       decay_rate sustain_rate sustain_level release_rate ssg_envelope] in *.
  congruence.
Qed.

Lemma operator_regs_read_back_witness :
  operator_in_range (mkOperator 3 15 0x28 1 31 1 4 10 0 3 0)
  /\ Z.shiftr (get_reg_DETMUL (mkOperator 3 15 0x28 1 31 1 4 10 0 3 0)) 4 = 3.
Proof.
  assert (H : operator_in_range (mkOperator 3 15 0x28 1 31 1 4 10 0 3 0))
    by (intros f; destruct f; cbv; split; discriminate).
  split; [exact H|].
  exact (proj1 (operator_regs_read_back _ H)).
Defined.


(** * Properties of the control application *)

Lemma combo_current_voice_out {S : Type} (x : Z) (st : S) :
  combo_current voiceOut_keys (Z.land x 0x03) st
  = (GReturn (voice_out_at (Z.land x 0x03)), st).
Proof.
  pose proof (land_ones_range x 2 ltac:(lia)) as H.
  change (Z.ones 2) with 3 in H. change (2 ^ 2) with 4 in H.
  assert (C : Z.land x 3 = 0 \/ Z.land x 3 = 1 \/ Z.land x 3 = 2 \/ Z.land x 3 = 3)
    by lia.
  destruct C as [C|[C|[C|C]]]; rewrite C; reflexivity.
Qed.

Lemma combo_current_ssg {S : Type} (x : Z) (st : S) :
  combo_current SSGEG_keys (Z.land x 0x07) st
  = (GReturn (ssg_at (Z.land x 0x07)), st).
Proof.
  pose proof (land_ones_range x 3 ltac:(lia)) as H.
  change (Z.ones 3) with 7 in H. change (2 ^ 3) with 8 in H.
  assert (C : Z.land x 7 = 0 \/ Z.land x 7 = 1 \/ Z.land x 7 = 2 \/ Z.land x 7 = 3
              \/ Z.land x 7 = 4 \/ Z.land x 7 = 5 \/ Z.land x 7 = 6 \/ Z.land x 7 = 7)
    by lia.
  destruct C as [C|[C|[C|[C|[C|[C|[C|C]]]]]]]; rewrite C; reflexivity.
Qed.

(** Running a computation one statement at a time. *)
Lemma gbind_eval {S A B : Type} (m : GM S A) (k : A -> GM S B)
    (s s1 : S) (a : A) (r : GResult B * S) :
  m s = (GReturn a, s1) -> k a s1 = r -> gbind m k s = r.
Proof. intros Hm Hk. unfold gbind. now rewrite Hm. Qed.

Lemma gui_open_read_eval {A : Type} (file : list byte) (body : GM GuiLoader A)
    (self : MegadriverApp) (r : GResult A) (st : GuiLoader) :
  body (self, mkFile file 0) = (r, st) ->
  gui_open_read (Some file) body self = (r, fst st).
Proof. intros H. unfold gui_open_read. now rewrite H. Qed.

Ltac gui_prim :=
  cbv -[combo_current byte_val Z.land Z.shiftr Z.lor Z.shiftl voice_out_at
        ssg_at bool_of_int int_of_bool pack_B voiceOutValues SSGEGValues];
  reflexivity.

Ltac gui_run :=
  lazymatch goal with
  | |- gbind _ _ _ = _ => eapply gbind_eval; [gui_run | cbv beta; gui_run]
  | |- gfor_each _ _ _ = _ => cbv [op_range ch_range]; cbn [gfor_each]; gui_run
  | |- combo_current voiceOut_keys _ _ = _ => apply combo_current_voice_out
  | |- combo_current SSGEG_keys _ _ = _ => apply combo_current_ssg
  | |- (if ?c then _ else _) _ = _ =>
      let c' := eval cbv in c in
      change c with c'; cbv iota; gui_run
  | |- _ => gui_prim
  end.

Lemma loadVgiFile_43 (file : list byte) (voiceId : ChanId) (self : MegadriverApp) :
  List.length file = 43%nat ->
  loadVgiFile (Some file) voiceId self
  = (GReturn tt,
     set_gui_voice (set6 (gui_voice self) voiceId (gui_vgi_voice file)) self).
Proof.
  intros H. apply length_43 in H.
  repeat match goal with H : exists _, _ |- _ => destruct H as [? H] end.
  subst file.
  destruct self as [lg chip sel lon lrate vall live [g0 g1 g2 g3 g4 g5]].
  destruct voiceId;
    (etransitivity;
     [ unfold loadVgiFile; eapply gui_open_read_eval; gui_run
     | cbv -[byte_val Z.land Z.shiftr voice_out_at ssg_at bool_of_int];
       rewrite ?Z.shiftr_0_r; reflexivity ]).
Qed.


Lemma loadVgiFile_size_error (file : list byte) (voiceId : ChanId)
    (self : MegadriverApp) :
  List.length file <> 43%nat ->
  loadVgiFile (Some file) voiceId self
  = (GReturn tt,
     set_gui_log (gui_log self
                  ++ [GuiLogVgiSizeError (Z.of_nat (List.length file))]) self).
Proof.
  intros H. apply Nat.eqb_neq in H.
  unfold loadVgiFile. etransitivity.
  - eapply gui_open_read_eval.
    eapply gbind_eval; [reflexivity|]. cbv beta.
    cbn [skipn position contents snd fst]. rewrite H. reflexivity.
  - now destruct self.
Qed.

Lemma loadVgiFile_open_error (voiceId : ChanId) (self : MegadriverApp) :
  loadVgiFile None voiceId self = (GRaise GuiOSError, self).
Proof. reflexivity. Qed.

(** X10. [loadVgiFile] raises only when the file cannot be opened: then
    [OSError] propagates and the application is as it was.  Once the file
    is open the call returns normally whatever the file holds, and in no
    case does it touch the chip object or the widgets of another voice.
    A 43-byte file overwrites every widget of the chosen voice: the
    numeric ones with the file values, the output combobox with the entry
    at position bits 7:6 of the third byte, each SSG-EG combobox with the
    entry at position [byte & 7]; the positions always exist, so no
    [TclError].  Any other length only adds a record to the log. *)
Theorem loadVgiFile_effect :
  forall (opened : option (list byte)) (voiceId : ChanId)
         (self : MegadriverApp),
    let r := loadVgiFile opened voiceId self in
    FmChip (snd r) = FmChip self
    /\ (forall k, k <> voiceId ->
          get6 (gui_voice (snd r)) k = get6 (gui_voice self) k)
    /\ match opened with
       | None => r = (GRaise GuiOSError, self)
       | Some file =>
           fst r = GReturn tt
           /\ (if (List.length file =? 43)%nat
               then get6 (gui_voice (snd r)) voiceId = gui_vgi_voice file
                    /\ gui_log (snd r) = gui_log self
               else gui_voice (snd r) = gui_voice self
                    /\ gui_log (snd r)
                       = gui_log self
                         ++ [GuiLogVgiSizeError (Z.of_nat (List.length file))])
       end.
Proof.
  intros opened voiceId self r. subst r.
  destruct opened as [file|];
    [|rewrite loadVgiFile_open_error; repeat split].
  destruct (Nat.eqb_spec (List.length file) 43) as [E|E].
  - rewrite (loadVgiFile_43 _ _ _ E).
    cbn [fst snd FmChip set_gui_voice gui_voice gui_log].
    split; [reflexivity|].
    split; [intros k Hk; apply get6_set6_other; congruence|].
    split; [reflexivity|].
    split; [apply get6_set6_same | reflexivity].
  - rewrite (loadVgiFile_size_error _ _ _ E). repeat split.
Qed.

(** X11. The comboboxes are filled by position while the tables give
    values, and the two do not agree.  For the output, file bits 0 and 3
    change places: bits 11 (both channels) select the entry whose value is
    0 (off) and bits 00 select the entry whose value is 3; bits 01 and 10
    select themselves.  For SSG-EG, a byte with low bits 0 selects the
    entry of value 0 and low bits k in 1..7 select the entry of value
    7 + k, so the byte 0x08 that stands for the first SSG-EG mode selects
    "off" and the value 0x0F is never selected. *)
Theorem combobox_position_is_not_value :
  forall x : Z,
    voiceOutValues (voice_out_at (Z.land x 0x03))
    = (if Z.land x 0x03 =? 0 then 3
       else if Z.land x 0x03 =? 3 then 0 else Z.land x 0x03)
    /\ SSGEGValues (ssg_at (Z.land x 0x07))
       = (if Z.land x 0x07 =? 0 then 0 else 7 + Z.land x 0x07)
    /\ ssg_at (Z.land 0x08 0x07) = SsgOFF
    /\ ssg_at (Z.land x 0x07) <> SsgRSDA_OFF.
Proof.
  intros x.
  pose proof (land_ones_range x 2 ltac:(lia)) as H2.
  pose proof (land_ones_range x 3 ltac:(lia)) as H3.
  change (Z.ones 2) with 3 in H2. change (2 ^ 2) with 4 in H2.
  change (Z.ones 3) with 7 in H3. change (2 ^ 3) with 8 in H3.
  assert (C2 : Z.land x 3 = 0 \/ Z.land x 3 = 1 \/ Z.land x 3 = 2 \/ Z.land x 3 = 3)
    by lia.
  assert (C3 : Z.land x 7 = 0 \/ Z.land x 7 = 1 \/ Z.land x 7 = 2 \/ Z.land x 7 = 3
               \/ Z.land x 7 = 4 \/ Z.land x 7 = 5 \/ Z.land x 7 = 6 \/ Z.land x 7 = 7)
    by lia.
  split; [destruct C2 as [C|[C|[C|C]]]; rewrite C; reflexivity|].
  split; [destruct C3 as [C|[C|[C|[C|[C|[C|[C|C]]]]]]]; rewrite C; reflexivity|].
  split; [reflexivity|].
  destruct C3 as [C|[C|[C|[C|[C|[C|[C|C]]]]]]]; rewrite C; discriminate.
Qed.


(** ** Writing a voice *)

Lemma pack_B_ok (v : Z) :
  0 <= v <= 255 ->
  pack_B v = Some (byte_of_Z v) /\ byte_val (byte_of_Z v) = v.
Proof.
  intros H. unfold byte_of_Z, pack_B.
  replace ((0 <=? v) && (v <=? 255)) with true
    by (symmetry; apply andb_true_intro; split; apply Z.leb_le; lia).
  destruct (Byte.of_N (Z.to_N v)) as [b|] eqn:E.
  - split; [reflexivity|]. unfold byte_val.
    apply Byte.to_of_N in E. rewrite E. lia.
  - apply Byte.of_N_None_iff in E. lia.
Qed.

Lemma byte_of_Z_byte_val (b : byte) : byte_of_Z (byte_val b) = b.
Proof. destruct b; reflexivity. Qed.

Lemma write_byte_ok (v : Z) (st : GuiWriter) :
  0 <= v <= 255 ->
  write_byte v st = (GReturn tt, (fst st, list_append (snd st) (byte_of_Z v))).
Proof.
  intros H. unfold write_byte. now rewrite (proj1 (pack_B_ok v H)).
Qed.

(** The byte that holds output, AMS and PMS. *)
Lemma out_ams_pms_byte (key : VoiceOutKey) (ams pms : Z) :
  0 <= ams <= 3 -> 0 <= pms <= 7 ->
  let reg := Z.lor (Z.lor (Z.shiftl (voiceOutValues key) 6) (Z.shiftl ams 4))
                   (Z.shiftl pms 0) in
  0 <= reg <= 255
  /\ Z.land (Z.shiftr reg 6) 0x03 = voiceOutValues key
  /\ Z.land (Z.shiftr reg 4) 0x03 = ams
  /\ Z.land reg 0x07 = pms.
Proof.
  intros Ha Hp.
  assert (Ca : ams = 0 \/ ams = 1 \/ ams = 2 \/ ams = 3) by lia.
  assert (Cp : pms = 0 \/ pms = 1 \/ pms = 2 \/ pms = 3
               \/ pms = 4 \/ pms = 5 \/ pms = 6 \/ pms = 7) by lia.
  destruct key;
    destruct Ca as [C|[C|[C|C]]]; subst ams;
    destruct Cp as [C|[C|[C|[C|[C|[C|[C|C]]]]]]]; subst pms;
    vm_compute; repeat split; discriminate.
Qed.

(** The byte that holds the amplitude modulation flag and the decay
    rate. *)
Lemma am_decay_byte (am : bool) (decay : Z) :
  0 <= decay <= 31 ->
  let reg := Z.lor (Z.shiftl (int_of_bool am) 7) decay in
  0 <= reg <= 255
  /\ bool_of_int (Z.land (Z.shiftr reg 7) 0x01) = am
  /\ Z.land reg 0x1F = decay.
Proof.
  intros Hd reg. subst reg.
  assert (Hd7 : 0 <= decay < 2 ^ 7) by (change (2 ^ 7) with 128; lia).
  assert (Hd5 : 0 <= decay < 2 ^ 5) by (change (2 ^ 5) with 32; lia).
  split; [|split].
  - apply byte_of_land. apply lor_byte.
    + now destruct am.
    + change 0xFF with (Z.ones 8). apply land_ones_small; [lia|].
      change (2 ^ 8) with 256. lia.
  - rewrite (lor_shiftl_high _ _ 7) by lia. now destruct am.
  - change 0x1F with (Z.ones 5). apply lor_shiftl_low_mask; lia.
Qed.

Lemma SSGEGValues_range (key : SSGEGKey) : 0 <= SSGEGValues key <= 255.
Proof. destruct key; cbv; split; discriminate. Qed.

Ltac gui_range :=
  first [ apply SSGEGValues_range
        | apply out_ams_pms_byte; lia
        | apply am_decay_byte; lia
        | lia ].

Ltac gui_run_w :=
  lazymatch goal with
  | |- gbind _ _ _ = _ => eapply gbind_eval; [gui_run_w | cbv beta zeta; gui_run_w]
  | |- gfor_each _ _ _ = _ => cbv [op_range ch_range]; cbn [gfor_each]; gui_run_w
  | |- write_byte _ _ = _ => apply write_byte_ok; gui_range
  | |- _ => gui_prim
  end.

Lemma saveVgiFile_in_range (voiceId : ChanId) (self : MegadriverApp) :
  gui_voice_in_range (get6 (gui_voice self) voiceId) ->
  saveVgiFile true voiceId self
  = (GReturn tt,
     (set_gui_log (gui_log self ++ [GuiLogSaved 43]) self,
      map byte_of_Z (gui_vgi_values (get6 (gui_voice self) voiceId)))).
Proof.
  intros H.
  destruct self as [lg chip sel lon lrate vall live [g0 g1 g2 g3 g4 g5]].
  destruct voiceId; cbn [get6 gui_voice d6_0 d6_1 d6_2 d6_3 d6_4 d6_5] in H |- *;
    match type of H with
    | gui_voice_in_range ?g =>
        destruct g as [fb alg out ams pms [o0 o1 o2 o3]];
        destruct o0, o1, o2, o3
    end;
    destruct H as (H1 & H2 & H3 & H4 & Hops);
    pose proof (Hops Op0) as (?&?&?&?&?&?&?&?&?);
    pose proof (Hops Op1) as (?&?&?&?&?&?&?&?&?);
    pose proof (Hops Op2) as (?&?&?&?&?&?&?&?&?);
    pose proof (Hops Op3) as (?&?&?&?&?&?&?&?&?);
    clear Hops;
    cbn [get4 gui_operator d4_0 d4_1 d4_2 d4_3 varVoiceAlgorithm
         varVoiceFeedback varVoiceAMS varVoicePMS varOperatorMultiple
         varOperatorDetune varOperatorTotalLevel varOperatorKeyScale
         varOperatorAttackRate varOperatorDecayRate varOperatorSustainRate
         varOperatorReleaseRate varOperatorSustainLevel] in *;
    (etransitivity;
     [ unfold saveVgiFile, saveVgiFile_body; gui_run_w
     | cbv -[byte_of_Z Z.lor Z.shiftl int_of_bool voiceOutValues SSGEGValues];
       reflexivity ]).
Qed.


(** ** Save and load together *)

Lemma vgi_byte_packed (vs : list Z) (i : nat) :
  Forall (fun v => 0 <= v <= 255) vs ->
  vgi_byte (map byte_of_Z vs) i = nth i vs 0.
Proof.
  intros H. revert i. induction H as [|v vs Hv _ IH]; intros i.
  - now destruct i.
  - destruct i as [|i]; cbn [map nth].
    + unfold vgi_byte. cbn [nth]. apply (pack_B_ok v Hv).
    + apply IH.
Qed.

Lemma gui_vgi_values_range (g : GuiVoice) :
  gui_voice_in_range g -> Forall (fun v => 0 <= v <= 255) (gui_vgi_values g).
Proof.
  intros (H1 & H2 & H3 & H4 & Hops).
  unfold gui_vgi_values. apply Forall_app. split.
  - repeat (apply Forall_cons;
            [first [lia | exact (proj1 (out_ams_pms_byte _ _ _ H3 H4))]|]).
    apply Forall_nil.
  - apply Forall_flat_map. apply Forall_forall. intros k _.
    destruct (Hops k) as (?&?&?&?&?&Hd&?&?&?).
    unfold gui_vgi_operator_values.
    repeat (apply Forall_cons;
            [first [lia | exact (proj1 (am_decay_byte _ _ Hd))
                   | apply SSGEGValues_range]|]).
    apply Forall_nil.
Qed.

Lemma gui_vgi_values_length (g : GuiVoice) :
  List.length (gui_vgi_values g) = 43%nat.
Proof. reflexivity. Qed.

Lemma gui_vgi_voice_of_saved (g : GuiVoice) :
  gui_voice_in_range g ->
  gui_vgi_voice (map byte_of_Z (gui_vgi_values g)) = reloaded_voice g.
Proof.
  intros H. pose proof (gui_vgi_values_range g H) as R.
  destruct H as (H1 & H2 & H3 & H4 & Hops).
  unfold gui_vgi_voice, gui_vgi_operator.
  rewrite !(vgi_byte_packed _ _ R).
  destruct g as [fb alg out ams pms [o0 o1 o2 o3]].
  destruct o0 as [d0 m0 k0 a0 s0 t0 r0 l0 u0 y0 e0].
  destruct o1 as [d1 m1 k1 a1 s1 t1 r1 l1 u1 y1 e1].
  destruct o2 as [d2 m2 k2 a2 s2 t2 r2 l2 u2 y2 e2].
  destruct o3 as [d3 m3 k3 a3 s3 t3 r3 l3 u3 y3 e3].
  pose proof (Hops Op0) as (_&_&_&_&_&Y0&_).
  pose proof (Hops Op1) as (_&_&_&_&_&Y1&_).
  pose proof (Hops Op2) as (_&_&_&_&_&Y2&_).
  pose proof (Hops Op3) as (_&_&_&_&_&Y3&_).
  cbn [varVoiceAMS varVoicePMS get4 gui_operator d4_0 d4_1 d4_2 d4_3
       varOperatorDecayRate] in H3, H4, Y0, Y1, Y2, Y3.
  destruct (out_ams_pms_byte out ams pms H3 H4) as (_ & E1 & E2 & E3).
  destruct (am_decay_byte a0 y0 Y0) as (_ & A0 & B0).
  destruct (am_decay_byte a1 y1 Y1) as (_ & A1 & B1).
  destruct (am_decay_byte a2 y2 Y2) as (_ & A2 & B2).
  destruct (am_decay_byte a3 y3 Y3) as (_ & A3 & B3).
  cbv -[Z.lor Z.shiftl Z.land Z.shiftr int_of_bool bool_of_int voiceOutValues
        SSGEGValues voice_out_at ssg_at].
  cbv zeta in E1, E2, E3, A0, B0, A1, B1, A2, B2, A3, B3.
  rewrite E1, E2, E3, A0, B0, A1, B1, A2, B2, A3, B3.
  reflexivity.
Qed.

Lemma reloaded_operator_fixed (o : GuiOperator) :
  reloaded_operator o = o <-> comboOperatorSSGEG o = SsgOFF.
Proof.
  destruct o as [d m k a s t r l u y e]. unfold reloaded_operator.
  cbn [set_comboOperatorSSGEG comboOperatorSSGEG varOperatorDetune
       varOperatorMultiple varOperatorKeyScale varOperatorAmpMod
       varOperatorTotalLevel varOperatorAttackRate varOperatorSustainLevel
       varOperatorSustainRate varOperatorDecayRate varOperatorReleaseRate].
  split.
  - intros E. injection E as E. destruct s; (reflexivity || discriminate E).
  - intros ->. reflexivity.
Qed.

(** X12. Saving a voice whose widget values are in range, to a file that
    opens for writing, and loading the file again: the save returns and
    writes 43 bytes, the load returns, and every numeric widget and
    amplitude-modulation flag comes back as it was; but the output combobox comes back on the entry at the
    position of the saved value and every SSG-EG combobox on the entry at
    the position of the saved value's low three bits.  So the voice comes
    back unchanged exactly when its output is "R" or "L" and all four
    SSG-EG boxes are "OFF"; "R+L" comes back as "OFF" and "OFF" as
    "R+L". *)
Theorem save_then_load_voice :
  forall (self : MegadriverApp) (voiceId target : ChanId),
    let g := get6 (gui_voice self) voiceId in
    gui_voice_in_range g ->
    let saved := saveVgiFile true voiceId self in
    let file := snd (snd saved) in
    let loaded := loadVgiFile (Some file) target (fst (snd saved)) in
    fst saved = GReturn tt
    /\ List.length file = 43%nat
    /\ fst loaded = GReturn tt
    /\ get6 (gui_voice (snd loaded)) target = reloaded_voice g
    /\ (reloaded_voice g = g
        <-> (comboVoiceOut g = OutR \/ comboVoiceOut g = OutL)
            /\ forall k, comboOperatorSSGEG (get4 (gui_operator g) k) = SsgOFF)
    /\ (comboVoiceOut g = OutRL -> comboVoiceOut (reloaded_voice g) = OutOFF)
    /\ (comboVoiceOut g = OutOFF -> comboVoiceOut (reloaded_voice g) = OutRL).
Proof.
  intros self voiceId target g H saved file loaded.
  subst saved file loaded.
  rewrite (saveVgiFile_in_range voiceId self H). cbn [fst snd]. fold g.
  assert (L : List.length (map byte_of_Z (gui_vgi_values g)) = 43%nat)
    by (now rewrite length_map).
  rewrite (loadVgiFile_43 _ target _ L). cbn [fst snd gui_voice set_gui_voice].
  rewrite get6_set6_same, (gui_vgi_voice_of_saved g H).
  split; [reflexivity|]. split; [exact L|]. split; [reflexivity|].
  split; [reflexivity|].
  split.
  - destruct g as [fb alg out ams pms [o0 o1 o2 o3]]. unfold reloaded_voice.
    cbn [comboVoiceOut gui_operator get4 d4_0 d4_1 d4_2 d4_3 varVoiceFeedback
         varVoiceAlgorithm varVoiceAMS varVoicePMS].
    split.
    + intros E. injection E as Eo E0 E1 E2 E3.
      split.
      * destruct out; cbv in Eo; (discriminate Eo || tauto).
      * intros k. destruct k; cbn [get4 d4_0 d4_1 d4_2 d4_3];
          now apply reloaded_operator_fixed.
    + intros [Ho Hk].
      pose proof (proj2 (reloaded_operator_fixed o0) (Hk Op0)) as R0.
      pose proof (proj2 (reloaded_operator_fixed o1) (Hk Op1)) as R1.
      pose proof (proj2 (reloaded_operator_fixed o2) (Hk Op2)) as R2.
      pose proof (proj2 (reloaded_operator_fixed o3) (Hk Op3)) as R3.
      cbn [get4 d4_0 d4_1 d4_2 d4_3] in R0, R1, R2, R3.
      rewrite R0, R1, R2, R3.
      destruct Ho as [-> | ->]; reflexivity.
  - unfold reloaded_voice. cbn [comboVoiceOut].
    split; intros ->; reflexivity.
Qed.

Lemma save_then_load_voice_witness :
  let app := MegadriverApp_init (MidiPort 0) in
  let saved := saveVgiFile true Ch2 app in
  gui_voice_in_range (get6 (gui_voice app) Ch2)
  /\ comboVoiceOut
       (get6 (gui_voice (snd (loadVgiFile (Some (snd (snd saved))) Ch4
                                (fst (snd saved))))) Ch4)
     = OutOFF.
Proof.
  intros app saved.
  assert (H : gui_voice_in_range (get6 (gui_voice app) Ch2)).
  { cbn. unfold gui_voice_in_range, gui_operator_in_range. cbn.
    repeat split; try lia; destruct k; cbn; lia. }
  split; [exact H|].
  pose proof (save_then_load_voice app Ch2 Ch4 H) as T.
  cbv zeta in T. destruct T as (_ & _ & _ & T & _).
  subst saved. rewrite T. reflexivity.
Defined.


Lemma gui_vgi_voice_in_range (file : list byte) :
  gui_voice_in_range (gui_vgi_voice file).
Proof.
  unfold gui_voice_in_range, gui_vgi_voice.
  cbn [varVoiceAlgorithm varVoiceFeedback varVoiceAMS varVoicePMS gui_operator].
  pose proof (land_ones_range (Z.shiftr (vgi_byte file 2) 4) 2 ltac:(lia)) as Ha.
  pose proof (land_ones_range (vgi_byte file 2) 3 ltac:(lia)) as Hp.
  change (Z.ones 2) with 3 in Ha. change (2 ^ 2) with 4 in Ha.
  change (Z.ones 3) with 7 in Hp. change (2 ^ 3) with 8 in Hp.
  split; [apply vgi_byte_range|]. split; [apply vgi_byte_range|].
  split; [lia|]. split; [lia|].
  intros k.
  assert (G : forall base, gui_operator_in_range (gui_vgi_operator file base)).
  { intros base. unfold gui_operator_in_range, gui_vgi_operator.
    cbn [varOperatorMultiple varOperatorDetune varOperatorTotalLevel
         varOperatorKeyScale varOperatorAttackRate varOperatorDecayRate
         varOperatorSustainRate varOperatorReleaseRate varOperatorSustainLevel].
    pose proof (land_ones_range (vgi_byte file (base + 5)) 5 ltac:(lia)) as Hd.
    change (Z.ones 5) with 0x1F in Hd. change (2 ^ 5) with 32 in Hd.
    repeat (split; [first [apply vgi_byte_range | lia]|]).
    apply vgi_byte_range. }
  destruct k; apply G.
Qed.

Lemma shiftl_shiftr_ams (x : Z) :
  Z.shiftl (Z.land (Z.shiftr x 4) 0x03) 4 = Z.land x 0x30.
Proof.
  rewrite Z.shiftl_land.
  rewrite <- (Z.ldiff_ones_r x 4) by lia.
  rewrite Z.ldiff_land, <- Z.land_assoc. reflexivity.
Qed.

Lemma int_of_bool_of_bit (x : Z) :
  int_of_bool (bool_of_int (Z.land x 0x01)) = Z.land x 0x01.
Proof.
  pose proof (land_ones_range x 1 ltac:(lia)) as H.
  change (Z.ones 1) with 1 in H. change (2 ^ 1) with 2 in H.
  assert (C : Z.land x 1 = 0 \/ Z.land x 1 = 1) by lia.
  destruct C as [C|C]; rewrite C; reflexivity.
Qed.

(** X13. Loading a 43-byte file into a voice and saving that voice again,
    to a file that opens for writing, always succeeds and writes 43 bytes.  Thirty-four of them are the
    bytes of the file; the output/AMS/PMS byte comes back with bit 3
    cleared and bits 7:6 replaced by the value of the entry they
    selected; each AM/decay byte with bits 6:5 cleared; each SSG-EG byte
    as the value of the entry its low three bits selected. *)
Theorem load_then_save_file :
  forall (file : list byte) (voiceId : ChanId) (self : MegadriverApp),
    List.length file = 43%nat ->
    let loaded := snd (loadVgiFile (Some file) voiceId self) in
    let saved := saveVgiFile true voiceId loaded in
    let file' := snd (snd saved) in
    fst saved = GReturn tt
    /\ List.length file' = 43%nat
    /\ (forall i, ~ In i [2; 8; 12; 18; 22; 28; 32; 38; 42]%nat ->
          vgi_byte file' i = vgi_byte file i)
    /\ vgi_byte file' 2
       = Z.lor (Z.shiftl (voiceOutValues
                            (voice_out_at
                               (Z.land (Z.shiftr (vgi_byte file 2) 6) 0x03))) 6)
               (Z.land (vgi_byte file 2) 0x37)
    /\ (forall i, In i [8; 18; 28; 38]%nat ->
          vgi_byte file' i = Z.land (vgi_byte file i) 0x9F)
    /\ (forall i, In i [12; 22; 32; 42]%nat ->
          vgi_byte file' i
          = SSGEGValues (ssg_at (Z.land (vgi_byte file i) 0x07))).
Proof.
  intros file voiceId self H loaded saved file'. subst loaded saved file'.
  rewrite (loadVgiFile_43 _ _ _ H). cbn [snd].
  assert (R : gui_voice_in_range
                (get6 (gui_voice
                         (set_gui_voice (set6 (gui_voice self) voiceId
                                              (gui_vgi_voice file)) self))
                      voiceId)).
  { cbn [gui_voice set_gui_voice]. rewrite get6_set6_same.
    apply gui_vgi_voice_in_range. }
  rewrite (saveVgiFile_in_range _ _ R). cbn [fst snd gui_voice set_gui_voice].
  rewrite get6_set6_same.
  pose proof (gui_vgi_values_range _ (gui_vgi_voice_in_range file)) as F.
  assert (V : forall i,
             vgi_byte (map byte_of_Z (gui_vgi_values (gui_vgi_voice file))) i
             = nth i (gui_vgi_values (gui_vgi_voice file)) 0)
    by (intros i; now apply vgi_byte_packed).
  assert (O : forall i, (43 <= i)%nat -> vgi_byte file i = 0).
  { intros i Hi. unfold vgi_byte. rewrite nth_overflow by lia. reflexivity. }
  split; [reflexivity|].
  split; [now rewrite length_map|].
  split; [|split; [|split]].
  - intros i Hi. rewrite V.
    assert (Hb : existsb (Nat.eqb i) [2; 8; 12; 18; 22; 28; 32; 38; 42]%nat
                 = false).
    { destruct (existsb _ _) eqn:E; [|reflexivity].
      exfalso. apply Hi. apply existsb_exists in E.
      destruct E as (x & Hx & Ex). apply Nat.eqb_eq in Ex. now subst x. }
    clear - Hb O.
    cbv -[vgi_byte Z.lor Z.shiftl Z.land Z.shiftr int_of_bool bool_of_int
          voiceOutValues SSGEGValues voice_out_at ssg_at nth existsb Nat.eqb].
    do 43 (destruct i as [|i];
           [cbn [nth]; first [(cbv in Hb; discriminate Hb) | reflexivity]|]).
    cbn [nth]. destruct i; symmetry; apply O; lia.
  - rewrite V.
    cbv -[vgi_byte Z.lor Z.shiftl Z.land Z.shiftr int_of_bool bool_of_int
          voiceOutValues SSGEGValues voice_out_at ssg_at].
    rewrite Z.shiftl_0_r, <- Z.lor_assoc, shiftl_shiftr_ams.
    rewrite <- Z.land_lor_distr_r. reflexivity.
  - intros i Hi. rewrite V.
    cbn [In] in Hi.
    destruct Hi as [<-|[<-|[<-|[<-|[]]]]];
      cbv -[vgi_byte Z.lor Z.shiftl Z.land Z.shiftr int_of_bool bool_of_int
            voiceOutValues SSGEGValues voice_out_at ssg_at];
      rewrite int_of_bool_of_bit, shiftl_shiftr_bit7,
        <- Z.land_lor_distr_r; reflexivity.
  - intros i Hi. rewrite V.
    cbn [In] in Hi.
    destruct Hi as [<-|[<-|[<-|[<-|[]]]]]; reflexivity.
Qed.

Lemma load_then_save_file_witness :
  List.length sample_vgi = 43%nat
  /\ vgi_byte (snd (snd (saveVgiFile true Ch1
                           (snd (loadVgiFile (Some sample_vgi) Ch1
                                   (MegadriverApp_init (MidiPort 0))))))) 2
     = 0x37.
Proof.
  split; [reflexivity|].
  pose proof (load_then_save_file sample_vgi Ch1
                (MegadriverApp_init (MidiPort 0)) eq_refl) as T.
  cbv zeta in T. destruct T as (_ & _ & _ & T & _).
  rewrite T. reflexivity.
Defined.


(** ** From the widgets to the chip and to the wire *)

Lemma syncDriver_unshared (self : MegadriverApp) :
  unshared (FmChip self) ->
  syncDriver self
  = (GReturn tt,
     set_gui_log (gui_log self ++ [GuiLogSyncDriver])
                 (set_FmChip (synced_chip self) self)).
Proof.
  intros H.
  destruct self as [lg chip sel lon lrate vall live [g0 g1 g2 g3 g4 g5]].
  destruct chip as [clg mo vid clon cfr tbl a1 a2 a3 a4 a5 [s0 s1 s2 s3 s4 s5] sn].
  unfold unshared in H. cbn [FmChip channel] in H. subst tbl.
  etransitivity.
  - unfold syncDriver. gui_run.
  - cbv -[int_of_bool voiceOutValues SSGEGValues]. reflexivity.
Qed.

Lemma synced_chip_chan (self : MegadriverApp) (k : ChanId) :
  unshared (FmChip self) ->
  chan (synced_chip self) k
  = chip_voice_of_gui (channel_id (chan (FmChip self) k))
                      (get6 (gui_voice self) k).
Proof.
  intros H. unfold chan, synced_chip. cbv zeta.
  cbn [store channel set_store set_lfo_freq set_lfo_on].
  rewrite H. now destruct k.
Qed.

Lemma synced_chip_regs (self : MegadriverApp) :
  unshared (FmChip self) ->
  get_reg_values_array (synced_chip self)
  = [varLfoRate self; varLfoRate self]
    ++ flat_map (fun k => voice_block
                            (chip_voice_of_gui 0 (get6 (gui_voice self) k)))
                ch_range.
Proof.
  intros H. rewrite get_reg_values_array_layout. unfold flatten_layout.
  cbn [flat_map ch_range]. rewrite !(synced_chip_chan self _ H).
  reflexivity.
Qed.

(** X14. [syncDriver] on a chip whose slots share no object: it returns,
    leaves the widgets alone and sends nothing; afterwards every voice of
    the chip holds the values of its own widgets (the output and SSG-EG
    values through their tables, the amplitude-modulation flag as 0 or 1)
    and keeps its [channel_id].  Both [lfo_on] and [lfo_freq] receive the
    LFO rate: the LFO checkbox is not read. *)
Theorem syncDriver_effect :
  forall self : MegadriverApp,
    unshared (FmChip self) ->
    let r := syncDriver self in
    let chip := FmChip (snd r) in
    fst r = GReturn tt
    /\ lfo_on chip = varLfoRate self
    /\ lfo_freq chip = varLfoRate self
    /\ (forall k,
          chan chip k = chip_voice_of_gui (channel_id (chan (FmChip self) k))
                                          (get6 (gui_voice self) k))
    /\ get_reg_values_array chip
       = [varLfoRate self; varLfoRate self]
         ++ flat_map (fun k => voice_block
                                 (chip_voice_of_gui 0 (get6 (gui_voice self) k)))
                     ch_range
    /\ gui_voice (snd r) = gui_voice self
    /\ varLfoOn (snd r) = varLfoOn self
    /\ channel chip = channel (FmChip self)
    /\ midiout chip = midiout (FmChip self)
    /\ sent chip = sent (FmChip self).
Proof.
  intros self H r chip. subst r chip.
  rewrite (syncDriver_unshared self H).
  cbn [fst snd FmChip set_gui_log set_FmChip gui_voice varLfoOn].
  split; [reflexivity|]. split; [reflexivity|]. split; [reflexivity|].
  split; [intros k; now apply synced_chip_chan|].
  split.
  - now apply synced_chip_regs.
  - repeat split.
Qed.

Lemma syncDriver_effect_witness :
  unshared (FmChip edited_app)
  /\ lfo_on (FmChip (snd (syncDriver edited_app))) = 5
  /\ lfo_freq (FmChip (snd (syncDriver edited_app))) = 5
  /\ firstn 16 (voice_block (chan (FmChip (snd (syncDriver edited_app))) Ch2))
     = [6; 5; 0; 3; 7; 2; 1; 3; 4; 5; 1; 6; 7; 9; 8; 9]
  /\ firstn 5 (voice_block (chan (FmChip edited_app) Ch2)) = [0; 0; 3; 0; 0].
Proof.
  split; [reflexivity|].
  pose proof (syncDriver_effect edited_app eq_refl) as W. cbv zeta in W.
  destruct W as (_ & W1 & W2 & W3 & _).
  split; [exact W1|]. split; [exact W2|].
  split; [rewrite (W3 Ch2); reflexivity | reflexivity].
Defined.

Lemma on_chip_eval {A : Type} (m : M YM2612Chip A) (self : MegadriverApp)
    (a : A) (chip : YM2612Chip) :
  m (FmChip self) = (Return a, chip) ->
  on_chip m self = (GReturn a, set_FmChip chip self).
Proof. intros H. unfold on_chip. now rewrite H. Qed.

Lemma preset_name_ascii (presetVar : Z) :
  0 <= presetVar < 5 -> is_ascii (preset_name presetVar).
Proof.
  intros H.
  assert (C : presetVar = 0 \/ presetVar = 1 \/ presetVar = 2
              \/ presetVar = 3 \/ presetVar = 4) by lia.
  destruct C as [C|[C|[C|[C|C]]]]; subst presetVar; repeat constructor.
Qed.

(** X15. [sendCommand] with a transport attached, on a chip whose slots
    share no object: it returns normally; with "Live" selected it hands
    over one SET_REG frame; with slot k (0 to 4) selected it hands over
    a SAVE_PRESET frame for k named "PRESET k" (padded to 15 characters,
    two nibbles per character) followed by a LOAD_PRESET frame for k.
    The register values in the frames are those of the widgets at that
    moment. *)
Theorem sendCommand_frames :
  forall (self : MegadriverApp) (m : MidiOut),
    unshared (FmChip self) ->
    midiout (FmChip self) = Some m ->
    match varPresetCombo self with
    | SelLive => True
    | SelSlot presetVar => 0 <= presetVar < 5
    end ->
    let r := sendCommand self in
    let vid := vendor_id (FmChip self) in
    let regs := [varLfoRate self; varLfoRate self]
                ++ flat_map (fun k => voice_block
                               (chip_voice_of_gui 0 (get6 (gui_voice self) k)))
                            ch_range in
    fst r = GReturn tt
    /\ gui_voice (snd r) = gui_voice self
    /\ sent (FmChip (snd r))
       = sent (FmChip self)
         ++ match varPresetCombo self with
            | SelLive => [sysex_frame vid 0 regs]
            | SelSlot presetVar =>
                [sysex_frame vid 1
                   ([presetVar]
                    ++ name_nibbles
                         (map Z.of_N (format_ljust 15 (preset_name presetVar)))
                    ++ regs);
                 sysex_frame vid 2 [presetVar]]
            end.
Proof.
  intros self m H Hm Hsel r vid regs. subst r vid.
  pose proof (synced_chip_regs self H) as Sregs. fold regs in Sregs.
  assert (Smo : midiout (synced_chip self) = Some m) by exact Hm.
  assert (Svid : vendor_id (synced_chip self) = vendor_id (FmChip self))
    by reflexivity.
  assert (Ssent : sent (synced_chip self) = sent (FmChip self)) by reflexivity.
  set (self1 := set_gui_log (list_append (gui_log self) GuiLogSendCommand) self).
  assert (H1 : unshared (FmChip self1)) by exact H.
  assert (Esync : syncDriver self1
                  = (GReturn tt,
                     set_gui_log (gui_log self1 ++ [GuiLogSyncDriver])
                                 (set_FmChip (synced_chip self) self1)))
    by (exact (syncDriver_unshared self1 H1)).
  assert (V1 : gui_voice self1 = gui_voice self) by reflexivity.
  assert (P1 : varPresetCombo self1 = varPresetCombo self) by reflexivity.
  generalize dependent (synced_chip self). intros c2 Sregs Smo Svid Ssent Esync.
  enough (G : exists final,
             sendCommand self = (GReturn tt, final)
             /\ gui_voice final = gui_voice self
             /\ sent (FmChip final)
                = sent (FmChip self)
                  ++ match varPresetCombo self with
                     | SelLive => [sysex_frame (vendor_id (FmChip self)) 0 regs]
                     | SelSlot presetVar =>
                         [sysex_frame (vendor_id (FmChip self)) 1
                            ([presetVar]
                             ++ name_nibbles
                                  (map Z.of_N
                                     (format_ljust 15 (preset_name presetVar)))
                             ++ regs);
                          sysex_frame (vendor_id (FmChip self)) 2 [presetVar]]
                     end).
  { destruct G as (final & E & G1 & G2). rewrite E. cbn [fst snd].
    split; [reflexivity|]. split; assumption. }
  unfold sendCommand.
  destruct (varPresetCombo self) as [|presetVar] eqn:Esel.
  - eexists. split; [|split].
    + eapply gbind_eval; [reflexivity|]. cbv beta. fold self1.
      eapply gbind_eval; [reflexivity|]. cbv beta. rewrite P1.
      eapply gbind_eval; [exact Esync|]. cbv beta iota.
      eapply gbind_eval; [reflexivity|]. cbv beta.
      eapply gbind_eval.
      * eapply on_chip_eval. cbn [FmChip set_FmChip set_gui_log].
        rewrite midi_set_reg_values_eq, (send_midi_cmd_attached _ _ _ m Smo).
        reflexivity.
      * cbv beta. reflexivity.
    + exact V1.
    + cbn [FmChip set_FmChip set_gui_log sent set_logger set_sent].
      now rewrite Ssent, Svid, Sregs.
  - pose proof (utf8_ascii _ (format_ljust_ascii 15 _
                                (preset_name_ascii presetVar Hsel))) as U.
    fold (preset_name presetVar).
    eexists. split; [|split].
    + eapply gbind_eval; [reflexivity|]. cbv beta. fold self1.
      eapply gbind_eval; [reflexivity|]. cbv beta. rewrite P1.
      eapply gbind_eval; [exact Esync|]. cbv beta iota.
      eapply gbind_eval; [reflexivity|]. cbv beta.
      eapply gbind_eval.
      * eapply on_chip_eval. cbn [FmChip set_FmChip set_gui_log].
        rewrite (midi_save_preset_in_range _ _ _ _ (proj2 Hsel) U).
        rewrite (send_midi_cmd_attached _ _ _ m Smo). reflexivity.
      * cbv beta. eapply gbind_eval.
        -- eapply on_chip_eval. cbn [FmChip set_FmChip set_gui_log].
           rewrite midi_load_preset_eq.
           replace (presetVar <? 5) with true
             by (symmetry; apply Z.ltb_lt; lia).
           erewrite send_midi_cmd_attached by (cbn [midiout set_logger set_sent]; exact Smo).
           reflexivity.
        -- cbv beta. reflexivity.
    + exact V1.
    + cbn [FmChip set_FmChip set_gui_log sent vendor_id set_logger set_sent].
      now rewrite Ssent, Svid, Sregs, <- app_assoc.
Qed.

Lemma sendCommand_frames_witness :
  let app := MegadriverApp_init (MidiPort 0) in
  unshared (FmChip app)
  /\ midiout (FmChip app) = Some (MidiPort 0)
  /\ fst (sendCommand app) = GReturn tt.
Proof.
  intros app. split; [reflexivity|]. split; [reflexivity|].
  exact (proj1 (sendCommand_frames app (MidiPort 0) eq_refl eq_refl I)).
Defined.


(** ** Loading a preset file into all six voices *)

Lemma loadPreset_43 (filename : string) (file : list byte)
    (self : MegadriverApp) :
  filename <> ""%string ->
  List.length file = 43%nat ->
  loadPreset filename (Some file) self
  = (if varLiveUpdate self
     then sendCommand (preset_loaded filename file self)
     else (GReturn tt, preset_loaded filename file self)).
Proof.
  intros Hn H. apply String.eqb_neq in Hn.
  assert (L : forall s,
             gfor_each ch_range (fun voice => loadVgiFile (Some file) voice) s
             = (GReturn tt,
                set_gui_voice
                  (mkDict6 (gui_vgi_voice file) (gui_vgi_voice file)
                           (gui_vgi_voice file) (gui_vgi_voice file)
                           (gui_vgi_voice file) (gui_vgi_voice file)) s)).
  { intros s. cbv [ch_range]. cbn [gfor_each].
    repeat (eapply gbind_eval; [apply (loadVgiFile_43 _ _ _ H)|]; cbv beta).
    destruct s as [lg chip sel lon lrate vall live [g0 g1 g2 g3 g4 g5]].
    reflexivity. }
  unfold loadPreset. rewrite Hn.
  eapply gbind_eval; [reflexivity|]. cbv beta.
  eapply gbind_eval.
  - eapply gbind_eval; [reflexivity|]. cbv beta. apply L.
  - cbv beta. eapply gbind_eval; [reflexivity|]. cbv beta.
    assert (E : set_gui_voice
                  (mkDict6 (gui_vgi_voice file) (gui_vgi_voice file)
                     (gui_vgi_voice file) (gui_vgi_voice file)
                     (gui_vgi_voice file) (gui_vgi_voice file))
                  (set_gui_log
                     (list_append
                        (gui_log
                           (set_gui_log
                              (list_append (gui_log self) GuiLogLoadPreset) self))
                        (GuiLogFilename filename))
                     (set_gui_log
                        (list_append (gui_log self) GuiLogLoadPreset) self))
                = preset_loaded filename file self).
    { destruct self as [lg chip sel lon lrate vall live gv].
      unfold preset_loaded, list_append.
      cbn [set_gui_log set_gui_voice gui_log].
      now rewrite <- app_assoc. }
    cbn [varLiveUpdate set_gui_voice set_gui_log] in *.
    rewrite E.
    replace (varLiveUpdate (preset_loaded filename file self))
      with (varLiveUpdate self) by reflexivity.
    now destruct (varLiveUpdate self).
Qed.

(** X16. [loadPreset] when the dialog returns a file name and the file
    opens and has 43 bytes: the file is decoded into all six voices, so every tab
    shows the same voice.  With live update off nothing else happens: the
    call returns and the chip object is not touched.  With live update on
    the call goes on as [sendCommand] does from the loaded widgets. *)
Theorem loadPreset_effect :
  forall (filename : string) (file : list byte) (self : MegadriverApp),
    filename <> ""%string ->
    List.length file = 43%nat ->
    let r := loadPreset filename (Some file) self in
    (varLiveUpdate self = false ->
       fst r = GReturn tt
       /\ (forall k, get6 (gui_voice (snd r)) k = gui_vgi_voice file)
       /\ FmChip (snd r) = FmChip self
       /\ gui_log (snd r)
          = gui_log self ++ [GuiLogLoadPreset; GuiLogFilename filename])
    /\ (varLiveUpdate self = true ->
          exists loaded,
            r = sendCommand loaded
            /\ (forall k, get6 (gui_voice loaded) k = gui_vgi_voice file)
            /\ FmChip loaded = FmChip self
            /\ varPresetCombo loaded = varPresetCombo self).
Proof.
  intros filename file self Hn H r. subst r.
  rewrite (loadPreset_43 filename file self Hn H).
  split; intros E; rewrite E.
  - cbn [fst snd]. split; [reflexivity|].
    split; [intros k; now destruct k|]. split; reflexivity.
  - exists (preset_loaded filename file self).
    split; [reflexivity|]. split; [intros k; now destruct k|].
    split; reflexivity.
Qed.

Lemma loadPreset_effect_witness :
  let self := MegadriverApp_init (MidiPort 0) in
  let r := loadPreset "a.vgi" (Some sample_vgi) self in
  fst r = GReturn tt
  /\ (forall k, get6 (gui_voice (snd r)) k = gui_vgi_voice sample_vgi).
Proof.
  cbv zeta.
  pose proof (proj1 (loadPreset_effect "a.vgi" sample_vgi
                       (MegadriverApp_init (MidiPort 0))
                       ltac:(discriminate) eq_refl) eq_refl) as W.
  cbv zeta in W. split; [exact (proj1 W) | exact (proj1 (proj2 W))].
Defined.
